(** * A static-file HTTP server: shallow embedding of [http_server.py]

    The development follows the layout of the program.  Python values are
    embedded as follows:

    - [str]   : a sequence of Unicode code points, one [Z] per code point;
    - [bytes] : a sequence of octets, one [Z] per octet;
    - exceptions : the [exn] type, threaded by a small state-and-error monad
      whose state holds the client socket and the operator log;
    - the file system, the clock, the case tables of [str.lower] and the
      MIME registry of the platform are inputs of the handler.

    Part I embeds the library routines the handler calls ([bytes.decode],
    [str.split], [os.path.abspath], [mimetypes.guess_type], ...), Part II
    the [WebServer] class and the vocabulary of the statements, Part III
    proves facts about the library routines, Part IV runs the socket, the
    responders and the handler, and Part V states the properties of the
    request pipeline, one theorem per claim.  Parts VI to IX go on with
    what the handler does at its edges, the listener and the entry point,
    the resolution of targets without [..], and the content types. *)

From Stdlib Require Import ZArith List String Ascii Bool Lia DecimalString.
Import ListNotations.
Local Open Scope Z_scope.

(* ================================================================== *)
(** * Part I: the Python runtime the server relies on *)
(* ================================================================== *)

Definition str := list Z.
Definition bytes := list Z.

(** A literal of the source text, as the code points of its characters. *)
Definition lit (s : string) : list Z :=
  map (fun c => Z.of_N (N_of_ascii c)) (list_ascii_of_string s).
Arguments lit s%_string.

(** [len(x)] *)
Definition len {A} (x : list A) : Z := Z.of_nat (List.length x).

(** [str(n)] and the [{n}] field of an f-string, for an [int]. *)
Definition str_of_int (n : Z) : str := lit (NilZero.string_of_int (Z.to_int n)).

Definition in_range (lo hi x : Z) : bool := (lo <=? x) && (x <=? hi).

(** ** [bytes.decode('utf-8')] and [str.encode('utf-8')], strict error handler *)

Module utf8.

Definition is_cont (b : Z) : bool := in_range 0x80 0xBF b.

Definition payload (b : Z) : Z := Z.land b 0x3F.

Definition cp2 (b0 b1 : Z) : Z :=
  Z.lor (Z.shiftl (Z.land b0 0x1F) 6) (payload b1).

Definition cp3 (b0 b1 b2 : Z) : Z :=
  Z.lor (Z.shiftl (Z.land b0 0x0F) 12)
        (Z.lor (Z.shiftl (payload b1) 6) (payload b2)).

Definition cp4 (b0 b1 b2 b3 : Z) : Z :=
  Z.lor (Z.shiftl (Z.land b0 0x07) 18)
        (Z.lor (Z.shiftl (payload b1) 12)
               (Z.lor (Z.shiftl (payload b2) 6) (payload b3))).

(** The second octet of a three-octet form: [E0] excludes overlong forms,
    [ED] excludes the surrogates. *)
Definition second3 (b0 b1 : Z) : bool :=
  if b0 =? 0xE0 then in_range 0xA0 0xBF b1
  else if b0 =? 0xED then in_range 0x80 0x9F b1
  else is_cont b1.

(** The second octet of a four-octet form: [F0] excludes overlong forms,
    [F4] stops at U+10FFFF. *)
Definition second4 (b0 b1 : Z) : bool :=
  if b0 =? 0xF0 then in_range 0x90 0xBF b1
  else if b0 =? 0xF4 then in_range 0x80 0x8F b1
  else is_cont b1.

(** [None] stands for [UnicodeDecodeError]. *)
Fixpoint decode (bs : bytes) : option str :=
  match bs with
  | [] => Some []
  | b0 :: r0 =>
    if in_range 0x00 0x7F b0 then option_map (cons b0) (decode r0)
    else if in_range 0xC2 0xDF b0 then
      match r0 with
      | b1 :: r1 =>
        if is_cont b1 then option_map (cons (cp2 b0 b1)) (decode r1) else None
      | _ => None
      end
    else if in_range 0xE0 0xEF b0 then
      match r0 with
      | b1 :: b2 :: r2 =>
        if second3 b0 b1 && is_cont b2
        then option_map (cons (cp3 b0 b1 b2)) (decode r2) else None
      | _ => None
      end
    else if in_range 0xF0 0xF4 b0 then
      match r0 with
      | b1 :: b2 :: b3 :: r3 =>
        if second4 b0 b1 && is_cont b2 && is_cont b3
        then option_map (cons (cp4 b0 b1 b2 b3)) (decode r3) else None
      | _ => None
      end
    else None
  end.

Definition tail6 (c : Z) : Z := Z.lor 0x80 (Z.land c 0x3F).

(** The octets of one code point; [None] stands for [UnicodeEncodeError]
    (a lone surrogate) or for a number that is no code point at all. *)
Definition encode_cp (c : Z) : option bytes :=
  if c <? 0 then None
  else if c <? 0x80 then Some [c]
  else if c <? 0x800 then Some [Z.lor 0xC0 (Z.shiftr c 6); tail6 c]
  else if c <? 0x10000 then
    if in_range 0xD800 0xDFFF c then None
    else Some [Z.lor 0xE0 (Z.shiftr c 12); tail6 (Z.shiftr c 6); tail6 c]
  else if c <? 0x110000 then
    Some [Z.lor 0xF0 (Z.shiftr c 18); tail6 (Z.shiftr c 12);
          tail6 (Z.shiftr c 6); tail6 c]
  else None.

Fixpoint encode (s : str) : option bytes :=
  match s with
  | [] => Some []
  | c :: s' =>
    match encode_cp c, encode s' with
    | Some a, Some b => Some (a ++ b)
    | _, _ => None
    end
  end.

(** Well-formed UTF-8 octet sequences, after Table 3-7 of the Unicode
    standard (the definition the decoder is compared with). *)
Inductive well_formed : bytes -> Prop :=
| wf_nil : well_formed []
| wf_1 b0 r :
    0x00 <= b0 <= 0x7F -> well_formed r -> well_formed (b0 :: r)
| wf_2 b0 b1 r :
    0xC2 <= b0 <= 0xDF -> 0x80 <= b1 <= 0xBF ->
    well_formed r -> well_formed (b0 :: b1 :: r)
| wf_3_E0 b1 b2 r :
    0xA0 <= b1 <= 0xBF -> 0x80 <= b2 <= 0xBF ->
    well_formed r -> well_formed (0xE0 :: b1 :: b2 :: r)
| wf_3_E1_EC b0 b1 b2 r :
    0xE1 <= b0 <= 0xEC -> 0x80 <= b1 <= 0xBF -> 0x80 <= b2 <= 0xBF ->
    well_formed r -> well_formed (b0 :: b1 :: b2 :: r)
| wf_3_ED b1 b2 r :
    0x80 <= b1 <= 0x9F -> 0x80 <= b2 <= 0xBF ->
    well_formed r -> well_formed (0xED :: b1 :: b2 :: r)
| wf_3_EE_EF b0 b1 b2 r :
    0xEE <= b0 <= 0xEF -> 0x80 <= b1 <= 0xBF -> 0x80 <= b2 <= 0xBF ->
    well_formed r -> well_formed (b0 :: b1 :: b2 :: r)
| wf_4_F0 b1 b2 b3 r :
    0x90 <= b1 <= 0xBF -> 0x80 <= b2 <= 0xBF -> 0x80 <= b3 <= 0xBF ->
    well_formed r -> well_formed (0xF0 :: b1 :: b2 :: b3 :: r)
| wf_4_F1_F3 b0 b1 b2 b3 r :
    0xF1 <= b0 <= 0xF3 ->
    0x80 <= b1 <= 0xBF -> 0x80 <= b2 <= 0xBF -> 0x80 <= b3 <= 0xBF ->
    well_formed r -> well_formed (b0 :: b1 :: b2 :: b3 :: r)
| wf_4_F4 b1 b2 b3 r :
    0x80 <= b1 <= 0x8F -> 0x80 <= b2 <= 0xBF -> 0x80 <= b3 <= 0xBF ->
    well_formed r -> well_formed (0xF4 :: b1 :: b2 :: b3 :: r).

End utf8.

(** ** Methods of [str] *)

(** [s.startswith(p)] *)
Fixpoint startswith (s p : str) {struct p} : bool :=
  match p, s with
  | [], _ => true
  | _ :: _, [] => false
  | a :: p', b :: s' => (a =? b) && startswith s' p'
  end.

(** [s.endswith(p)] *)
Definition endswith (s p : str) : bool := startswith (rev s) (rev p).

(** [s.lstrip(chars)] *)
Fixpoint lstrip (s chars : str) : str :=
  match s with
  | [] => []
  | c :: s' => if existsb (Z.eqb c) chars then lstrip s' chars else s
  end.

(** [a == b] on [str] *)
Fixpoint str_eqb (a b : str) : bool :=
  match a, b with
  | [], [] => true
  | x :: a', y :: b' => (x =? y) && str_eqb a' b'
  | _, _ => false
  end.

(** [sep.join(parts)] *)
Fixpoint str_join (sep : str) (parts : list str) : str :=
  match parts with
  | [] => []
  | [p] => p
  | p :: rest => p ++ sep ++ str_join sep rest
  end.

(** The code points [str.isspace] accepts: the separators of [str.split()]. *)
Definition isspace (c : Z) : bool :=
  in_range 0x09 0x0D c || in_range 0x1C 0x20 c || (c =? 0x85) || (c =? 0xA0)
  || (c =? 0x1680) || in_range 0x2000 0x200A c || (c =? 0x2028)
  || (c =? 0x2029) || (c =? 0x202F) || (c =? 0x205F) || (c =? 0x3000).

(** [s.split()]: the maximal runs of non-space code points; [cur] is the run
    being read. *)
Fixpoint split_from (cur : str) (s : str) : list str :=
  match s with
  | [] => match cur with [] => [] | _ => [cur] end
  | c :: s' =>
    if isspace c
    then match cur with [] => split_from [] s' | _ => cur :: split_from [] s' end
    else split_from (cur ++ [c]) s'
  end.

Definition split (s : str) : list str := split_from [] s.

(** The line boundaries of [str.splitlines]; CR LF counts as one. *)
Definition is_linebreak (c : Z) : bool :=
  in_range 0x0A 0x0D c || in_range 0x1C 0x1E c || (c =? 0x85)
  || (c =? 0x2028) || (c =? 0x2029).

Fixpoint splitlines_from (cur : str) (s : str) : list str :=
  match s with
  | [] => match cur with [] => [] | _ => [cur] end
  | c :: s' =>
    if is_linebreak c then
      match s' with
      | d :: s'' =>
        if (c =? 0x0D) && (d =? 0x0A)
        then cur :: splitlines_from [] s''
        else cur :: splitlines_from [] s'
      | [] => [cur]
      end
    else splitlines_from (cur ++ [c]) s'
  end.

Definition splitlines (s : str) : list str := splitlines_from [] s.


(** [s.split(sep)] with an explicit one-character separator: empty fields
    are kept. *)
Fixpoint split_on_from (sep : Z) (cur : str) (s : str) : list str :=
  match s with
  | [] => [cur]
  | c :: s' =>
    if c =? sep then cur :: split_on_from sep [] s'
    else split_on_from sep (cur ++ [c]) s'
  end.

Definition split_on (sep : Z) (s : str) : list str := split_on_from sep [] s.

(** [s.rfind(c)]: the highest index of [c] in [s], or [-1]. *)
Fixpoint rfind_from (i : Z) (c : Z) (s : str) (found : Z) : Z :=
  match s with
  | [] => found
  | x :: s' => rfind_from (i + 1) c s' (if x =? c then i else found)
  end.

Definition rfind (c : Z) (s : str) : Z := rfind_from 0 c s (-1).

(** [s[i:j]] for [0 <= i]. *)
Definition slice (s : str) (i j : Z) : str :=
  firstn (Z.to_nat (j - i)) (skipn (Z.to_nat i) s).

Definition is_empty {A} (l : list A) : bool :=
  match l with [] => true | _ => false end.

(** A [dict] keyed by [str], as the list of its items, latest binding
    first. *)
Definition dict (V : Type) := list (str * V).

Fixpoint lookup {V} (d : dict V) (k : str) : option V :=
  match d with
  | [] => None
  | (k', v) :: d' => if str_eqb k' k then Some v else lookup d' k
  end.

(** [d[k] = v] *)
Definition setitem {V} (d : dict V) (k : str) (v : V) : dict V := (k, v) :: d.

(** [s.lower()]: an all-ASCII string is lowered letter by letter; any other
    string goes through the case tables of the Unicode database,
    [unicode_lower]. *)
Definition is_ascii (s : str) : bool := forallb (in_range 0 127) s.

Definition ascii_lower (s : str) : str :=
  map (fun c => if in_range 65 90 c then c + 32 else c) s.

Definition str_lower (unicode_lower : str -> str) (s : str) : str :=
  if is_ascii s then ascii_lower s else unicode_lower s.

(** ** [posixpath] *)

Module posixpath.

Definition sep : str := lit "/".
Definition dot : str := lit ".".
Definition dotdot : str := lit "..".

Definition isabs (s : str) : bool := startswith s sep.

(** [os.path.join(a, b)] *)
Definition join (a b : str) : str :=
  if startswith b sep then b
  else if is_empty a || endswith a sep then a ++ b
  else a ++ sep ++ b.

(** One turn of the loop of [normpath] over the components. *)
Definition norm_step (initial_slashes : Z) (new_comps : list str) (comp : str)
  : list str :=
  if str_eqb comp [] || str_eqb comp dot then new_comps
  else if negb (str_eqb comp dotdot)
          || ((initial_slashes =? 0) && is_empty new_comps)
          || (negb (is_empty new_comps) && str_eqb (last new_comps []) dotdot)
  then new_comps ++ [comp]
  else if negb (is_empty new_comps) then removelast new_comps
  else new_comps.

Definition count_initial_slashes (path : str) : Z :=
  if startswith path sep then
    if startswith path (sep ++ sep) && negb (startswith path (sep ++ sep ++ sep))
    then 2 else 1
  else 0.

(** [os.path.normpath(path)] *)
Definition normpath (path : str) : str :=
  if is_empty path then dot
  else
    let initial_slashes := count_initial_slashes path in
    let comps := fold_left (norm_step initial_slashes) (split_on 47 path) [] in
    let path := str_join sep comps in
    let path :=
      if initial_slashes =? 0 then path
      else List.concat (repeat sep (Z.to_nat initial_slashes)) ++ path in
    if is_empty path then dot else path.

(** [os.path.abspath(path)], the working directory being [cwd]. *)
Definition abspath (cwd : str) (path : str) : str :=
  if negb (isabs path) then normpath (join cwd path) else normpath path.

(** [os.path.splitext(p)]: the extension starts at the last dot of the last
    component, unless only dots precede it there. *)
Definition splitext (p : str) : str * str :=
  let sepIndex := rfind 47 p in
  let dotIndex := rfind 46 p in
  if dotIndex >? sepIndex then
    if existsb (fun c => negb (c =? 46)) (slice p (sepIndex + 1) dotIndex)
    then (slice p 0 dotIndex, skipn (Z.to_nat dotIndex) p)
    else (p, [])
  else (p, []).

End posixpath.

(** ** [mimetypes] *)

Module mimetypes.

(** The state of the module's registry: [suffix_map] and [encodings_map] are
    the constants of the library, [types_map] is the strict table, which the
    library fills from its defaults and from the platform's [mime.types]
    files and which [add_type] extends. *)
Record MimeTypes := {
  suffix_map : dict str;
  encodings_map : dict string;
  types_map : dict string
}.

Definition default_suffix_map : dict str :=
  [ (lit ".svgz", lit ".svg.gz"); (lit ".tgz", lit ".tar.gz");
    (lit ".taz", lit ".tar.gz"); (lit ".tz", lit ".tar.gz");
    (lit ".tbz2", lit ".tar.bz2"); (lit ".txz", lit ".tar.xz") ].

Definition default_encodings_map : dict string :=
  [ (lit ".gz", "gzip"%string); (lit ".Z", "compress"%string);
    (lit ".bz2", "bzip2"%string); (lit ".xz", "xz"%string);
    (lit ".br", "br"%string) ].

(** The registry once the library is initialised; [platform_types] is the
    strict table the platform provides. *)
Definition init (platform_types : dict string) : MimeTypes :=
  {| suffix_map := default_suffix_map;
     encodings_map := default_encodings_map;
     types_map := platform_types |}.

(** [mimetypes.add_type(type, ext)] *)
Definition add_type (db : MimeTypes) (type : string) (ext : str) : MimeTypes :=
  {| suffix_map := suffix_map db;
     encodings_map := encodings_map db;
     types_map := setitem (types_map db) ext type |}.

(** [while (ext_lower := ext.lower()) in suffix_map:
         base, ext = splitext(base + suffix_map[ext_lower])];
    [fuel] bounds the number of turns. *)
Fixpoint suffix_loop (fuel : nat) (lower : str -> str) (db : MimeTypes)
    (base ext : str) : str * str :=
  match fuel with
  | O => (base, ext)
  | S fuel' =>
    match lookup (suffix_map db) (lower ext) with
    | Some repl =>
      let '(base', ext') := posixpath.splitext (base ++ repl) in
      suffix_loop fuel' lower db base' ext'
    | None => (base, ext)
    end
  end.

(** [mimetypes.guess_type(url)] (CPython 3.11) for a [url] that is an
    absolute path: such a [url] has no scheme, and the function goes
    straight to the extension.  [lower] is [str.lower]. *)
Definition guess_type (lower : str -> str) (db : MimeTypes) (url : str)
  : option string * option string :=
  let '(base, ext) := posixpath.splitext url in
  let '(base, ext) :=
    suffix_loop (S (List.length (suffix_map db))) lower db base ext in
  let '(encoding, ext) :=
    match lookup (encodings_map db) ext with
    | Some enc => (Some enc, snd (posixpath.splitext base))
    | None => (None, ext)
    end in
  let ext := lower ext in
  match lookup (types_map db) ext with
  | Some t => (Some t, encoding)
  | None => (None, encoding)
  end.

End mimetypes.

(* ================================================================== *)
(** * Part II: the server *)
(* ================================================================== *)

(** ** Exceptions, the socket and the handler's effects *)

Inductive exn :=
| ConnectionError
| UnicodeDecodeError
| UnicodeEncodeError
| ValueError
| IndexError
| OSError.

(** A connected socket, seen from the handler: [rx] is what the peer has
    sent ([None]: the connection is already reset and [recv] raises),
    [tx_room] the number of octets the peer will still take before the
    connection breaks, [sent] what went out so far. *)
Record socket := {
  rx : option bytes;
  tx_room : nat;
  sent : bytes;
  closed : bool
}.

(** The two [print] calls of the error paths. *)
Inductive log_line :=
| client_error (e : exn)      (* "Error found in client (handle_client): {e}" *)
| send_file_error (e : exn).  (* "Error sending file: {e}" *)

Record world := {
  clientsocket : socket;
  stdout : list log_line
}.

Inductive outcome (A : Type) :=
| Ret (a : A)
| Raise (e : exn).
Arguments Ret {A} a.
Arguments Raise {A} e.

Definition M (A : Type) := world -> outcome A * world.

Definition ret {A} (a : A) : M A := fun w => (Ret a, w).

Definition raise {A} (e : exn) : M A := fun w => (Raise e, w).

Definition bind {A B} (m : M A) (k : A -> M B) : M B :=
  fun w =>
    match m w with
    | (Ret a, w') => k a w'
    | (Raise e, w') => (Raise e, w')
    end.

(** [try: body  except Exception as e: handler(e)] *)
Definition try_except {A} (body : M A) (handler : exn -> M A) : M A :=
  fun w =>
    match body w with
    | (Ret a, w') => (Ret a, w')
    | (Raise e, w') => handler e w'
    end.

(** [try: body  finally: final] *)
Definition try_finally {A} (body : M A) (final : M unit) : M A :=
  fun w =>
    match body w with
    | (r, w') =>
      match final w' with
      | (Ret _, w'') => (r, w'')
      | (Raise e, w'') => (Raise e, w'')
      end
    end.

Declare Scope py_scope.
Delimit Scope py_scope with py.
Notation "x <- m ;; k" := (bind m (fun x => k))
  (at level 100, m at next level, right associativity) : py_scope.
Notation "m ;;; k" := (bind m (fun _ => k))
  (at level 100, right associativity) : py_scope.
Local Open Scope py_scope.

(** An exception raised by a pure library call. *)
Definition lift {A} (e : exn) (x : option A) : M A :=
  match x with Some a => ret a | None => raise e end.

Definition with_socket (s : socket) (w : world) : world :=
  {| clientsocket := s; stdout := stdout w |}.

(** [clientsocket.recv(bufsize)] *)
Definition recv (bufsize : nat) : M bytes :=
  fun w =>
    let s := clientsocket w in
    match rx s with
    | None => (Raise ConnectionError, w)
    | Some data =>
      (Ret (firstn bufsize data),
       with_socket {| rx := Some (skipn bufsize data); tx_room := tx_room s;
                      sent := sent s; closed := closed s |} w)
    end.

(** The socket after an attempt to send [data]: what fits goes out. *)
Definition transmit (data : bytes) (s : socket) : socket :=
  {| rx := rx s; tx_room := tx_room s - List.length data;
     sent := sent s ++ firstn (tx_room s) data; closed := closed s |}.

(** [clientsocket.sendall(data)] *)
Definition sendall (data : bytes) : M unit :=
  fun w =>
    let s := clientsocket w in
    (if (List.length data <=? tx_room s)%nat then Ret tt else Raise ConnectionError,
     with_socket (transmit data s) w).

(** [clientsocket.close()] *)
Definition close : M unit :=
  fun w =>
    let s := clientsocket w in
    (Ret tt,
     with_socket {| rx := rx s; tx_room := tx_room s; sent := sent s;
                    closed := true |} w).

(** [print(...)] *)
Definition print (l : log_line) : M unit :=
  fun w => (Ret tt, {| clientsocket := clientsocket w; stdout := stdout w ++ [l] |}).

(** ** The platform: file system, clock, case folding, MIME registry *)

Inductive file_kind := regular | directory | special.

Record platform := {
  (* [os.stat], links followed; [None]: nothing there *)
  stat : str -> option file_kind;
  (* [open(p, 'rb').read()]; [None]: the file cannot be opened or read *)
  read : str -> option bytes;
  getcwd : str;
  (* [format_date_time(datetime.now().timestamp())] while the connection is
     handled *)
  http_date : string;
  (* the case tables behind [str.lower] *)
  unicode_lower : str -> str;
  mime : mimetypes.MimeTypes
}.

Definition exists_ (os : platform) (p : str) : bool :=
  match stat os p with Some _ => true | None => false end.

Definition isfile (os : platform) (p : str) : bool :=
  match stat os p with Some regular => true | _ => false end.

Definition isdir (os : platform) (p : str) : bool :=
  match stat os p with Some directory => true | _ => false end.

(** [with open(filepath, 'rb') as f: content = f.read()] *)
Definition open_read (os : platform) (filepath : str) : M bytes :=
  lift OSError (read os filepath).

(** [x or d] for an optional MIME type: [None] and the empty string are
    false. *)
Definition or_else (x : option string) (d : string) : string :=
  match x with
  | Some EmptyString | None => d
  | Some t => t
  end.

(** ** [class WebServer] *)

Record WebServer := {
  port : Z;
  root : str
}.

Definition _server_name (self : WebServer) : str := lit "NicksDiscountServer/1.0".

(** [WebServer(port, root)]; [None] stands for [exit(1)]. *)
Definition __init__ (os : platform) (port_arg : Z) (root_arg : str)
  : option WebServer :=
  let self :=
    {| port := port_arg; root := posixpath.abspath (getcwd os) root_arg |} in
  if negb (isdir os self.(root)) then None else Some self.

Definition crlf : str := [13; 10].

Definition build_headers (self : WebServer) (os : platform)
    (status_code : Z) (status_message content_type : str) (content_length : Z)
  : str :=
  let headers := [] in
  let headers :=
    headers ++ [lit "HTTP/1.1 " ++ str_of_int status_code ++ lit " " ++ status_message] in
  let stamp := lit (http_date os) in
  let headers := headers ++ [lit "Date: " ++ stamp] in
  let headers := headers ++ [lit "Server: " ++ _server_name self] in
  let headers := headers ++ [lit "Content-Type: " ++ content_type] in
  let headers := headers ++ [lit "Content-Length: " ++ str_of_int content_length] in
  let headers := headers ++ [lit "Connection: close"] in
  let headers := headers ++ [crlf] in
  str_join crlf headers.

Definition send_error (self : WebServer) (os : platform)
    (status_code : Z) (status_message : str) : M unit :=
  body <- lift UnicodeEncodeError
            (utf8.encode (lit "<html><body><h1>" ++ str_of_int status_code ++ lit " "
                          ++ status_message ++ lit "</h1></body></html>")) ;;
  let content_length := len body in
  let content_type := lit "text/html" in
  let response_headers :=
    build_headers self os status_code status_message content_type content_length in
  encoded <- lift UnicodeEncodeError (utf8.encode response_headers) ;;
  sendall encoded ;;;
  sendall body.

(** [mimetypes.guess_type(filepath)[0] or 'application/octet-stream'] *)
Definition content_type_of (os : platform) (filepath : str) : string :=
  or_else (fst (mimetypes.guess_type (str_lower (unicode_lower os)) (mime os)
                                     filepath))
          "application/octet-stream".

Definition send_file (self : WebServer) (os : platform) (filepath : str) : M unit :=
  try_except
    (content <- open_read os filepath ;;
     let content_length := len content in
     let content_type := lit (content_type_of os filepath) in
     let response_headers :=
       build_headers self os 200 (lit "OKEE DOKEE") content_type content_length in
     encoded <- lift UnicodeEncodeError (utf8.encode response_headers) ;;
     sendall encoded ;;;
     sendall content)
    (fun e =>
     print (send_file_error e) ;;;
     send_error self os 404 (lit "File Not Found")).

(** [method, path, blank = request_line.split()] *)
Definition unpack3 (tokens : list str) : M (str * str * str) :=
  match tokens with
  | [method; path; blank] => ret (method, path, blank)
  | _ => raise ValueError
  end.

(** [lines[0]] *)
Definition first_item (lines : list str) : M str :=
  match lines with
  | l :: _ => ret l
  | [] => raise IndexError
  end.

(** The path the handler looks up for a request target. *)
Definition requested_path_of (self : WebServer) (os : platform) (path : str) : str :=
  let path := if endswith path (lit "/") then path ++ lit "index.html" else path in
  posixpath.abspath (getcwd os) (posixpath.join self.(root) (lstrip path (lit "/"))).

(** The body of the [try] statement of [handle_client]. *)
Definition handle_client_try (self : WebServer) (os : platform) : M unit :=
  chunk <- recv 1024 ;;
  request_data <- lift UnicodeDecodeError (utf8.decode chunk) ;;
  if is_empty request_data then ret tt
  else
    request_line <- first_item (splitlines request_data) ;;
    tokens <- unpack3 (split request_line) ;;
    let '(method, path, blank) := tokens in
    if negb (str_eqb method (lit "GET")) then
      send_error self os 404 (lit "File Not Found")
    else
      let requested_path := requested_path_of self os path in
      if negb (startswith requested_path self.(root)) then
        send_error self os 404 (lit "File Not Found")
      else if exists_ os requested_path && isfile os requested_path then
        send_file self os requested_path
      else
        send_error self os 404 (lit "File Not Found").

Definition handle_client (self : WebServer) (os : platform) : M unit :=
  try_finally
    (try_except
       (handle_client_try self os)
       (fun e => print (client_error e)))
    close.

(** The five [mimetypes.add_type] calls of the program's entry point, on
    the initialised registry. *)
Definition main_mimetypes (platform_types : dict string) : mimetypes.MimeTypes :=
  let db := mimetypes.init platform_types in
  let db := mimetypes.add_type db "text/css" (lit ".css") in
  let db := mimetypes.add_type db "image/jpeg" (lit ".jpg") in
  let db := mimetypes.add_type db "image/jpeg" (lit ".jpeg") in
  let db := mimetypes.add_type db "image/png" (lit ".png") in
  let db := mimetypes.add_type db "image/gif" (lit ".gif") in
  db.

(** A connection as [accept] hands it over. *)
Definition accepted (incoming : option bytes) (room : nat) : world :=
  {| clientsocket := {| rx := incoming; tx_room := room; sent := []; closed := false |};
     stdout := [] |}.

(** ** The listener: [WebServer.start] and the entry point

    The network is an input: the outcome of each socket call of [start],
    and what the successive calls of [accept] meet.  A handler thread is
    recorded when it is started; its run is [handle_client] on the client
    socket it was given, and shares nothing with the listener. *)

Inductive arrival :=
(* [accept] returns a client socket and the peer's address; [thread] is
   the exception [client_thread.start()] raises, if any *)
| connection (client : socket) (addr : str) (thread : option exn)
(* [accept] raises an exception that is an [Exception] *)
| accept_error (e : exn)
(* Ctrl-C while [accept] waits *)
| keyboard_interrupt.

Record network := {
  socket_call : option exn;      (* [socket.socket(...)]; [None]: no error *)
  setsockopt_call : option exn;
  bind_call : option exn;
  listen_call : option exn;
  arrivals : list arrival
}.

(** [self.socket], once created. *)
Record listening_socket := {
  reuse_address : bool;
  bound_to : option Z;
  backlog : option Z;
  shut : bool
}.

Inductive console_line :=
| serving (on_port : Z) (from_root : str)   (* "Serving HTTP on port: ..." *)
| connection_from (addr : str)              (* "Connection from {addr} accepted ..." *)
| shutting_down                             (* "Shutting down server." *)
| server_error (e : exn)                    (* "Server error: {e}" *)
| root_not_a_directory (r : str).           (* "Error: Root folder: ... is not a directory." *)

Record listener := {
  self_socket : option listening_socket;
  console : list console_line;
  (* the client sockets of the handler threads started so far, in order *)
  threads : list socket
}.

(** How the body of the [try] of [start] ends; [waiting]: it does not, the
    loop is in [accept] and nothing more arrives. *)
Inductive try_end :=
| waiting
| interrupted
| failed (e : exn).

Definition say (line : console_line) (l : listener) : listener :=
  {| self_socket := self_socket l; console := console l ++ [line];
     threads := threads l |}.

Definition with_listening (s : listening_socket) (l : listener) : listener :=
  {| self_socket := Some s; console := console l; threads := threads l |}.

(** [while True: clientsocket, addr = self.socket.accept(); print(...);
    client_thread = threading.Thread(target=self.handle_client,
    args=(clientsocket,)); client_thread.daemon = True;
    client_thread.start()] *)
Fixpoint accept_loop (todo : list arrival) (l : listener) : try_end * listener :=
  match todo with
  | [] => (waiting, l)
  | connection client addr thread :: todo' =>
    let l := say (connection_from addr) l in
    match thread with
    | Some e => (failed e, l)
    | None =>
      accept_loop todo'
        {| self_socket := self_socket l; console := console l;
           threads := threads l ++ [client] |}
    end
  | accept_error e :: _ => (failed e, l)
  | keyboard_interrupt :: _ => (interrupted, l)
  end.

(** The body of the [try] of [start]. *)
Definition start_try (self : WebServer) (net : network) (l : listener)
  : try_end * listener :=
  match socket_call net with
  | Some e => (failed e, l)
  | None =>
    let s := {| reuse_address := false; bound_to := None; backlog := None;
                shut := false |} in
    let l := with_listening s l in
    match setsockopt_call net with
    | Some e => (failed e, l)
    | None =>
      let s := {| reuse_address := true; bound_to := bound_to s;
                  backlog := backlog s; shut := shut s |} in
      let l := with_listening s l in
      match bind_call net with
      | Some e => (failed e, l)
      | None =>
        let s := {| reuse_address := reuse_address s; bound_to := Some self.(port);
                    backlog := backlog s; shut := shut s |} in
        let l := with_listening s l in
        match listen_call net with
        | Some e => (failed e, l)
        | None =>
          let s := {| reuse_address := reuse_address s; bound_to := bound_to s;
                      backlog := Some 5; shut := shut s |} in
          let l := with_listening s l in
          let l := say (serving self.(port) self.(root)) l in
          accept_loop (arrivals net) l
        end
      end
    end
  end.

(** [if self.socket: self.socket.close()] *)
Definition close_listening (l : listener) : listener :=
  match self_socket l with
  | Some s =>
    with_listening {| reuse_address := reuse_address s; bound_to := bound_to s;
                      backlog := backlog s; shut := true |} l
  | None => l
  end.

(** [WebServer.start]: [None] when the call does not return. *)
Definition start (self : WebServer) (net : network) : option unit * listener :=
  let l := {| self_socket := None; console := []; threads := [] |} in
  match start_try self net l with
  | (waiting, l) => (None, l)
  | (interrupted, l) => (Some tt, close_listening (say shutting_down l))
  | (failed e, l) => (Some tt, close_listening (say (server_error e) l))
  end.

(** The platform once the entry point has registered its five types;
    [os] is the platform as the interpreter finds it. *)
Definition registered (os : platform) : platform :=
  {| stat := stat os; read := read os; getcwd := getcwd os;
     http_date := http_date os; unicode_lower := unicode_lower os;
     mime := main_mimetypes (mimetypes.types_map (mime os)) |}.

(** How the program ends: [exit(1)] from the constructor, or [start]
    with what it leaves. *)
Inductive run :=
| exited (status : Z) (said : list console_line)
| served (returned : option unit) (l : listener).

(** The entry point, for the arguments [args.port] and [args.root]. *)
Definition main (os : platform) (args_port : Z) (args_root : str) (net : network)
  : run :=
  let os := registered os in
  match __init__ os args_port args_root with
  | None =>
    exited 1 [root_not_a_directory (posixpath.abspath (getcwd os) args_root)]
  | Some server =>
    let '(r, l) := start server net in served r l
  end.

(** ** Vocabulary of the statements *)

(** A header block: every line ends in CR LF, an empty line ends the block. *)
Definition header_block (lines : list str) : str :=
  List.concat (map (fun l => l ++ crlf) lines) ++ crlf.

Definition status_line (code : Z) (message : str) : str :=
  lit "HTTP/1.1 " ++ str_of_int code ++ lit " " ++ message.

(** The six header lines of a response, in the order of the wire. *)
Definition header_lines (os : platform) (code : Z) (message content_type : str)
    (content_length : Z) : list str :=
  [ status_line code message;
    lit "Date: " ++ lit (http_date os);
    lit "Server: NicksDiscountServer/1.0";
    lit "Content-Type: " ++ content_type;
    lit "Content-Length: " ++ str_of_int content_length;
    lit "Connection: close" ].

(** [s.split("\r\n")], to read a header block back. *)
Fixpoint split_crlf_from (cur : str) (s : str) : list str :=
  match s with
  | [] => [cur]
  | c :: s' =>
    match s' with
    | d :: s'' =>
      if (c =? 13) && (d =? 10) then cur :: split_crlf_from [] s''
      else split_crlf_from (cur ++ [c]) s'
    | [] => [cur ++ [c]]
    end
  end.

Definition split_crlf (s : str) : list str := split_crlf_from [] s.

(** No carriage return in [s]. *)
Definition no_cr (s : str) : bool := forallb (fun c => negb (c =? 13)) s.

(** No white space in [s]: [s] is one token for [str.split]. *)
Definition no_space (s : str) : bool := forallb (fun c => negb (isspace c)) s.

(** [s] is a text: every code point is a Unicode scalar value (no lone
    surrogate, nothing beyond U+10FFFF). *)
Definition is_scalar (c : Z) : bool :=
  in_range 0 0xD7FF c || in_range 0xE000 0x10FFFF c.

Definition is_text (s : str) : bool := forallb is_scalar s.

(** [wire] is one whole response: the encoded header block that announces
    the length of [body], then [body]. *)
Definition is_response (os : platform) (code : Z) (message content_type : str)
    (body wire : bytes) : Prop :=
  exists head,
    utf8.encode (header_block (header_lines os code message content_type (len body)))
    = Some head
    /\ wire = head ++ body.

Definition error_page (code : Z) (message : str) : str :=
  lit "<html><body><h1>" ++ str_of_int code ++ lit " " ++ message
  ++ lit "</h1></body></html>".

Definition is_error_response (os : platform) (code : Z) (message : str)
    (wire : bytes) : Prop :=
  exists body,
    utf8.encode (error_page code message) = Some body
    /\ is_response os code message (lit "text/html") body wire.

(** [path] names the directory [root] or something below it (both
    normalised): the document tree. *)
Definition inside (root path : str) : bool :=
  str_eqb path root
  || startswith path (if endswith root posixpath.sep then root
                      else root ++ posixpath.sep).


(** What was read on [w], once and for at most 1024 octets, is a request
    whose first line asks for [target] with [GET]. *)
Definition asks_for (w : world) (target : str) : Prop :=
  exists incoming data line rest version,
    rx (clientsocket w) = Some incoming
    /\ utf8.decode (firstn 1024 incoming) = Some data
    /\ splitlines data = line :: rest
    /\ split line = [lit "GET"; target; version].

(** [wire] is one whole response to the request on [w]: the 404 page, or
    the 200 response that carries the file the request asks for, with the
    type of that file and its contents and nothing else. *)
Definition one_response (self : WebServer) (os : platform) (w : world)
    (wire : bytes) : Prop :=
  is_error_response os 404 (lit "File Not Found") wire
  \/ exists target content,
       asks_for w target
       /\ read os (requested_path_of self os target) = Some content
       /\ is_response os 200 (lit "OKEE DOKEE")
            (lit (content_type_of os (requested_path_of self os target)))
            content wire.

(** [wire] is nothing at all, or one whole response to the request on
    [w]. *)
Definition at_most_one_response (self : WebServer) (os : platform) (w : world)
    (wire : bytes) : Prop :=
  wire = [] \/ one_response self os w wire.

(** The world once [recv(bufsize)] has taken its chunk. *)
Definition after_recv (bufsize : nat) (w : world) : world :=
  let s := clientsocket w in
  with_socket {| rx := option_map (skipn bufsize) (rx s); tx_room := tx_room s;
                 sent := sent s; closed := closed s |} w.

(** Between [w] and [w'] the handler put [wire] on the socket, as far as
    the peer took it, and did not close it. *)
Definition emits (wire : bytes) (w w' : world) : Prop :=
  sent (clientsocket w')
  = sent (clientsocket w) ++ firstn (tx_room (clientsocket w)) wire
  /\ closed (clientsocket w') = closed (clientsocket w).

(** Two worlds that differ at most in what is left to read on the
    socket. *)
Definition same_output (w1 w2 : world) : Prop :=
  sent (clientsocket w1) = sent (clientsocket w2)
  /\ tx_room (clientsocket w1) = tx_room (clientsocket w2)
  /\ closed (clientsocket w1) = closed (clientsocket w2)
  /\ stdout w1 = stdout w2.

(** Two runs that end alike: the same result or exception, the same
    output. *)
Definition alike {A} (r1 r2 : outcome A * world) : Prop :=
  fst r1 = fst r2 /\ same_output (snd r1) (snd r2).

(** A computation that does not look at what is left to read. *)
Definition blind {A} (m : M A) : Prop :=
  forall w1 w2, same_output w1 w2 -> alike (m w1) (m w2).

(** ** A small deployment, for the worked examples

    The document root [/srv/www] holds [index.html] and [style.css]; beside
    it lies [/srv/www-secret], which is no part of the document tree. *)

Definition demo_files : dict bytes :=
  [ (lit "/srv/www/index.html", lit "<h1>Hi</h1>");
    (lit "/srv/www/style.css", lit "body{}");
    (lit "/srv/www/notes.xyz", lit "n/a");
    (lit "/srv/www-secret/key.txt", lit "hunter2");
    (lit "/srv/www-secret/index.html", lit "<h1>private</h1>");
    (lit "/etc/passwd", lit "root:x:0:0") ].

Definition demo_dirs : list str :=
  [ lit "/"; lit "/srv"; lit "/srv/www"; lit "/srv/www-secret"; lit "/etc" ].

Definition demo_types : dict string :=
  [ (lit ".html", "text/html"%string);
    (lit ".js", "text/javascript"%string);
    (lit ".txt", "text/plain"%string) ].

Definition demo_os : platform :=
  {| stat := fun p =>
       match lookup demo_files p with
       | Some _ => Some regular
       | None => if existsb (str_eqb p) demo_dirs then Some directory else None
       end;
     read := lookup demo_files;
     getcwd := lit "/home/nick";
     http_date := "Tue, 15 Nov 1994 08:12:31 GMT";
     unicode_lower := fun s => s;
     mime := main_mimetypes demo_types |}.

Definition demo_server : WebServer := {| port := 8080; root := lit "/srv/www" |}.

(** A connection on which the peer has sent [request] and accepts any
    answer of up to 4096 octets. *)
Definition demo_connection (request : bytes) : world :=
  accepted (Some request) 4096.

(** A request line followed by 1100 spaces and one more octet: longer
    than the one read of the handler. *)
Definition demo_long_request (last : Z) : bytes :=
  lit "GET /style.css HTTP/1.1" ++ crlf ++ repeat 32 1100 ++ [last].

(** The demo platform with every file unreadable. *)
Definition demo_os_unreadable : platform :=
  {| stat := stat demo_os; read := fun _ => None; getcwd := getcwd demo_os;
     http_date := http_date demo_os; unicode_lower := unicode_lower demo_os;
     mime := mime demo_os |}.

(** No component of [target] is [..]. *)
Definition no_dotdot (target : str) : bool :=
  forallb (fun comp => negb (str_eqb comp posixpath.dotdot)) (split_on 47 target).

(** A component [normpath] keeps: not empty, not [.]. *)
Definition kept (comp : str) : bool :=
  negb (str_eqb comp [] || str_eqb comp posixpath.dot).

(** A component of a normalised path: not empty, no separator in it. *)
Definition no_sep (c : str) : bool := forallb (fun x => negb (x =? 47)) c.

Definition clean (c : str) : bool := negb (is_empty c) && no_sep c.

(** A component of a normalised absolute path: a name, neither [.] nor
    [..]. *)
Definition plain (c : str) : bool :=
  clean c && kept c && negb (str_eqb c posixpath.dotdot).

(** [sep * k] *)
Definition slashes (k : Z) : str := List.concat (repeat posixpath.sep (Z.to_nat k)).

(** Every socket call of the set-up succeeds. *)
Definition set_up (net : network) : Prop :=
  socket_call net = None /\ setsockopt_call net = None
  /\ bind_call net = None /\ listen_call net = None.

(** An arrival that [accept] returns and whose thread starts. *)
Definition dispatched (a : arrival) : bool :=
  match a with
  | connection _ _ None => true
  | _ => false
  end.

(** The arrival of a client socket from an address, its thread
    starting. *)
Definition arrives (ca : socket * str) : arrival :=
  connection (fst ca) (snd ca) None.

(** The listening socket while the loop runs. *)
Definition listening_on (p : Z) : listening_socket :=
  {| reuse_address := true; bound_to := Some p; backlog := Some 5; shut := false |}.

Definition demo_client (request : bytes) : socket :=
  clientsocket (demo_connection request).

(** Two connections, then Ctrl-C. *)
Definition demo_network : network :=
  {| socket_call := None; setsockopt_call := None; bind_call := None;
     listen_call := None;
     arrivals :=
       [ connection (demo_client (lit "GET / HTTP/1.1" ++ crlf ++ crlf))
                    (lit "10.0.0.1:40000") None;
         connection (demo_client (lit "POST / HTTP/1.1" ++ crlf ++ crlf))
                    (lit "10.0.0.2:40001") None;
         keyboard_interrupt ] |}.

(* ================================================================== *)
(** * Part III: facts about the runtime *)
(* ================================================================== *)

(** ** Booleans read as propositions *)

Lemma in_range_true lo hi x : in_range lo hi x = true <-> lo <= x <= hi.
Proof. unfold in_range. rewrite andb_true_iff, !Z.leb_le. tauto. Qed.

Lemma in_range_false lo hi x : in_range lo hi x = false <-> x < lo \/ hi < x.
Proof.
  unfold in_range. rewrite andb_false_iff, !Z.leb_gt. tauto.
Qed.

Ltac to_prop :=
  repeat match goal with
  | H : _ && _ = true |- _ => apply andb_prop in H; destruct H
  | H : in_range _ _ _ = true |- _ => apply in_range_true in H
  | H : in_range _ _ _ = false |- _ => apply in_range_false in H
  | H : utf8.is_cont _ = true |- _ => apply in_range_true in H
  | H : utf8.is_cont _ = false |- _ => apply in_range_false in H
  | H : (_ =? _) = true |- _ => apply Z.eqb_eq in H
  | H : (_ =? _) = false |- _ => apply Z.eqb_neq in H
  end.

(** Settle the range tests of the decoder from the bounds in context. *)
Ltac settle_tests :=
  repeat match goal with
  | |- context [in_range ?lo ?hi ?x] =>
    first [ replace (in_range lo hi x) with true
              by (symmetry; apply in_range_true; lia)
          | replace (in_range lo hi x) with false
              by (symmetry; apply in_range_false; lia) ]
  | |- context [utf8.is_cont ?x] =>
    replace (utf8.is_cont x) with true by (symmetry; apply in_range_true; lia)
  | |- context [?a =? ?b] =>
    first [ replace (a =? b) with true by (symmetry; apply Z.eqb_eq; lia)
          | replace (a =? b) with false by (symmetry; apply Z.eqb_neq; lia) ]
  end.

(** ** Strings *)

Lemma str_eqb_eq a b : str_eqb a b = true <-> a = b.
Proof.
  revert b. induction a as [|x a IH]; intros [|y b]; simpl; split; intro H;
    try reflexivity; try discriminate.
  - apply andb_prop in H. destruct H as [H1 H2].
    apply Z.eqb_eq in H1. apply IH in H2. congruence.
  - injection H as -> ->. rewrite Z.eqb_refl. simpl. now apply IH.
Qed.

Lemma str_eqb_refl a : str_eqb a a = true.
Proof. now apply str_eqb_eq. Qed.

Lemma str_eqb_neq a b : str_eqb a b = false <-> a <> b.
Proof.
  split.
  - intros H E. apply str_eqb_eq in E. congruence.
  - intro H. destruct (str_eqb a b) eqn:E; [|reflexivity].
    apply str_eqb_eq in E. contradiction.
Qed.

Lemma startswith_iff s p : startswith s p = true <-> exists t, s = p ++ t.
Proof.
  revert s. induction p as [|a p IH]; intros s; simpl.
  - split; [intros _; now exists s | reflexivity].
  - destruct s as [|b s]; simpl.
    + split; [discriminate | intros [t H]; discriminate].
    + rewrite andb_true_iff, Z.eqb_eq, IH. split.
      * intros [-> [t ->]]. now exists t.
      * intros [t H]. injection H as -> ->. split; [reflexivity | now exists t].
Qed.

Lemma startswith_app p t : startswith (p ++ t) p = true.
Proof. apply startswith_iff. now exists t. Qed.

Lemma endswith_iff s p : endswith s p = true <-> exists t, s = t ++ p.
Proof.
  unfold endswith. rewrite startswith_iff. split; intros [t H].
  - exists (rev t). rewrite <- (rev_involutive s), H, rev_app_distr.
    now rewrite !rev_involutive.
  - exists (rev t). now rewrite H, rev_app_distr.
Qed.

Lemma lstrip_leading_slash p :
  startswith p (lit "/") = false -> lstrip (lit "/" ++ p) (lit "/") = p.
Proof.
  change (lit "/") with [47]. intro H. cbn [app lstrip existsb].
  rewrite Z.eqb_refl. cbn [orb].
  destruct p as [|c p]; [reflexivity|].
  cbn [startswith] in H. rewrite andb_true_r in H.
  cbn [lstrip existsb]. now rewrite orb_false_r, Z.eqb_sym, H.
Qed.

Lemma file_target_has_no_trailing_slash p :
  p <> [] -> endswith p (lit "/") = false ->
  endswith (lit "/" ++ p) (lit "/") = false.
Proof.
  intros Hne He. destruct (endswith (lit "/" ++ p) (lit "/")) eqn:E;
    [|reflexivity].
  apply endswith_iff in E. destruct E as [t E].
  change (lit "/") with [47] in *.
  destruct t as [|x t]; cbn [app] in E.
  - injection E as E. contradiction.
  - injection E as _ E. subst p.
    assert (endswith (t ++ [47]) [47] = true)
      by (apply endswith_iff; now exists t).
    congruence.
Qed.

(** ** The document tree and the prefix test *)

Lemma inside_startswith root file :
  inside root file = true -> startswith file root = true.
Proof.
  unfold inside. intro H. apply orb_prop in H. destruct H as [H|H].
  - apply str_eqb_eq in H. subst. apply startswith_iff. exists [].
    now rewrite app_nil_r.
  - apply startswith_iff in H. destruct H as [t ->].
    destruct (endswith root posixpath.sep).
    + apply startswith_app.
    + rewrite <- app_assoc. apply startswith_app.
Qed.

(** A path that passes the test of the handler and is not inside the
    document tree continues the name of the root with something other than
    a separator. *)
Lemma prefix_test_gap root file :
  endswith root posixpath.sep = false ->
  startswith file root = true ->
  inside root file = false ->
  exists c tail, file = root ++ c :: tail /\ c <> 47.
Proof.
  intros Hroot Hpre Hin. apply startswith_iff in Hpre. destruct Hpre as [t ->].
  unfold inside in Hin. rewrite Hroot in Hin.
  apply orb_false_iff in Hin. destruct Hin as [Heq Hsub].
  destruct t as [|c tail].
  - rewrite app_nil_r, str_eqb_refl in Heq. discriminate.
  - exists c, tail. split; [reflexivity|]. intros ->.
    assert (startswith (root ++ 47 :: tail) (root ++ posixpath.sep) = true).
    { apply startswith_iff. exists tail. now rewrite <- app_assoc. }
    congruence.
Qed.

(** ** UTF-8: the decoder accepts exactly the well-formed sequences *)

Lemma option_map_defined {A B} (f : A -> B) (x : option A) (b : B) :
  option_map f x = Some b -> exists a, x = Some a.
Proof. destruct x; [eauto | discriminate]. Qed.

Lemma well_formed_decodes bs :
  utf8.well_formed bs -> exists s, utf8.decode bs = Some s.
Proof.
  induction 1 as
    [ | b0 r H0 _ IH | b0 b1 r H0 H1 _ IH | b1 b2 r H1 H2 _ IH
      | b0 b1 b2 r H0 H1 H2 _ IH | b1 b2 r H1 H2 _ IH
      | b0 b1 b2 r H0 H1 H2 _ IH | b1 b2 b3 r H1 H2 H3 _ IH
      | b0 b1 b2 b3 r H0 H1 H2 H3 _ IH | b1 b2 b3 r H1 H2 H3 _ IH ];
    [ now exists [] | .. ];
    destruct IH as [s IH]; cbn [utf8.decode];
    unfold utf8.second3, utf8.second4; settle_tests;
    cbn [andb]; rewrite IH; simpl; eauto.
Qed.

Lemma decodes_well_formed_upto (n : nat) :
  forall bs, (List.length bs <= n)%nat ->
  (exists s, utf8.decode bs = Some s) -> utf8.well_formed bs.
Proof.
  induction n as [|n IH]; intros bs Hlen [s H].
  - destruct bs; [constructor | simpl in Hlen; lia].
  - destruct bs as [|b0 r0]; [constructor|].
    cbn [utf8.decode] in H.
    destruct (in_range 0 127 b0) eqn:T1.
    { apply option_map_defined in H. to_prop.
      apply utf8.wf_1; [lia | apply IH; [simpl in Hlen; lia | exact H]]. }
    destruct (in_range 194 223 b0) eqn:T2.
    { destruct r0 as [|b1 r1]; [discriminate|].
      destruct (utf8.is_cont b1) eqn:C1; [|discriminate].
      apply option_map_defined in H. to_prop.
      apply utf8.wf_2; [lia | lia | apply IH; [simpl in Hlen; lia | exact H]]. }
    destruct (in_range 224 239 b0) eqn:T3.
    { destruct r0 as [|b1 [|b2 r2]]; try discriminate.
      destruct (utf8.second3 b0 b1 && utf8.is_cont b2) eqn:C; [|discriminate].
      apply option_map_defined in H.
      assert (W : utf8.well_formed r2)
        by (apply IH; [simpl in Hlen; lia | exact H]).
      unfold utf8.second3 in C.
      destruct (b0 =? 224) eqn:E0; [|destruct (b0 =? 237) eqn:ED]; to_prop.
      - subst b0. apply utf8.wf_3_E0; [lia | lia | exact W].
      - subst b0. apply utf8.wf_3_ED; [lia | lia | exact W].
      - destruct (Z_le_gt_dec b0 236).
        + apply utf8.wf_3_E1_EC; [lia | lia | lia | exact W].
        + apply utf8.wf_3_EE_EF; [lia | lia | lia | exact W]. }
    destruct (in_range 240 244 b0) eqn:T4; [|discriminate].
    destruct r0 as [|b1 [|b2 [|b3 r3]]]; try discriminate.
    destruct (utf8.second4 b0 b1 && utf8.is_cont b2 && utf8.is_cont b3) eqn:C;
      [|discriminate].
    apply option_map_defined in H.
    assert (W : utf8.well_formed r3)
      by (apply IH; [simpl in Hlen; lia | exact H]).
    unfold utf8.second4 in C.
    destruct (b0 =? 240) eqn:E0; [|destruct (b0 =? 244) eqn:E4]; to_prop.
    + subst b0. apply utf8.wf_4_F0; [lia | lia | lia | exact W].
    + subst b0. apply utf8.wf_4_F4; [lia | lia | lia | exact W].
    + apply utf8.wf_4_F1_F3; [lia | lia | lia | lia | exact W].
Qed.

(** [bytes.decode('utf-8')] succeeds exactly on the well-formed sequences. *)
Lemma decode_well_formed bs :
  utf8.well_formed bs <-> exists s, utf8.decode bs = Some s.
Proof.
  split; [apply well_formed_decodes|].
  apply (decodes_well_formed_upto (List.length bs)). lia.
Qed.

Lemma decode_ill_formed bs :
  ~ utf8.well_formed bs -> utf8.decode bs = None.
Proof.
  intro H. destruct (utf8.decode bs) as [s|] eqn:E; [|reflexivity].
  exfalso. apply H, decode_well_formed. eauto.
Qed.

Lemma decode_ascii bs : is_ascii bs = true -> utf8.decode bs = Some bs.
Proof.
  unfold is_ascii. induction bs as [|b bs IH]; intro H; [reflexivity|].
  cbn in H. apply andb_prop in H. destruct H as [Hb Hbs].
  cbn [utf8.decode]. rewrite Hb, IH by exact Hbs. reflexivity.
Qed.

(** ** UTF-8: encoding distributes over concatenation, literals encode *)

Lemma encode_app a b :
  utf8.encode (a ++ b) =
  match utf8.encode a, utf8.encode b with
  | Some x, Some y => Some (x ++ y)
  | _, _ => None
  end.
Proof.
  induction a as [|c a IH]; simpl.
  - destruct (utf8.encode b); reflexivity.
  - rewrite IH. destruct (utf8.encode_cp c); [|reflexivity].
    destruct (utf8.encode a); [|reflexivity].
    destruct (utf8.encode b); [|reflexivity].
    now rewrite app_assoc.
Qed.

Lemma encode_app_some a b x y :
  utf8.encode a = Some x -> utf8.encode b = Some y ->
  utf8.encode (a ++ b) = Some (x ++ y).
Proof. intros Ha Hb. now rewrite encode_app, Ha, Hb. Qed.

Lemma encode_app_inv a b z :
  utf8.encode (a ++ b) = Some z ->
  exists x y, utf8.encode a = Some x /\ utf8.encode b = Some y /\ z = x ++ y.
Proof.
  rewrite encode_app.
  destruct (utf8.encode a) as [x|]; [|discriminate].
  destruct (utf8.encode b) as [y|]; [|discriminate].
  intro H. injection H as <-. now exists x, y.
Qed.

Lemma encode_cp_byte c : 0 <= c < 256 -> exists b, utf8.encode_cp c = Some b.
Proof.
  intro H. unfold utf8.encode_cp.
  destruct (c <? 0) eqn:E0; [apply Z.ltb_lt in E0; lia|].
  destruct (c <? 128); [eauto|].
  destruct (c <? 2048) eqn:E2; [eauto | apply Z.ltb_ge in E2; lia].
Qed.

Lemma encode_lit (s : string) : exists b, utf8.encode (lit s) = Some b.
Proof.
  unfold lit. induction s as [|c s [b IH]]; simpl; [eauto|].
  destruct (encode_cp_byte (Z.of_N (N_of_ascii c))) as [x Hx].
  - pose proof (N_ascii_bounded c). lia.
  - rewrite Hx, IH. eauto.
Qed.

Lemma encode_cp_scalar c :
  is_scalar c = true -> exists b, utf8.encode_cp c = Some b.
Proof.
  unfold is_scalar, utf8.encode_cp. intro H.
  apply orb_prop in H. destruct H as [H|H]; to_prop;
    repeat match goal with
    | |- context [?a <? ?b] =>
      first [ replace (a <? b) with true by (symmetry; apply Z.ltb_lt; lia)
            | replace (a <? b) with false by (symmetry; apply Z.ltb_ge; lia)
            | destruct (a <? b) ]
    | |- context [in_range ?lo ?hi c] =>
      replace (in_range lo hi c) with false
        by (symmetry; apply in_range_false; lia)
    end; eauto.
Qed.

(** Every text can be encoded. *)
Lemma encode_text s : is_text s = true -> exists b, utf8.encode s = Some b.
Proof.
  unfold is_text. induction s as [|c s IH]; intro H; [now exists []|].
  cbn in H. apply andb_prop in H. destruct H as [Hc Hs].
  destruct (encode_cp_scalar c Hc) as [x Hx]. destruct (IH Hs) as [y Hy].
  cbn. rewrite Hx, Hy. eauto.
Qed.

Lemma encode_cp_nonempty c b : utf8.encode_cp c = Some b -> b <> [].
Proof.
  unfold utf8.encode_cp.
  repeat match goal with
  | |- context [if ?t then _ else _] => destruct t
  end; intro H; try discriminate; injection H as <-; discriminate.
Qed.

Lemma encode_nonempty s b : utf8.encode s = Some b -> s <> [] -> b <> [].
Proof.
  destruct s as [|c s]; [congruence|]. simpl.
  destruct (utf8.encode_cp c) as [x|] eqn:E; [|discriminate].
  destruct (utf8.encode s); [|discriminate].
  intros H _. injection H as <-. apply encode_cp_nonempty in E.
  destruct x; [congruence | discriminate].
Qed.

(** ** Lines and tokens *)

Lemma splitlines_from_nonempty s :
  forall cur, s <> [] \/ cur <> [] -> splitlines_from cur s <> [].
Proof.
  induction s as [|c s IH]; intros cur H; cbn.
  - destruct cur; [destruct H; congruence | discriminate].
  - destruct (is_linebreak c).
    + destruct s as [|d s]; [discriminate|].
      destruct ((c =? 13) && (d =? 10)); discriminate.
    + apply IH. right. destruct cur; discriminate.
Qed.

(** A request that is not empty has a first line. *)
Lemma splitlines_nonempty data : data <> [] -> splitlines data <> [].
Proof. intro H. apply splitlines_from_nonempty. now left. Qed.

Lemma linebreak_is_space c : is_linebreak c = true -> isspace c = true.
Proof.
  unfold is_linebreak. intro H.
  repeat (apply orb_prop in H; destruct H as [H|H]); to_prop;
    unfold isspace; settle_tests; reflexivity.
Qed.

Lemma splitlines_from_line l : forall cur tail,
  forallb (fun c => negb (is_linebreak c)) l = true ->
  splitlines_from cur (l ++ crlf ++ tail)
  = (cur ++ l) :: match tail with [] => [] | _ => splitlines_from [] tail end.
Proof.
  induction l as [|c l IH]; intros cur tail H.
  - rewrite app_nil_r. cbn. destruct tail; reflexivity.
  - cbn in H. apply andb_prop in H. destruct H as [Hc Hl].
    apply negb_true_iff in Hc. cbn [app splitlines_from]. rewrite Hc.
    rewrite IH by exact Hl. now rewrite <- app_assoc.
Qed.

Lemma split_from_token tok : forall cur tail,
  no_space tok = true ->
  split_from cur (tok ++ tail) = split_from (cur ++ tok) tail.
Proof.
  induction tok as [|c tok IH]; intros cur tail H.
  - now rewrite app_nil_r.
  - cbn in H. apply andb_prop in H. destruct H as [Hc Htok].
    apply negb_true_iff in Hc. cbn [app split_from]. rewrite Hc.
    rewrite IH by exact Htok. now rewrite <- app_assoc.
Qed.

Lemma split_from_space cur tail :
  cur <> [] -> split_from cur (32 :: tail) = cur :: split_from [] tail.
Proof. intro H. cbn. destruct cur; [congruence | reflexivity]. Qed.

(** Three tokens, one space between them, split into themselves. *)
Lemma split_three_tokens a b c :
  a <> [] -> b <> [] -> c <> [] ->
  no_space a = true -> no_space b = true -> no_space c = true ->
  split (a ++ lit " " ++ b ++ lit " " ++ c) = [a; b; c].
Proof.
  intros Ha Hb Hc Sa Sb Sc. unfold split. change (lit " ") with [32].
  rewrite split_from_token by exact Sa. cbn [app].
  rewrite split_from_space by exact Ha.
  rewrite split_from_token by exact Sb. cbn [app].
  rewrite split_from_space by exact Hb.
  replace (split_from [] c) with (split_from ([] ++ c) [])
    by (rewrite <- split_from_token by exact Sc; now rewrite app_nil_r).
  cbn. destruct c; [congruence | reflexivity].
Qed.

(** The request [GET /p version CR LF ...]: its first line is the request
    line, which splits into the method, the target and the version. *)
Lemma get_request_parses p version tail :
  no_space p = true -> no_space version = true -> version <> [] ->
  exists more,
    splitlines (lit "GET /" ++ p ++ lit " " ++ version ++ crlf ++ tail)
    = (lit "GET /" ++ p ++ lit " " ++ version) :: more
    /\ split (lit "GET /" ++ p ++ lit " " ++ version)
       = [lit "GET"; lit "/" ++ p; version].
Proof.
  intros Sp Sv Hv. eexists. split.
  - unfold splitlines.
    replace (lit "GET /" ++ p ++ lit " " ++ version ++ crlf ++ tail)
      with ((lit "GET /" ++ p ++ lit " " ++ version) ++ crlf ++ tail)
      by (now rewrite <- !app_assoc).
    rewrite splitlines_from_line; [reflexivity|].
    rewrite !forallb_app. unfold no_space in Sp, Sv.
    assert (Hsub : forall s,
      forallb (fun c => negb (isspace c)) s = true ->
      forallb (fun c => negb (is_linebreak c)) s = true).
    { intros s Hs. rewrite forallb_forall in *. intros c Hc.
      specialize (Hs c Hc). apply negb_true_iff in Hs. apply negb_true_iff.
      destruct (is_linebreak c) eqn:E; [|reflexivity].
      apply linebreak_is_space in E. congruence. }
    rewrite (Hsub p Sp), (Hsub version Sv). reflexivity.
  - change (lit "GET /" ++ p ++ lit " " ++ version)
      with (lit "GET" ++ lit " " ++ (lit "/" ++ p) ++ lit " " ++ version).
    apply split_three_tokens; try assumption; try discriminate.
    reflexivity.
Qed.

Lemma split_crlf_from_line l : forall cur tail,
  no_cr l = true ->
  split_crlf_from cur (l ++ crlf ++ tail) = (cur ++ l) :: split_crlf_from [] tail.
Proof.
  induction l as [|c l IH]; intros cur tail H.
  - now rewrite app_nil_r.
  - cbn in H. apply andb_prop in H. destruct H as [Hc Hl].
    apply negb_true_iff in Hc. cbn [app split_crlf_from].
    destruct (l ++ crlf ++ tail) as [|d s] eqn:E.
    + destruct l; discriminate.
    + rewrite Hc. cbn [andb]. rewrite <- E, IH by exact Hl.
      now rewrite <- app_assoc.
Qed.

Lemma digits_no_cr (d : Decimal.uint) :
  no_cr (lit (NilEmpty.string_of_uint d)) = true.
Proof. unfold no_cr, lit. induction d; cbn; auto. Qed.

Lemma str_of_int_no_cr n : no_cr (str_of_int n) = true.
Proof.
  unfold str_of_int, NilZero.string_of_int, NilZero.string_of_uint.
  destruct (Z.to_int n) as [d|d];
    [ destruct d; try reflexivity; apply digits_no_cr | ].
  change (no_cr (45 :: lit match d with
                           | Decimal.Nil => "0"
                           | _ => NilEmpty.string_of_uint d
                           end) = true).
  destruct d; try reflexivity; apply digits_no_cr.
Qed.

(** ** Paths *)

Lemma isabs_cons path :
  posixpath.isabs path = true -> exists p, path = 47 :: p.
Proof.
  unfold posixpath.isabs. intro H. apply startswith_iff in H.
  destruct H as [t ->]. now exists t.
Qed.

Lemma normpath_absolute path :
  posixpath.isabs path = true ->
  posixpath.isabs (posixpath.normpath path) = true.
Proof.
  intro H. destruct (isabs_cons path H) as [p ->].
  unfold posixpath.normpath. cbn [is_empty].
  unfold posixpath.count_initial_slashes.
  unfold posixpath.isabs in H. rewrite H.
  destruct (startswith (47 :: p) (posixpath.sep ++ posixpath.sep)
            && negb (startswith (47 :: p)
                       (posixpath.sep ++ posixpath.sep ++ posixpath.sep)));
    reflexivity.
Qed.

Lemma abspath_absolute cwd path :
  posixpath.isabs cwd = true ->
  posixpath.isabs (posixpath.abspath cwd path) = true.
Proof.
  intro Hcwd. unfold posixpath.abspath.
  destruct (posixpath.isabs path) eqn:Hp; cbn [negb].
  - now apply normpath_absolute.
  - apply normpath_absolute. unfold posixpath.join.
    unfold posixpath.isabs in Hp. rewrite Hp.
    destruct (isabs_cons cwd Hcwd) as [c ->]. cbn [is_empty orb].
    destruct (endswith (47 :: c) posixpath.sep); reflexivity.
Qed.

Lemma rfind_from_app c s : forall i found t,
  rfind_from i c (s ++ t) found
  = rfind_from (i + len s) c t (rfind_from i c s found).
Proof.
  induction s as [|x s IH]; intros i found t.
  - cbn. now rewrite Z.add_0_r.
  - cbn [app rfind_from]. rewrite IH. f_equal. unfold len. cbn [List.length]. lia.
Qed.

Lemma rfind_from_range c s : forall i found,
  -1 <= found < i -> -1 <= rfind_from i c s found < i + len s.
Proof.
  induction s as [|x s IH]; intros i found H.
  - cbn. lia.
  - cbn [rfind_from]. unfold len. cbn [List.length].
    specialize (IH (i + 1) (if x =? c then i else found)).
    unfold len in IH. destruct (x =? c); lia.
Qed.

Lemma rfind_range c s : -1 <= rfind c s < len s.
Proof. apply (rfind_from_range c s 0 (-1)). lia. Qed.

Lemma rfind_from_shift c s : forall i found,
  rfind_from i c s found
  = if rfind c s =? -1 then found else i + rfind c s.
Proof.
  unfold rfind. induction s as [|x s IH]; intros i found.
  - reflexivity.
  - cbn [rfind_from]. rewrite (IH (i + 1)), (IH (0 + 1)).
    pose proof (rfind_range c s) as R. unfold rfind in R.
    destruct (rfind_from 0 c s (-1) =? -1) eqn:E.
    + destruct (x =? c); cbn; [now rewrite Z.add_0_r | reflexivity].
    + apply Z.eqb_neq in E.
      replace (0 + 1 + rfind_from 0 c s (-1) =? -1) with false
        by (symmetry; apply Z.eqb_neq; lia).
      lia.
Qed.

Lemma rfind_app c s t :
  rfind c (s ++ t) = if rfind c t =? -1 then rfind c s else len s + rfind c t.
Proof.
  unfold rfind at 1. rewrite rfind_from_app, rfind_from_shift.
  now rewrite Z.add_0_l.
Qed.

(** The extension of [base ++ t] is read off [t] when [t] holds no
    separator and its last dot follows something that is not a dot. *)
Lemma splitext_app_ext base t k :
  rfind 47 t = -1 ->
  rfind 46 t = Z.of_nat k ->
  existsb (fun c => negb (c =? 46)) (firstn k t) = true ->
  snd (posixpath.splitext (base ++ t)) = skipn k t.
Proof.
  intros Hsep Hdot Hstem. unfold posixpath.splitext.
  rewrite !rfind_app, Hsep, Hdot. change (-1 =? -1) with true.
  replace (Z.of_nat k =? -1) with false by (symmetry; apply Z.eqb_neq; lia).
  cbv iota.
  pose proof (rfind_range 47 base) as R. unfold len in *.
  replace (Z.of_nat (List.length base) + Z.of_nat k >? rfind 47 base) with true
    by (symmetry; apply Z.gtb_lt; lia).
  assert (Hslice :
    existsb (fun c => negb (c =? 46))
      (slice (base ++ t) (rfind 47 base + 1)
             (Z.of_nat (List.length base) + Z.of_nat k)) = true).
  { unfold slice.
    rewrite skipn_app.
    replace (Z.to_nat (rfind 47 base + 1) - List.length base)%nat with 0%nat
      by lia.
    cbn [skipn]. rewrite firstn_app, length_skipn.
    replace (Z.to_nat (Z.of_nat (List.length base) + Z.of_nat k
                       - (rfind 47 base + 1))
             - (List.length base - Z.to_nat (rfind 47 base + 1)))%nat
      with k by lia.
    now rewrite existsb_app, Hstem, orb_true_r. }
  rewrite Hslice. cbn [snd].
  replace (Z.to_nat (Z.of_nat (List.length base) + Z.of_nat k))
    with (List.length base + k)%nat by lia.
  rewrite skipn_app, skipn_all2 by lia.
  now replace (List.length base + k - List.length base)%nat with k by lia.
Qed.

(** ** The MIME registry *)

Lemma default_suffix_values k repl :
  lookup mimetypes.default_suffix_map k = Some repl ->
  repl = lit ".svg.gz" \/ repl = lit ".tar.gz"
  \/ repl = lit ".tar.bz2" \/ repl = lit ".tar.xz".
Proof.
  unfold mimetypes.default_suffix_map. cbn [lookup].
  repeat match goal with
  | |- context [if ?t then _ else _] => destruct t
  end; intro H; try discriminate; injection H as <-; auto.
Qed.

(** With the library's [suffix_map], two turns of fuel are as good as any
    number: the loop has ended by then. *)
Lemma suffix_loop_ends u platform_types n base ext :
  mimetypes.suffix_loop (2 + n) (str_lower u) (main_mimetypes platform_types)
                        base ext
  = mimetypes.suffix_loop 2 (str_lower u) (main_mimetypes platform_types)
                          base ext.
Proof.
  change (2 + n)%nat with (S (S n)). cbn [mimetypes.suffix_loop].
  cbn [main_mimetypes mimetypes.init mimetypes.add_type mimetypes.suffix_map].
  destruct (lookup mimetypes.default_suffix_map (str_lower u ext))
    as [repl|] eqn:E; [|reflexivity].
  assert (Hext : exists e,
    snd (posixpath.splitext (base ++ repl)) = e
    /\ lookup mimetypes.default_suffix_map (str_lower u e) = None).
  { destruct (default_suffix_values _ _ E) as [-> | [-> | [-> | ->]]];
      eexists; (split; [apply (splitext_app_ext base _ 4); reflexivity
                       | reflexivity]). }
  destruct Hext as (e & He & Hnone).
  destruct (posixpath.splitext (base ++ repl)) as [b e'].
  cbn [snd] in He. subst e'.
  destruct n; cbn [mimetypes.suffix_loop]; now rewrite Hnone.
Qed.

(** An extension that is neither a suffix alias nor an encoding is looked
    up, in lower case, in the table of types. *)
Lemma guess_type_plain lower db url base ext :
  posixpath.splitext url = (base, ext) ->
  lookup (mimetypes.suffix_map db) (lower ext) = None ->
  lookup (mimetypes.encodings_map db) ext = None ->
  fst (mimetypes.guess_type lower db url)
  = lookup (mimetypes.types_map db) (lower ext).
Proof.
  intros Hsplit Hsuf Henc. unfold mimetypes.guess_type.
  rewrite Hsplit. cbn [mimetypes.suffix_loop]. rewrite Hsuf, Henc.
  destruct (lookup (mimetypes.types_map db) (lower ext)); reflexivity.
Qed.

(** ** Worked examples *)

Example splitlines_demo :
  splitlines (lit "GET / HTTP/1.1" ++ crlf ++ lit "Host: a" ++ crlf ++ crlf)
  = [lit "GET / HTTP/1.1"; lit "Host: a"; []].
Proof. reflexivity. Qed.

Example split_demo :
  split (lit "  GET   /a.b HTTP/1.1 ") = [lit "GET"; lit "/a.b"; lit "HTTP/1.1"].
Proof. reflexivity. Qed.

Example str_of_int_demo :
  str_of_int 404 = lit "404" /\ str_of_int 0 = lit "0"
  /\ str_of_int (-7) = lit "-7".
Proof. repeat split; reflexivity. Qed.

Example utf8_demo :
  utf8.decode [0x47; 0xC3; 0xA9; 0xE2; 0x82; 0xAC; 0xF0; 0x9F; 0x98; 0x80]
  = Some [0x47; 0xE9; 0x20AC; 0x1F600]
  /\ utf8.encode [0x47; 0xE9; 0x20AC; 0x1F600]
     = Some [0x47; 0xC3; 0xA9; 0xE2; 0x82; 0xAC; 0xF0; 0x9F; 0x98; 0x80]
  /\ utf8.decode [0xC0; 0x80] = None
  /\ utf8.decode [0xED; 0xA0; 0x80] = None
  /\ utf8.encode [0xD800] = None.
Proof. repeat split; reflexivity. Qed.

Example normpath_demo :
  posixpath.normpath (lit "/srv/www/../www-secret/key.txt")
  = lit "/srv/www-secret/key.txt"
  /\ posixpath.normpath (lit "//a/./b/../../../c/") = lit "//c"
  /\ posixpath.normpath (lit "a/../../b") = lit "../b"
  /\ posixpath.join (lit "/srv/www") (lit "") = lit "/srv/www/"
  /\ posixpath.abspath (lit "/home/nick") (lit "../../srv/www/") = lit "/srv/www".
Proof. repeat split; reflexivity. Qed.

Example splitext_demo :
  posixpath.splitext (lit "/a.b/x.tar.gz") = (lit "/a.b/x.tar", lit ".gz")
  /\ posixpath.splitext (lit "/a.b/..x") = (lit "/a.b/..x", [])
  /\ posixpath.splitext (lit "/a.b/.profile") = (lit "/a.b/.profile", [])
  /\ posixpath.splitext (lit "/a.b/c") = (lit "/a.b/c", []).
Proof. repeat split; reflexivity. Qed.

(* ================================================================== *)
(** * Part IV: running the server *)
(* ================================================================== *)

(** ** The header block *)

Lemma build_headers_flat self os code message content_type n :
  build_headers self os code message content_type n
  = header_block (header_lines os code message content_type n).
Proof.
  unfold build_headers, header_block, header_lines, status_line, _server_name.
  cbn [app str_join map List.concat].
  rewrite <- !app_assoc. reflexivity.
Qed.

Lemma encode_header_block os code message content_type n m c :
  utf8.encode message = Some m -> utf8.encode content_type = Some c ->
  exists head,
    utf8.encode (header_block (header_lines os code message content_type n))
    = Some head /\ head <> [].
Proof.
  intros Hm Hc.
  destruct (encode_lit "HTTP/1.1 ") as [x1 H1].
  destruct (encode_lit (NilZero.string_of_int (Z.to_int code))) as [x2 H2].
  destruct (encode_lit " ") as [x3 H3].
  destruct (encode_lit "Date: ") as [x4 H4].
  destruct (encode_lit (http_date os)) as [x5 H5].
  destruct (encode_lit "Server: NicksDiscountServer/1.0") as [x6 H6].
  destruct (encode_lit "Content-Type: ") as [x7 H7].
  destruct (encode_lit "Content-Length: ") as [x8 H8].
  destruct (encode_lit (NilZero.string_of_int (Z.to_int n))) as [x9 H9].
  destruct (encode_lit "Connection: close") as [x10 H10].
  assert (exists y, utf8.encode crlf = Some y) as [y Hy] by (now eexists).
  unfold header_block, header_lines, status_line, str_of_int.
  cbn [map List.concat]. rewrite app_nil_r.
  eexists. split.
  - repeat (first [ eassumption | apply encode_app_some ]).
  - intro E. repeat (apply app_eq_nil in E; destruct E as [E _]).
    revert E. eapply encode_nonempty; [exact H1 | discriminate].
Qed.

(** A block of lines without carriage returns reads back as its lines,
    the empty line that ends it, and nothing after. *)
Lemma header_block_split lines :
  forallb no_cr lines = true ->
  split_crlf (header_block lines) = lines ++ [[]; []].
Proof.
  unfold split_crlf, header_block.
  induction lines as [|l lines IH]; intro H; [reflexivity|].
  cbn in H. apply andb_prop in H. destruct H as [Hl Hrest].
  cbn [map List.concat app]. rewrite <- !app_assoc.
  rewrite split_crlf_from_line by exact Hl. cbn [app].
  now rewrite IH.
Qed.

Lemma header_block_reads_back self os code message content_type n :
  no_cr message = true -> no_cr content_type = true ->
  no_cr (lit (http_date os)) = true ->
  split_crlf (build_headers self os code message content_type n)
  = header_lines os code message content_type n ++ [[]; []].
Proof.
  intros Hm Hc Hd. rewrite build_headers_flat. apply header_block_split.
  pose proof (str_of_int_no_cr code) as Hcode.
  pose proof (str_of_int_no_cr n) as Hn.
  unfold header_lines, status_line. cbn [forallb]. unfold no_cr in *.
  rewrite !forallb_app, Hm, Hc, Hd, Hcode, Hn. reflexivity.
Qed.

Lemma response_begins_with_status os code message content_type body wire pre :
  is_response os code message content_type body wire ->
  utf8.encode (status_line code message ++ crlf) = Some pre ->
  startswith wire pre = true.
Proof.
  intros (head & Hh & ->) Hpre.
  unfold header_block, header_lines in Hh. cbn [map List.concat] in Hh.
  apply encode_app_inv in Hh. destruct Hh as (x & y & Hx & _ & ->).
  apply encode_app_inv in Hx. destruct Hx as (x1 & x2 & Hx1 & _ & ->).
  rewrite Hpre in Hx1. injection Hx1 as <-.
  rewrite <- !app_assoc. apply startswith_app.
Qed.

Lemma is_response_unique os code message content_type body wire1 wire2 :
  is_response os code message content_type body wire1 ->
  is_response os code message content_type body wire2 ->
  wire1 = wire2.
Proof. intros (h1 & E1 & ->) (h2 & E2 & ->). congruence. Qed.

Lemma is_error_response_unique os code message wire1 wire2 :
  is_error_response os code message wire1 ->
  is_error_response os code message wire2 ->
  wire1 = wire2.
Proof.
  intros (b1 & E1 & R1) (b2 & E2 & R2).
  assert (b1 = b2) by congruence. subst b2.
  eapply is_response_unique; eauto.
Qed.

(** A 200 response and the 404 page differ in their status lines, so
    neither begins the other. *)
Lemma status_clash os content_type body wire wire' t t' :
  is_response os 200 (lit "OKEE DOKEE") content_type body wire ->
  is_error_response os 404 (lit "File Not Found") wire' ->
  wire ++ t <> wire' ++ t'.
Proof.
  intros H (b & _ & H').
  pose proof (response_begins_with_status _ _ _ _ _ _
                (lit "HTTP/1.1 200 OKEE DOKEE" ++ crlf) H eq_refl) as P.
  pose proof (response_begins_with_status _ _ _ _ _ _
                (lit "HTTP/1.1 404 File Not Found" ++ crlf) H' eq_refl) as P'.
  apply startswith_iff in P. destruct P as [x ->].
  apply startswith_iff in P'. destruct P' as [x' ->].
  intro E. apply (f_equal (fun l => nth 9 l 0)) in E.
  vm_compute in E. discriminate E.
Qed.

Lemma asks_for_unique w target1 target2 :
  asks_for w target1 -> asks_for w target2 -> target1 = target2.
Proof.
  intros (i1 & d1 & l1 & r1 & v1 & Hrx1 & Hd1 & Hl1 & Hs1)
         (i2 & d2 & l2 & r2 & v2 & Hrx2 & Hd2 & Hl2 & Hs2).
  rewrite Hrx1 in Hrx2. injection Hrx2 as <-.
  rewrite Hd1 in Hd2. injection Hd2 as <-.
  rewrite Hl1 in Hl2. injection Hl2 as <- <-.
  rewrite Hs1 in Hs2. now injection Hs2.
Qed.

(** There is one response to the request on [w] of each kind. *)
Lemma one_response_unique self os w wire1 wire2 t1 t2 :
  one_response self os w wire1 -> one_response self os w wire2 ->
  wire1 ++ t1 = wire2 ++ t2 -> wire1 = wire2.
Proof.
  intros [H1 | (g1 & c1 & A1 & R1 & H1)] [H2 | (g2 & c2 & A2 & R2 & H2)] E.
  - eapply is_error_response_unique; eauto.
  - symmetry in E. exfalso. revert E. eapply status_clash; eauto.
  - exfalso. revert E. eapply status_clash; eauto.
  - pose proof (asks_for_unique w g1 g2 A1 A2) as <-.
    rewrite R1 in R2. injection R2 as <-.
    eapply is_response_unique; eauto.
Qed.

Lemma one_response_nonempty self os w wire :
  one_response self os w wire -> wire <> [].
Proof.
  intros [(b & _ & H) | (g & c & _ & _ & H)] ->.
  - pose proof (response_begins_with_status _ _ _ _ _ _
                  (lit "HTTP/1.1 404 File Not Found" ++ crlf) H eq_refl) as P.
    discriminate P.
  - pose proof (response_begins_with_status _ _ _ _ _ _
                  (lit "HTTP/1.1 200 OKEE DOKEE" ++ crlf) H eq_refl) as P.
    discriminate P.
Qed.

(** One response is not two: whatever follows a whole response, be it
    the same response again or another one, is one response too many. *)
Lemma nothing_follows_one_response self os w wire more :
  one_response self os w wire ->
  at_most_one_response self os w (wire ++ more) -> more = [].
Proof.
  intros H1 [Hnil | H2].
  - apply app_eq_nil in Hnil. tauto.
  - assert (E : wire ++ more = wire).
    { apply (one_response_unique self os w _ _ [] more H2 H1).
      now rewrite app_nil_r. }
    apply (app_inv_head wire). now rewrite app_nil_r.
Qed.

Lemma second_response_is_one_too_many self os w wire wire' :
  one_response self os w wire -> one_response self os w wire' ->
  at_most_one_response self os w (wire ++ wire') -> False.
Proof.
  intros H H' A.
  apply (one_response_nonempty self os w wire' H').
  exact (nothing_follows_one_response self os w wire wire' H A).
Qed.

(** ** The socket *)

Lemma sendall_twice a b w :
  (sendall a ;;; sendall b) w = sendall (a ++ b) w.
Proof.
  destruct w as [[r room out cl] log].
  unfold bind, sendall, with_socket, transmit. cbn.
  rewrite length_app.
  destruct (List.length a <=? room)%nat eqn:Ha.
  - apply Nat.leb_le in Ha. cbn.
    rewrite firstn_app, (firstn_all2 a) by lia.
    rewrite <- app_assoc.
    replace (room - (List.length a + List.length b))%nat
      with (room - List.length a - List.length b)%nat by lia.
    destruct (List.length b <=? room - List.length a)%nat eqn:Hb;
      destruct (List.length a + List.length b <=? room)%nat eqn:Hab;
      try reflexivity;
      [ apply Nat.leb_le in Hb; apply Nat.leb_gt in Hab
      | apply Nat.leb_gt in Hb; apply Nat.leb_le in Hab ]; lia.
  - apply Nat.leb_gt in Ha.
    replace (List.length a + List.length b <=? room)%nat with false
      by (symmetry; apply Nat.leb_gt; lia).
    rewrite firstn_app.
    replace (room - List.length a)%nat with 0%nat by lia.
    replace (room - (List.length a + List.length b))%nat with 0%nat by lia.
    cbn. now rewrite app_nil_r.
Qed.

(** Once the connection is broken nothing more goes out. *)
Lemma sendall_broken data w :
  tx_room (clientsocket w) = 0%nat -> data <> [] ->
  sendall data w = (Raise ConnectionError, w).
Proof.
  destruct w as [[r room out cl] log]. cbn. intros -> Hd.
  unfold sendall, with_socket, transmit. cbn.
  destruct data as [|d data]; [congruence|]. cbn.
  now rewrite app_nil_r.
Qed.

Lemma sendall_overflow data w :
  (tx_room (clientsocket w) < List.length data)%nat ->
  exists w',
    sendall data w = (Raise ConnectionError, w')
    /\ tx_room (clientsocket w') = 0%nat
    /\ sent (clientsocket w') = sent (clientsocket w)
                               ++ firstn (tx_room (clientsocket w)) data
    /\ closed (clientsocket w') = closed (clientsocket w)
    /\ stdout w' = stdout w.
Proof.
  intro H. unfold sendall.
  replace (List.length data <=? tx_room (clientsocket w))%nat with false
    by (symmetry; apply Nat.leb_gt; lia).
  eexists. split; [reflexivity|]. cbn. repeat split. lia.
Qed.

Lemma sendall_fits data w :
  (List.length data <= tx_room (clientsocket w))%nat ->
  exists w',
    sendall data w = (Ret tt, w')
    /\ sent (clientsocket w') = sent (clientsocket w) ++ data
    /\ closed (clientsocket w') = closed (clientsocket w)
    /\ stdout w' = stdout w.
Proof.
  intro H. unfold sendall.
  replace (List.length data <=? tx_room (clientsocket w))%nat with true
    by (symmetry; apply Nat.leb_le; lia).
  eexists. split; [reflexivity|]. cbn. repeat split.
  now rewrite firstn_all2.
Qed.

Lemma sendall_emits data w :
  exists o w',
    sendall data w = (o, w') /\ emits data w w'
    /\ stdout w' = stdout w
    /\ (o = Ret tt \/
        o = Raise ConnectionError /\ tx_room (clientsocket w') = 0%nat).
Proof.
  destruct (le_lt_dec (List.length data) (tx_room (clientsocket w))) as [H|H].
  - destruct (sendall_fits data w H) as (w' & E & Hs & Hc & Hl).
    exists (Ret tt), w'. unfold emits.
    rewrite firstn_all2 by lia. auto.
  - destruct (sendall_overflow data w H) as (w' & E & Hr & Hs & Hc & Hl).
    exists (Raise ConnectionError), w'. unfold emits. auto 6.
Qed.

(** ** The two responders *)

Lemma error_page_message code message body :
  utf8.encode (error_page code message) = Some body ->
  exists m, utf8.encode message = Some m.
Proof.
  unfold error_page. intro H.
  apply encode_app_inv in H. destruct H as (_ & y1 & _ & H & _).
  apply encode_app_inv in H. destruct H as (_ & y2 & _ & H & _).
  apply encode_app_inv in H. destruct H as (_ & y3 & _ & H & _).
  apply encode_app_inv in H. destruct H as (m & _ & H & _). eauto.
Qed.

(** The Error Responder hands one whole response to the socket. *)
Lemma send_error_run self os code message body :
  utf8.encode (error_page code message) = Some body ->
  exists wire,
    is_response os code message (lit "text/html") body wire
    /\ wire <> []
    /\ forall w, send_error self os code message w = sendall wire w.
Proof.
  intro Hb.
  destruct (error_page_message _ _ _ Hb) as [m Hm].
  destruct (encode_lit "text/html") as [c Hc].
  destruct (encode_header_block os code message (lit "text/html") (len body)
              m c Hm Hc) as (head & Hh & Hne).
  exists (head ++ body). split; [|split].
  - exists head. auto.
  - intro E. apply app_eq_nil in E. tauto.
  - intro w. unfold send_error. unfold error_page in Hb.
    unfold bind at 1. rewrite Hb. cbn [lift ret].
    rewrite build_headers_flat.
    unfold bind at 1. rewrite Hh. cbn [lift ret].
    apply sendall_twice.
Qed.

Lemma not_found_run self os :
  exists wire,
    is_error_response os 404 (lit "File Not Found") wire
    /\ wire <> []
    /\ forall w, send_error self os 404 (lit "File Not Found") w = sendall wire w.
Proof.
  destruct (encode_lit "<html><body><h1>404 File Not Found</h1></body></html>")
    as [body Hb].
  destruct (send_error_run self os 404 (lit "File Not Found") body Hb)
    as (wire & Hr & Hne & Hrun).
  exists wire. split; [|auto]. exists body. auto.
Qed.

Lemma send_error_platform self os os' code message :
  http_date os' = http_date os ->
  send_error self os' code message = send_error self os code message.
Proof. intro H. unfold send_error, build_headers. now rewrite H. Qed.

Lemma error_response_is_response self os w wire :
  is_error_response os 404 (lit "File Not Found") wire ->
  at_most_one_response self os w wire.
Proof. intro H. right. now left. Qed.

(** The File Responder on a file it can read: one whole 200 response goes
    to the socket; when the peer stops taking octets the failure is logged
    and the fallback finds the connection broken. *)
Lemma send_file_readable self os filepath content :
  read os filepath = Some content ->
  exists wire,
    is_response os 200 (lit "OKEE DOKEE") (lit (content_type_of os filepath))
                content wire
    /\ forall w, exists o w',
         send_file self os filepath w = (o, w') /\ emits wire w w'
         /\ ((List.length wire <= tx_room (clientsocket w))%nat ->
             o = Ret tt /\ stdout w' = stdout w).
Proof.
  intro Hr.
  destruct (encode_lit "OKEE DOKEE") as [m Hm].
  destruct (encode_lit (content_type_of os filepath)) as [c Hc].
  destruct (encode_header_block os 200 (lit "OKEE DOKEE")
              (lit (content_type_of os filepath)) (len content) m c Hm Hc)
    as (head & Hh & Hne).
  exists (head ++ content). split; [exists head; auto|].
  intro w.
  assert (Hbody : forall w0,
    (content <- open_read os filepath ;;
     let content_length := len content in
     let content_type := lit (content_type_of os filepath) in
     let response_headers :=
       build_headers self os 200 (lit "OKEE DOKEE") content_type content_length in
     encoded <- lift UnicodeEncodeError (utf8.encode response_headers) ;;
     sendall encoded ;;;
     sendall content) w0 = sendall (head ++ content) w0).
  { intro w0. unfold bind at 1, open_read. rewrite Hr. cbn [lift ret].
    cbv zeta. rewrite build_headers_flat.
    unfold bind at 1. rewrite Hh. cbn [lift ret]. apply sendall_twice. }
  unfold send_file, try_except. rewrite Hbody.
  destruct (le_lt_dec (List.length (head ++ content)) (tx_room (clientsocket w)))
    as [Hfit|Hover].
  - destruct (sendall_fits _ w Hfit) as (w' & E & Hs & Hcl & Hl).
    rewrite E. exists (Ret tt), w'. split; [reflexivity|]. split.
    + unfold emits. rewrite firstn_all2 by lia. auto.
    + auto.
  - destruct (sendall_overflow _ w Hover) as (w' & E & Hroom & Hs & Hcl & Hl).
    rewrite E.
    destruct (not_found_run self os) as (ewire & _ & Hene & Herun).
    unfold bind, print. rewrite Herun.
    rewrite sendall_broken by (cbn; auto).
    eexists _, _. split; [reflexivity|]. split.
    + unfold emits. cbn. auto.
    + intro. lia.
Qed.

(** The File Responder on a file it cannot read: the failure is logged and
    the Error Responder answers. *)
Lemma send_file_unreadable self os filepath :
  read os filepath = None ->
  exists wire,
    is_error_response os 404 (lit "File Not Found") wire
    /\ forall w, exists o w',
         send_file self os filepath w = (o, w') /\ emits wire w w'.
Proof.
  intro Hr.
  destruct (not_found_run self os) as (ewire & He & _ & Herun).
  exists ewire. split; [exact He|]. intro w.
  unfold send_file, try_except, bind at 1, open_read. rewrite Hr.
  cbn [lift raise]. unfold bind, print. rewrite Herun.
  destruct (sendall_emits ewire
              {| clientsocket := clientsocket w;
                 stdout := stdout w ++ [send_file_error OSError] |})
    as (o & w' & E & Hem & _).
  rewrite E. exists o, w'. split; [reflexivity|]. exact Hem.
Qed.

Lemma content_type_of_plain os url base ext :
  posixpath.splitext url = (base, ext) ->
  lookup (mimetypes.suffix_map (mime os)) (str_lower (unicode_lower os) ext) = None ->
  lookup (mimetypes.encodings_map (mime os)) ext = None ->
  content_type_of os url
  = or_else (lookup (mimetypes.types_map (mime os))
                    (str_lower (unicode_lower os) ext))
            "application/octet-stream".
Proof.
  intros Hsplit Hsuf Henc. unfold content_type_of.
  now rewrite (guess_type_plain _ _ _ _ _ Hsplit Hsuf Henc).
Qed.

(** ** The connection handler *)

(** Whatever the body of the [try] does, the handler logs a failure, closes
    the socket and returns. *)
Lemma handler_boundary self os w o w1 :
  handle_client_try self os w = (o, w1) ->
  exists w',
    handle_client self os w = (Ret tt, w')
    /\ sent (clientsocket w') = sent (clientsocket w1)
    /\ closed (clientsocket w') = true
    /\ stdout w' = stdout w1 ++ match o with
                                | Ret _ => []
                                | Raise e => [client_error e]
                                end.
Proof.
  intro H. unfold handle_client, try_finally, try_except. rewrite H.
  destruct o as [[]|e]; cbn; eexists; (split; [reflexivity|]); cbn;
    rewrite ?app_nil_r; auto.
Qed.

Lemma recv_run n w incoming :
  rx (clientsocket w) = Some incoming ->
  recv n w = (Ret (firstn n incoming), after_recv n w).
Proof. intro H. unfold recv, after_recv. now rewrite H. Qed.

Lemma unpack3_wrong_count tokens w :
  List.length tokens <> 3%nat -> unpack3 tokens w = (Raise ValueError, w).
Proof.
  destruct tokens as [|a [|b [|c [|d l]]]]; cbn; intro H;
    try reflexivity; congruence.
Qed.

(** The request is read and parsed; what follows is the choice of the
    response. *)
Lemma handle_client_try_parsed self os w incoming data line rest method path blank :
  rx (clientsocket w) = Some incoming ->
  utf8.decode (firstn 1024 incoming) = Some data ->
  splitlines data = line :: rest ->
  split line = [method; path; blank] ->
  handle_client_try self os w =
    (if negb (str_eqb method (lit "GET")) then
       send_error self os 404 (lit "File Not Found")
     else
       let requested_path := requested_path_of self os path in
       if negb (startswith requested_path self.(root)) then
         send_error self os 404 (lit "File Not Found")
       else if exists_ os requested_path && isfile os requested_path then
         send_file self os requested_path
       else
         send_error self os 404 (lit "File Not Found")) (after_recv 1024 w).
Proof.
  intros Hrx Hdec Hlines Hsplit.
  unfold handle_client_try. unfold bind at 1. rewrite (recv_run _ _ _ Hrx).
  unfold bind at 1. rewrite Hdec. cbn [lift ret].
  destruct data as [|d data]; [discriminate|]. cbn [is_empty].
  unfold bind at 1. rewrite Hlines. cbn [first_item ret].
  unfold bind at 1. rewrite Hsplit. cbn [unpack3 ret]. reflexivity.
Qed.

(** A request that is answered by the Error Responder. *)
Lemma answered_not_found self os w :
  handle_client_try self os w
  = send_error self os 404 (lit "File Not Found") (after_recv 1024 w) ->
  exists wire w',
    is_error_response os 404 (lit "File Not Found") wire
    /\ handle_client self os w = (Ret tt, w')
    /\ sent (clientsocket w')
       = sent (clientsocket w) ++ firstn (tx_room (clientsocket w)) wire
    /\ closed (clientsocket w') = true.
Proof.
  intros Htry.
  destruct (not_found_run self os) as (wire & Hw & _ & Hrun).
  rewrite Hrun in Htry.
  destruct (sendall_emits wire (after_recv 1024 w))
    as (o & w2 & E & [Hsent _] & _).
  rewrite E in Htry.
  destruct (handler_boundary self os w o w2 Htry) as (w' & Hh & Hs' & Hc' & _).
  exists wire, w'. repeat split; try assumption.
  now rewrite Hs', Hsent.
Qed.

(** Nothing was read: the handler returns at once. *)
Lemma no_data_is_silent self os w incoming :
  rx (clientsocket w) = Some incoming ->
  firstn 1024 incoming = [] ->
  exists w',
    handle_client self os w = (Ret tt, w')
    /\ sent (clientsocket w') = sent (clientsocket w)
    /\ closed (clientsocket w') = true
    /\ stdout w' = stdout w.
Proof.
  intros Hrx He.
  assert (Htry : handle_client_try self os w = (Ret tt, after_recv 1024 w)).
  { unfold handle_client_try. unfold bind at 1. rewrite (recv_run _ _ _ Hrx), He.
    reflexivity. }
  destruct (handler_boundary self os w _ _ Htry) as (w' & Hh & Hs & Hc & Hl).
  exists w'. rewrite app_nil_r in Hl. auto.
Qed.

(** The first line has the wrong number of tokens: the unpacking raises
    [ValueError], which the handler logs. *)
Lemma malformed_line_is_silent self os w incoming data line rest :
  rx (clientsocket w) = Some incoming ->
  utf8.decode (firstn 1024 incoming) = Some data ->
  splitlines data = line :: rest ->
  List.length (split line) <> 3%nat ->
  exists w',
    handle_client self os w = (Ret tt, w')
    /\ sent (clientsocket w') = sent (clientsocket w)
    /\ closed (clientsocket w') = true
    /\ stdout w' = stdout w ++ [client_error ValueError].
Proof.
  intros Hrx Hdec Hlines Hcount.
  assert (Htry : handle_client_try self os w
                 = (Raise ValueError, after_recv 1024 w)).
  { unfold handle_client_try. unfold bind at 1. rewrite (recv_run _ _ _ Hrx).
    unfold bind at 1. rewrite Hdec. cbn [lift ret].
    destruct data as [|d data]; [discriminate|]. cbn [is_empty].
    unfold bind at 1. rewrite Hlines. cbn [first_item ret].
    unfold bind at 1. now rewrite unpack3_wrong_count. }
  destruct (handler_boundary self os w _ _ Htry) as (w' & Hh & Hs & Hc & Hl).
  exists w'. auto.
Qed.

(** Every run of the body of the [try] puts at most one response on the
    socket, whatever it returns or raises. *)
Lemma handle_client_try_emits self os w :
  exists o w1 wire,
    handle_client_try self os w = (o, w1)
    /\ emits wire w w1
    /\ at_most_one_response self os w wire.
Proof.
  assert (Hnone : forall o,
    handle_client_try self os w = (o, after_recv 1024 w) ->
    exists o w1 wire,
      handle_client_try self os w = (o, w1) /\ emits wire w w1
      /\ at_most_one_response self os w wire).
  { intros o H. exists o, (after_recv 1024 w), []. split; [exact H|].
    split; [|now left]. unfold emits. cbn. now rewrite firstn_nil, app_nil_r. }
  assert (Herr :
    handle_client_try self os w
    = send_error self os 404 (lit "File Not Found") (after_recv 1024 w) ->
    exists o w1 wire,
      handle_client_try self os w = (o, w1) /\ emits wire w w1
      /\ at_most_one_response self os w wire).
  { intro H. destruct (not_found_run self os) as (wire & Hw & _ & Hrun).
    rewrite Hrun in H.
    destruct (sendall_emits wire (after_recv 1024 w)) as (o & w1 & E & Hem & _).
    rewrite E in H. exists o, w1, wire. split; [exact H|]. split; [exact Hem|].
    eapply error_response_is_response; eauto. }
  destruct (rx (clientsocket w)) as [incoming|] eqn:Hrx.
  2:{ exists (Raise ConnectionError), w, []. split; [|split; [|now left]].
      - unfold handle_client_try. unfold bind at 1. unfold recv. now rewrite Hrx.
      - unfold emits. now rewrite firstn_nil, app_nil_r. }
  destruct (utf8.decode (firstn 1024 incoming)) as [data|] eqn:Hdec.
  2:{ apply (Hnone (Raise UnicodeDecodeError)).
      unfold handle_client_try. unfold bind at 1. rewrite (recv_run _ _ _ Hrx).
      unfold bind at 1. now rewrite Hdec. }
  destruct data as [|d data].
  { apply (Hnone (Ret tt)).
    unfold handle_client_try. unfold bind at 1. rewrite (recv_run _ _ _ Hrx).
    unfold bind at 1. now rewrite Hdec. }
  destruct (splitlines (d :: data)) as [|line rest] eqn:Hlines.
  { exfalso. revert Hlines. apply splitlines_nonempty. discriminate. }
  assert (Hbad : List.length (split line) <> 3%nat ->
    handle_client_try self os w = (Raise ValueError, after_recv 1024 w)).
  { intro Hc. unfold handle_client_try. unfold bind at 1.
    rewrite (recv_run _ _ _ Hrx). unfold bind at 1. rewrite Hdec.
    cbn [lift ret is_empty]. unfold bind at 1. rewrite Hlines.
    cbn [first_item ret]. unfold bind at 1. now rewrite unpack3_wrong_count. }
  destruct (split line) as [|method [|path [|blank [|extra more]]]] eqn:Hsplit;
    try (apply (Hnone (Raise ValueError)), Hbad; cbn; lia).
  pose proof (handle_client_try_parsed self os w _ _ _ _ _ _ _
                Hrx Hdec Hlines Hsplit) as Htry.
  destruct (str_eqb method (lit "GET")) eqn:Hget; cbn [negb] in Htry;
    [|now apply Herr].
  apply str_eqb_eq in Hget. subst method.
  cbv zeta in Htry.
  destruct (negb (startswith (requested_path_of self os path) (root self)));
    [now apply Herr|].
  destruct (exists_ os (requested_path_of self os path)
            && isfile os (requested_path_of self os path)); [|now apply Herr].
  destruct (read os (requested_path_of self os path)) as [content|] eqn:Hread.
  - destruct (send_file_readable self os _ content Hread) as (wire & Hw & Hrun).
    destruct (Hrun (after_recv 1024 w)) as (o & w1 & E & Hem & _).
    rewrite E in Htry. exists o, w1, wire. split; [exact Htry|].
    split; [exact Hem|]. right. right. exists path, content.
    split; [|split; [exact Hread | exact Hw]].
    exists incoming, (d :: data), line, rest, blank. auto.
  - destruct (send_file_unreadable self os _ Hread) as (wire & Hw & Hrun).
    destruct (Hrun (after_recv 1024 w)) as (o & w1 & E & Hem).
    rewrite E in Htry. exists o, w1, wire. split; [exact Htry|].
    split; [exact Hem|]. eapply error_response_is_response; eauto.
Qed.

(** ** The path a request resolves to *)

(** The path looked up for the target [/p], [p] being a relative path
    that names a file. *)
Lemma requested_path_of_file self os p :
  p <> [] -> startswith p (lit "/") = false -> endswith p (lit "/") = false ->
  requested_path_of self os (lit "/" ++ p)
  = posixpath.abspath (getcwd os) (posixpath.join (root self) p).
Proof.
  intros Hne Hs He. unfold requested_path_of.
  rewrite (file_target_has_no_trailing_slash p Hne He).
  now rewrite lstrip_leading_slash.
Qed.

(** A target that ends in the separator is resolved with [index.html]
    appended. *)
Lemma directory_target_appends_index self os target :
  endswith target (lit "/") = true ->
  requested_path_of self os target
  = posixpath.abspath (getcwd os)
      (posixpath.join (root self) (lstrip (target ++ lit "index.html") (lit "/"))).
Proof. intro H. unfold requested_path_of. now rewrite H. Qed.

(** Whatever the target, the path the handler looks up is absolute. *)
Lemma requested_path_absolute self os target :
  posixpath.isabs (getcwd os) = true ->
  posixpath.isabs (requested_path_of self os target) = true.
Proof. intro H. unfold requested_path_of. now apply abspath_absolute. Qed.

(** ** The four ways a parsed [GET] request ends *)

Section ParsedGet.

Variables (self : WebServer) (os : platform) (w : world).
Variables (incoming : bytes) (data line : str) (rest : list str).
Variables (target version : str).

Hypothesis Hrx : rx (clientsocket w) = Some incoming.
Hypothesis Hdec : utf8.decode (firstn 1024 incoming) = Some data.
Hypothesis Hlines : splitlines data = line :: rest.
Hypothesis Hsplit : split line = [lit "GET"; target; version].

Lemma get_try :
  handle_client_try self os w =
    (let requested_path := requested_path_of self os target in
     if negb (startswith requested_path self.(root)) then
       send_error self os 404 (lit "File Not Found")
     else if exists_ os requested_path && isfile os requested_path then
       send_file self os requested_path
     else
       send_error self os 404 (lit "File Not Found")) (after_recv 1024 w).
Proof.
  rewrite (handle_client_try_parsed self os w _ _ _ _ _ _ _
             Hrx Hdec Hlines Hsplit).
  now rewrite str_eqb_refl.
Qed.

(** The resolved path does not begin with the root: 404. *)
Lemma get_prefix_check_fails :
  startswith (requested_path_of self os target) (root self) = false ->
  exists wire w',
    is_error_response os 404 (lit "File Not Found") wire
    /\ handle_client self os w = (Ret tt, w')
    /\ sent (clientsocket w')
       = sent (clientsocket w) ++ firstn (tx_room (clientsocket w)) wire
    /\ closed (clientsocket w') = true.
Proof.
  intro H. apply answered_not_found. rewrite get_try. cbv zeta. now rewrite H.
Qed.

(** No regular file at the resolved path: 404. *)
Lemma get_no_such_file :
  stat os (requested_path_of self os target) <> Some regular ->
  exists wire w',
    is_error_response os 404 (lit "File Not Found") wire
    /\ handle_client self os w = (Ret tt, w')
    /\ sent (clientsocket w')
       = sent (clientsocket w) ++ firstn (tx_room (clientsocket w)) wire
    /\ closed (clientsocket w') = true.
Proof.
  intro H. apply answered_not_found. rewrite get_try. cbv zeta.
  destruct (negb (startswith (requested_path_of self os target) (root self)));
    [reflexivity|].
  unfold exists_, isfile.
  destruct (stat os (requested_path_of self os target)) as [[]|];
    try reflexivity. congruence.
Qed.

(** A regular file that cannot be read: 404, by the fallback of the File
    Responder. *)
Lemma get_unreadable_file :
  startswith (requested_path_of self os target) (root self) = true ->
  stat os (requested_path_of self os target) = Some regular ->
  read os (requested_path_of self os target) = None ->
  exists wire w',
    is_error_response os 404 (lit "File Not Found") wire
    /\ handle_client self os w = (Ret tt, w')
    /\ sent (clientsocket w')
       = sent (clientsocket w) ++ firstn (tx_room (clientsocket w)) wire
    /\ closed (clientsocket w') = true.
Proof.
  intros Hpre Hstat Hread. pose proof get_try as Htry. cbv zeta in Htry.
  rewrite Hpre in Htry. unfold exists_, isfile in Htry.
  rewrite Hstat in Htry. cbn [negb andb] in Htry.
  destruct (send_file_unreadable self os _ Hread) as (wire & Hw & Hrun).
  destruct (Hrun (after_recv 1024 w)) as (o & w1 & E & [Hsent _]).
  rewrite E in Htry.
  destruct (handler_boundary self os w o w1 Htry) as (w' & Hh & Hs & Hc & _).
  exists wire, w'. repeat split; try assumption. now rewrite Hs, Hsent.
Qed.

(** A readable regular file whose resolved path begins with the root: 200
    and the contents. *)
Lemma get_regular_file content :
  startswith (requested_path_of self os target) (root self) = true ->
  stat os (requested_path_of self os target) = Some regular ->
  read os (requested_path_of self os target) = Some content ->
  exists wire w',
    is_response os 200 (lit "OKEE DOKEE")
      (lit (content_type_of os (requested_path_of self os target))) content wire
    /\ handle_client self os w = (Ret tt, w')
    /\ sent (clientsocket w')
       = sent (clientsocket w) ++ firstn (tx_room (clientsocket w)) wire
    /\ closed (clientsocket w') = true.
Proof.
  intros Hpre Hstat Hread. pose proof get_try as Htry. cbv zeta in Htry.
  rewrite Hpre in Htry. unfold exists_, isfile in Htry.
  rewrite Hstat in Htry. cbn [negb andb] in Htry.
  destruct (send_file_readable self os _ content Hread) as (wire & Hw & Hrun).
  destruct (Hrun (after_recv 1024 w)) as (o & w1 & E & [Hsent _] & _).
  rewrite E in Htry.
  destruct (handler_boundary self os w o w1 Htry) as (w' & Hh & Hs & Hc & _).
  exists wire, w'. repeat split; try assumption. now rewrite Hs, Hsent.
Qed.

End ParsedGet.

(** The whole path from the octets on the wire to the answer, for a
    request in ASCII that fits the one read of 1024 octets. *)
Lemma ascii_get_request_serves_file
    self os w p version tail request file content :
  request = lit "GET /" ++ p ++ lit " " ++ version ++ crlf ++ tail ->
  rx (clientsocket w) = Some request ->
  (List.length request <= 1024)%nat ->
  is_ascii request = true ->
  no_space p = true -> no_space version = true -> version <> [] ->
  p <> [] -> startswith p (lit "/") = false -> endswith p (lit "/") = false ->
  file = posixpath.abspath (getcwd os) (posixpath.join (root self) p) ->
  inside (root self) file = true ->
  stat os file = Some regular ->
  read os file = Some content ->
  exists wire w',
    is_response os 200 (lit "OKEE DOKEE") (lit (content_type_of os file))
                content wire
    /\ handle_client self os w = (Ret tt, w')
    /\ sent (clientsocket w')
       = sent (clientsocket w) ++ firstn (tx_room (clientsocket w)) wire
    /\ closed (clientsocket w') = true.
Proof.
  intros Hreq Hrx Hlen Hascii Sp Sv Hv Hne Hrel Hfile Hpath Hin Hstat Hread.
  destruct (get_request_parses p version tail Sp Sv Hv) as (more & Hlines & Hsplit).
  rewrite <- Hreq in Hlines.
  assert (Hdec : utf8.decode (firstn 1024 request) = Some request)
    by (rewrite firstn_all2 by lia; now apply decode_ascii).
  pose proof (requested_path_of_file self os p Hne Hrel Hfile) as Hrp.
  rewrite <- Hpath in Hrp.
  destruct (get_regular_file self os w request request _ more
              (lit "/" ++ p) version Hrx Hdec Hlines Hsplit content)
    as (wire & w' & Hw & Hrest); rewrite ?Hrp; auto using inside_startswith.
  exists wire, w'. rewrite Hrp in Hw. auto.
Qed.

(** ** Worked scenarios *)

(** The scenario of the specification: the root holds [index.html], whose
    eleven octets are [<h1>Hi</h1>], and [style.css]. *)
Example scenario_root :
  exists w',
    handle_client demo_server demo_os
      (demo_connection (lit "GET / HTTP/1.1" ++ crlf ++ crlf)) = (Ret tt, w')
    /\ closed (clientsocket w') = true
    /\ sent (clientsocket w')
       = lit "HTTP/1.1 200 OKEE DOKEE" ++ crlf
         ++ lit "Date: Tue, 15 Nov 1994 08:12:31 GMT" ++ crlf
         ++ lit "Server: NicksDiscountServer/1.0" ++ crlf
         ++ lit "Content-Type: text/html" ++ crlf
         ++ lit "Content-Length: 11" ++ crlf
         ++ lit "Connection: close" ++ crlf
         ++ crlf
         ++ lit "<h1>Hi</h1>".
Proof. eexists. split; [vm_compute; reflexivity|]. split; reflexivity. Qed.

Example scenario_traversal_and_missing :
  exists w1 w2,
    handle_client demo_server demo_os
      (demo_connection (lit "GET /../etc/passwd HTTP/1.1" ++ crlf ++ crlf))
    = (Ret tt, w1)
    /\ handle_client demo_server demo_os
         (demo_connection (lit "GET /missing.txt HTTP/1.1" ++ crlf ++ crlf))
       = (Ret tt, w2)
    /\ sent (clientsocket w1) = sent (clientsocket w2)
    /\ sent (clientsocket w2)
       = lit "HTTP/1.1 404 File Not Found" ++ crlf
         ++ lit "Date: Tue, 15 Nov 1994 08:12:31 GMT" ++ crlf
         ++ lit "Server: NicksDiscountServer/1.0" ++ crlf
         ++ lit "Content-Type: text/html" ++ crlf
         ++ lit "Content-Length: 53" ++ crlf
         ++ lit "Connection: close" ++ crlf
         ++ crlf
         ++ lit "<html><body><h1>404 File Not Found</h1></body></html>".
Proof.
  eexists _, _. split; [vm_compute; reflexivity|].
  split; [vm_compute; reflexivity|]. split; reflexivity.
Qed.

(** A peer that stops reading after twenty octets: the File Responder
    fails, falls back to the Error Responder, which fails too; both
    failures are logged and the socket is closed. *)
Example scenario_peer_gone :
  handle_client demo_server demo_os
    (accepted (Some (lit "GET /style.css HTTP/1.1" ++ crlf ++ crlf)) 20)
  = (Ret tt,
     {| clientsocket :=
          {| rx := Some []; tx_room := 0;
             sent := lit "HTTP/1.1 200 OKEE DO"; closed := true |};
        stdout := [ send_file_error ConnectionError;
                    client_error ConnectionError ] |}).
Proof. vm_compute. reflexivity. Qed.

(* ================================================================== *)
(** * Part V: the claims of the specification *)
(* ================================================================== *)

(** C1, on the code: the root is [/srv/www]; the target
    [/../www-secret/key.txt] resolves to [/srv/www-secret/key.txt], which
    is outside the document tree but begins with the root's name, and the
    handler answers 200 with the contents of that file. *)
Theorem sibling_directory_file_is_served :
  requested_path_of demo_server demo_os (lit "/../www-secret/key.txt")
  = lit "/srv/www-secret/key.txt"
  /\ inside (root demo_server) (lit "/srv/www-secret/key.txt") = false
  /\ read demo_os (lit "/srv/www-secret/key.txt") = Some (lit "hunter2")
  /\ exists w',
       handle_client demo_server demo_os
         (demo_connection (lit "GET /../www-secret/key.txt HTTP/1.1" ++ crlf ++ crlf))
       = (Ret tt, w')
       /\ is_response demo_os 200 (lit "OKEE DOKEE") (lit "text/plain")
            (lit "hunter2") (sent (clientsocket w')).
Proof.
  split; [reflexivity|]. split; [reflexivity|]. split; [reflexivity|].
  eexists. split; [vm_compute; reflexivity|].
  eexists. split; vm_compute; reflexivity.
Qed.

(** C2. [GET /p], for a relative path [p] that resolves inside the
    document root to a regular file with contents [content], is answered
    by one response with status 200 whose header block announces the
    number of octets of [content] and whose body is [content]. *)
Theorem get_serves_existing_file
    self os w incoming data line rest p version file content :
  rx (clientsocket w) = Some incoming ->
  utf8.decode (firstn 1024 incoming) = Some data ->
  splitlines data = line :: rest ->
  split line = [lit "GET"; lit "/" ++ p; version] ->
  p <> [] -> startswith p (lit "/") = false -> endswith p (lit "/") = false ->
  file = posixpath.abspath (getcwd os) (posixpath.join (root self) p) ->
  inside (root self) file = true ->
  stat os file = Some regular ->
  read os file = Some content ->
  exists wire w',
    is_response os 200 (lit "OKEE DOKEE") (lit (content_type_of os file))
                content wire
    /\ handle_client self os w = (Ret tt, w')
    /\ sent (clientsocket w')
       = sent (clientsocket w) ++ firstn (tx_room (clientsocket w)) wire
    /\ closed (clientsocket w') = true.
Proof.
  intros Hrx Hdec Hlines Hsplit Hne Hrel Hfile Hpath Hin Hstat Hread.
  pose proof (requested_path_of_file self os p Hne Hrel Hfile) as Hrp.
  rewrite <- Hpath in Hrp.
  destruct (get_regular_file self os w incoming data line rest
              (lit "/" ++ p) version Hrx Hdec Hlines Hsplit content)
    as (wire & w' & Hw & Hrest); rewrite ?Hrp; auto using inside_startswith.
  exists wire, w'. rewrite Hrp in Hw. auto.
Qed.

Lemma get_serves_existing_file_witness :
  exists wire w',
    is_response demo_os 200 (lit "OKEE DOKEE")
      (lit (content_type_of demo_os (lit "/srv/www/style.css")))
      (lit "body{}") wire
    /\ handle_client demo_server demo_os
         (demo_connection (lit "GET /style.css HTTP/1.1" ++ crlf ++ crlf))
       = (Ret tt, w')
    /\ sent (clientsocket w') = [] ++ firstn 4096 wire
    /\ closed (clientsocket w') = true.
Proof.
  apply (get_serves_existing_file demo_server demo_os
           (demo_connection (lit "GET /style.css HTTP/1.1" ++ crlf ++ crlf))
           (lit "GET /style.css HTTP/1.1" ++ crlf ++ crlf)
           (lit "GET /style.css HTTP/1.1" ++ crlf ++ crlf)
           (lit "GET /style.css HTTP/1.1") [[]]
           (lit "style.css") (lit "HTTP/1.1")
           (lit "/srv/www/style.css") (lit "body{}"));
    first [ reflexivity | discriminate ].
Defined.

(** C3. A request line of three tokens whose method is not exactly [GET]
    is answered with the 404 page (the status line reads 404, whatever the
    method), the socket is closed, and the file system plays no part in the
    answer: a platform that differs only in its files gives the same run. *)
Theorem non_get_method_answers_404
    self os w incoming data line rest method target version :
  rx (clientsocket w) = Some incoming ->
  utf8.decode (firstn 1024 incoming) = Some data ->
  splitlines data = line :: rest ->
  split line = [method; target; version] ->
  method <> lit "GET" ->
  exists wire w',
    is_error_response os 404 (lit "File Not Found") wire
    /\ startswith wire (lit "HTTP/1.1 404 File Not Found" ++ crlf) = true
    /\ handle_client self os w = (Ret tt, w')
    /\ sent (clientsocket w')
       = sent (clientsocket w) ++ firstn (tx_room (clientsocket w)) wire
    /\ closed (clientsocket w') = true
    /\ forall os', http_date os' = http_date os ->
                   handle_client self os' w = handle_client self os w.
Proof.
  intros Hrx Hdec Hlines Hsplit Hm.
  assert (Htry : forall os0,
    handle_client_try self os0 w
    = send_error self os0 404 (lit "File Not Found") (after_recv 1024 w)).
  { intro os0.
    rewrite (handle_client_try_parsed self os0 w _ _ _ _ _ _ _
               Hrx Hdec Hlines Hsplit).
    apply str_eqb_neq in Hm. now rewrite Hm. }
  destruct (answered_not_found self os w (Htry os)) as (wire & w' & Hw & Hh & Hs & Hc).
  exists wire, w'. repeat split; try assumption.
  - destruct Hw as (body & _ & Hr).
    apply (response_begins_with_status _ _ _ _ _ _ _ Hr). reflexivity.
  - intros os' Hd. unfold handle_client, try_finally, try_except.
    now rewrite !Htry, (send_error_platform self os os' _ _ Hd).
Qed.

Lemma non_get_method_answers_404_witness :
  exists wire w',
    is_error_response demo_os 404 (lit "File Not Found") wire
    /\ startswith wire (lit "HTTP/1.1 404 File Not Found" ++ crlf) = true
    /\ handle_client demo_server demo_os
         (demo_connection (lit "POST /index.html HTTP/1.1" ++ crlf ++ crlf))
       = (Ret tt, w')
    /\ sent (clientsocket w') = [] ++ firstn 4096 wire
    /\ closed (clientsocket w') = true
    /\ forall os', http_date os' = http_date demo_os ->
         handle_client demo_server os'
           (demo_connection (lit "POST /index.html HTTP/1.1" ++ crlf ++ crlf))
         = handle_client demo_server demo_os
             (demo_connection (lit "POST /index.html HTTP/1.1" ++ crlf ++ crlf)).
Proof.
  apply (non_get_method_answers_404 demo_server demo_os
           (demo_connection (lit "POST /index.html HTTP/1.1" ++ crlf ++ crlf))
           (lit "POST /index.html HTTP/1.1" ++ crlf ++ crlf)
           (lit "POST /index.html HTTP/1.1" ++ crlf ++ crlf)
           (lit "POST /index.html HTTP/1.1") [[]]
           (lit "POST") (lit "/index.html") (lit "HTTP/1.1"));
    [ reflexivity | reflexivity | reflexivity | reflexivity | discriminate ].
Defined.

(** C4. Every handling of a connection ends with the socket closed and no
    exception escaping, whatever the peer sent, whatever the file system
    holds and however early the peer stops reading.  What went out on the
    socket is, as far as the peer took it, nothing at all or one whole
    response to the request: the 404 page, or the 200 response with the
    file asked for.  Nothing comes after that response: the same octets
    followed by anything more, a second 404 page say, would not be at
    most one response. *)
Theorem handler_closes_after_one_response self os w :
  exists w',
    handle_client self os w = (Ret tt, w')
    /\ closed (clientsocket w') = true
    /\ exists wire,
         at_most_one_response self os w wire
         /\ sent (clientsocket w')
            = sent (clientsocket w) ++ firstn (tx_room (clientsocket w)) wire
         /\ forall more,
              wire <> [] ->
              at_most_one_response self os w (wire ++ more) -> more = [].
Proof.
  destruct (handle_client_try_emits self os w)
    as (o & w1 & wire & Htry & [Hsent _] & Hone).
  destruct (handler_boundary self os w o w1 Htry) as (w' & Hh & Hs & Hc & _).
  exists w'. split; [exact Hh|]. split; [exact Hc|].
  exists wire. split; [exact Hone|]. split; [now rewrite Hs|].
  intros more Hne Hmore. destruct Hone as [-> | Hone]; [congruence|].
  exact (nothing_follows_one_response self os w wire more Hone Hmore).
Qed.

(** C5. When the one read of at most 1024 octets yields nothing, and when
    the first line of the request does not split into exactly three
    tokens, the handler sends nothing and closes the socket. *)
Theorem empty_or_malformed_request_is_silent self os w incoming :
  rx (clientsocket w) = Some incoming ->
  (firstn 1024 incoming = []
   \/ exists data line rest,
        utf8.decode (firstn 1024 incoming) = Some data
        /\ splitlines data = line :: rest
        /\ List.length (split line) <> 3%nat) ->
  exists w',
    handle_client self os w = (Ret tt, w')
    /\ sent (clientsocket w') = sent (clientsocket w)
    /\ closed (clientsocket w') = true.
Proof.
  intros Hrx [He | (data & line & rest & Hdec & Hlines & Hcount)].
  - destruct (no_data_is_silent self os w incoming Hrx He)
      as (w' & Hh & Hs & Hc & _).
    exists w'. auto.
  - destruct (malformed_line_is_silent self os w incoming data line rest
                Hrx Hdec Hlines Hcount) as (w' & Hh & Hs & Hc & _).
    exists w'. auto.
Qed.

Lemma empty_or_malformed_request_is_silent_witness :
  (exists w',
     handle_client demo_server demo_os (demo_connection []) = (Ret tt, w')
     /\ sent (clientsocket w') = []
     /\ closed (clientsocket w') = true)
  /\ (exists w',
        handle_client demo_server demo_os
          (demo_connection (lit "GET /index.html" ++ crlf ++ crlf))
        = (Ret tt, w')
        /\ sent (clientsocket w') = []
        /\ closed (clientsocket w') = true).
Proof.
  split.
  - apply (empty_or_malformed_request_is_silent demo_server demo_os
             (demo_connection []) []); [reflexivity | left; reflexivity].
  - apply (empty_or_malformed_request_is_silent demo_server demo_os
             (demo_connection (lit "GET /index.html" ++ crlf ++ crlf))
             (lit "GET /index.html" ++ crlf ++ crlf)); [reflexivity | right].
    exists (lit "GET /index.html" ++ crlf ++ crlf), (lit "GET /index.html"), [[]].
    repeat split. cbn. lia.
Defined.

(** C6, on the code: the target [/../www-secret/] gets [index.html]
    appended and resolves to [/srv/www-secret/index.html], outside the
    document tree; the handler answers 200 with that file. *)
Theorem sibling_directory_index_is_served :
  requested_path_of demo_server demo_os (lit "/../www-secret/")
  = lit "/srv/www-secret/index.html"
  /\ inside (root demo_server) (lit "/srv/www-secret/index.html") = false
  /\ exists w',
       handle_client demo_server demo_os
         (demo_connection (lit "GET /../www-secret/ HTTP/1.1" ++ crlf ++ crlf))
       = (Ret tt, w')
       /\ is_response demo_os 200 (lit "OKEE DOKEE") (lit "text/html")
            (lit "<h1>private</h1>") (sent (clientsocket w')).
Proof.
  split; [reflexivity|]. split; [reflexivity|].
  eexists. split; [vm_compute; reflexivity|].
  eexists. split; vm_compute; reflexivity.
Qed.



(** C8. The header block is, in this order, the status line, [Date],
    [Server], [Content-Type], [Content-Length] and [Connection: close],
    each ended by CR LF, and then the empty line; nothing else is in it:
    cut at every CR LF it reads back as these six lines, the empty line
    and an empty remainder (the message, the content type and the date
    holding no carriage return of their own). *)
Theorem header_block_layout self os code message content_type n :
  build_headers self os code message content_type n
  = (lit "HTTP/1.1 " ++ str_of_int code ++ lit " " ++ message) ++ crlf
    ++ (lit "Date: " ++ lit (http_date os)) ++ crlf
    ++ (lit "Server: NicksDiscountServer/1.0") ++ crlf
    ++ (lit "Content-Type: " ++ content_type) ++ crlf
    ++ (lit "Content-Length: " ++ str_of_int n) ++ crlf
    ++ (lit "Connection: close") ++ crlf
    ++ crlf
  /\ (no_cr message = true -> no_cr content_type = true ->
      no_cr (lit (http_date os)) = true ->
      split_crlf (build_headers self os code message content_type n)
      = [ lit "HTTP/1.1 " ++ str_of_int code ++ lit " " ++ message;
          lit "Date: " ++ lit (http_date os);
          lit "Server: NicksDiscountServer/1.0";
          lit "Content-Type: " ++ content_type;
          lit "Content-Length: " ++ str_of_int n;
          lit "Connection: close";
          []; [] ]).
Proof.
  split.
  - rewrite build_headers_flat.
    unfold header_block, header_lines, status_line.
    cbn [map List.concat]. rewrite app_nil_r, <- !app_assoc. reflexivity.
  - intros Hm Hc Hd.
    now rewrite (header_block_reads_back self os code message content_type n).
Qed.

Lemma header_block_layout_witness :
  split_crlf (build_headers demo_server demo_os 404 (lit "File Not Found")
                            (lit "text/html") 53)
  = [ lit "HTTP/1.1 404 File Not Found";
      lit "Date: Tue, 15 Nov 1994 08:12:31 GMT";
      lit "Server: NicksDiscountServer/1.0";
      lit "Content-Type: text/html";
      lit "Content-Length: 53";
      lit "Connection: close";
      []; [] ].
Proof.
  apply (proj2 (header_block_layout demo_server demo_os 404
                  (lit "File Not Found") (lit "text/html") 53));
    reflexivity.
Defined.

(** C9. For every status code and every message (a text), the Error
    Responder sends the header block for that status, announcing the
    length in octets of the body, and then the body, which is the encoded
    page [<html><body><h1>code message</h1></body></html>]. *)
Theorem error_responder_sends_page self os code message w :
  is_text message = true ->
  exists body wire o w',
    utf8.encode (error_page code message) = Some body
    /\ is_response os code message (lit "text/html") body wire
    /\ send_error self os code message w = (o, w')
    /\ sent (clientsocket w')
       = sent (clientsocket w) ++ firstn (tx_room (clientsocket w)) wire
    /\ ((List.length wire <= tx_room (clientsocket w))%nat -> o = Ret tt).
Proof.
  intro Ht.
  destruct (encode_text message Ht) as [m Hm].
  destruct (encode_lit "<html><body><h1>") as [x1 H1].
  destruct (encode_lit (NilZero.string_of_int (Z.to_int code))) as [x2 H2].
  destruct (encode_lit " ") as [x3 H3].
  destruct (encode_lit "</h1></body></html>") as [x4 H4].
  assert (Hb : utf8.encode (error_page code message)
               = Some (x1 ++ x2 ++ x3 ++ m ++ x4))
    by (unfold error_page, str_of_int;
        repeat (first [ eassumption | apply encode_app_some ])).
  destruct (send_error_run self os code message _ Hb) as (wire & Hr & _ & Hrun).
  exists (x1 ++ x2 ++ x3 ++ m ++ x4), wire. rewrite Hrun.
  unfold sendall. eexists _, _. split; [exact Hb|]. split; [exact Hr|].
  split; [reflexivity|]. split; [reflexivity|].
  intro Hfit. apply Nat.leb_le in Hfit. now rewrite Hfit.
Qed.

Lemma error_responder_sends_page_witness :
  exists body wire o w',
    utf8.encode (error_page 404 (lit "File Not Found")) = Some body
    /\ is_response demo_os 404 (lit "File Not Found") (lit "text/html") body wire
    /\ send_error demo_server demo_os 404 (lit "File Not Found")
         (demo_connection []) = (o, w')
    /\ sent (clientsocket w') = [] ++ firstn 4096 wire
    /\ ((List.length wire <= 4096)%nat -> o = Ret tt).
Proof.
  apply (error_responder_sends_page demo_server demo_os 404
           (lit "File Not Found") (demo_connection [])).
  reflexivity.
Defined.

(** C10. A chunk that is not well-formed UTF-8 makes [decode] raise; the
    handler logs the error, sends nothing and closes the socket. *)
Theorem undecodable_request_is_silent self os w incoming :
  rx (clientsocket w) = Some incoming ->
  ~ utf8.well_formed (firstn 1024 incoming) ->
  exists w',
    handle_client self os w = (Ret tt, w')
    /\ sent (clientsocket w') = sent (clientsocket w)
    /\ closed (clientsocket w') = true
    /\ stdout w' = stdout w ++ [client_error UnicodeDecodeError].
Proof.
  intros Hrx Hbad. apply decode_ill_formed in Hbad.
  assert (Htry : handle_client_try self os w
                 = (Raise UnicodeDecodeError, after_recv 1024 w)).
  { unfold handle_client_try. unfold bind at 1. rewrite (recv_run _ _ _ Hrx).
    unfold bind at 1. now rewrite Hbad. }
  destruct (handler_boundary self os w _ _ Htry) as (w' & Hh & Hs & Hc & Hl).
  exists w'. auto.
Qed.

Lemma undecodable_request_is_silent_witness :
  exists w',
    handle_client demo_server demo_os
      (demo_connection (lit "GET /" ++ [0xC3; 0x28] ++ lit " HTTP/1.1" ++ crlf))
    = (Ret tt, w')
    /\ sent (clientsocket w') = []
    /\ closed (clientsocket w') = true
    /\ stdout w' = [] ++ [client_error UnicodeDecodeError].
Proof.
  apply (undecodable_request_is_silent demo_server demo_os
           (demo_connection (lit "GET /" ++ [0xC3; 0x28] ++ lit " HTTP/1.1" ++ crlf))
           (lit "GET /" ++ [0xC3; 0x28] ++ lit " HTTP/1.1" ++ crlf)).
  - reflexivity.
  - intro H. apply decode_well_formed in H. destruct H as [s H].
    vm_compute in H. discriminate H.
Defined.

(* ================================================================== *)
(** * Part VI: further properties of the handler *)
(* ================================================================== *)

(** ** Computations that do not read *)

Lemma blind_ret {A} (a : A) : blind (ret a).
Proof. intros w1 w2 H. split; [reflexivity | exact H]. Qed.

Lemma blind_raise {A} (e : exn) : blind (@raise A e).
Proof. intros w1 w2 H. split; [reflexivity | exact H]. Qed.

Lemma blind_lift {A} (e : exn) (x : option A) : blind (lift e x).
Proof. destruct x; [apply blind_ret | apply blind_raise]. Qed.

Lemma alike_bind {A B} (m : M A) (k : A -> M B) w1 w2 :
  alike (m w1) (m w2) -> (forall a, blind (k a)) ->
  alike (bind m k w1) (bind m k w2).
Proof.
  unfold bind. intros [Ho Hw] Hk.
  destruct (m w1) as [o1 w1'], (m w2) as [o2 w2']. cbn in Ho, Hw. subst o2.
  destruct o1 as [a|e]; [now apply Hk | split; [reflexivity | exact Hw]].
Qed.

Lemma blind_bind {A B} (m : M A) (k : A -> M B) :
  blind m -> (forall a, blind (k a)) -> blind (bind m k).
Proof. intros Hm Hk w1 w2 H. apply alike_bind; auto. Qed.

Lemma alike_try_except {A} (body : M A) (handler : exn -> M A) w1 w2 :
  alike (body w1) (body w2) -> (forall e, blind (handler e)) ->
  alike (try_except body handler w1) (try_except body handler w2).
Proof.
  unfold try_except. intros [Ho Hw] Hh.
  destruct (body w1) as [o1 w1'], (body w2) as [o2 w2']. cbn in Ho, Hw. subst o2.
  destruct o1 as [a|e]; [split; [reflexivity | exact Hw] | now apply Hh].
Qed.

Lemma blind_try_except {A} (body : M A) (handler : exn -> M A) :
  blind body -> (forall e, blind (handler e)) -> blind (try_except body handler).
Proof. intros Hb Hh w1 w2 H. apply alike_try_except; auto. Qed.

Lemma alike_try_finally {A} (body : M A) (final : M unit) w1 w2 :
  alike (body w1) (body w2) -> blind final ->
  alike (try_finally body final w1) (try_finally body final w2).
Proof.
  unfold try_finally. intros [Ho Hw] Hf.
  destruct (body w1) as [o1 w1'], (body w2) as [o2 w2']. cbn in Ho, Hw. subst o2.
  destruct (Hf w1' w2' Hw) as [Ho' Hw'].
  destruct (final w1') as [f1 v1], (final w2') as [f2 v2]. cbn in Ho', Hw'.
  subst f2. destruct f1; (split; [reflexivity | exact Hw']).
Qed.

Lemma blind_sendall data : blind (sendall data).
Proof.
  intros w1 w2 (Hs & Hr & Hc & Hl). unfold sendall, alike, same_output. cbn.
  rewrite Hs, Hr, Hc, Hl. auto.
Qed.

Lemma blind_print l : blind (print l).
Proof.
  intros w1 w2 (Hs & Hr & Hc & Hl). unfold print, alike, same_output. cbn.
  rewrite Hl. auto.
Qed.

Lemma blind_close : blind close.
Proof.
  intros w1 w2 (Hs & Hr & Hc & Hl). unfold close, alike, same_output. cbn. auto.
Qed.

Lemma blind_send_error self os code message :
  blind (send_error self os code message).
Proof.
  unfold send_error.
  apply blind_bind; [apply blind_lift | intro body].
  apply blind_bind; [apply blind_lift | intro encoded].
  apply blind_bind; [apply blind_sendall | intros _; apply blind_sendall].
Qed.

Lemma blind_send_file self os filepath : blind (send_file self os filepath).
Proof.
  unfold send_file. apply blind_try_except.
  - apply blind_bind; [apply blind_lift | intro content].
    apply blind_bind; [apply blind_lift | intro encoded].
    apply blind_bind; [apply blind_sendall | intros _; apply blind_sendall].
  - intro e. apply blind_bind; [apply blind_print | intros _].
    apply blind_send_error.
Qed.

(** What the handler does once it has the decoded request. *)
Lemma blind_after_decode self os request_data :
  blind (if is_empty request_data then ret tt
         else
           request_line <- first_item (splitlines request_data) ;;
           tokens <- unpack3 (split request_line) ;;
           let '(method, path, blank) := tokens in
           if negb (str_eqb method (lit "GET")) then
             send_error self os 404 (lit "File Not Found")
           else
             let requested_path := requested_path_of self os path in
             if negb (startswith requested_path self.(root)) then
               send_error self os 404 (lit "File Not Found")
             else if exists_ os requested_path && isfile os requested_path then
               send_file self os requested_path
             else
               send_error self os 404 (lit "File Not Found")).
Proof.
  destruct (is_empty request_data); [apply blind_ret|].
  apply blind_bind.
  { unfold first_item. destruct (splitlines request_data);
      [apply blind_raise | apply blind_ret]. }
  intro request_line. apply blind_bind.
  { unfold unpack3.
    destruct (split request_line) as [|a [|b [|c [|d l]]]];
      first [apply blind_raise | apply blind_ret]. }
  intros [[method path] blank].
  destruct (negb (str_eqb method (lit "GET"))); [apply blind_send_error|].
  cbv zeta.
  destruct (negb (startswith (requested_path_of self os path) (root self)));
    [apply blind_send_error|].
  destruct (exists_ os (requested_path_of self os path)
            && isfile os (requested_path_of self os path));
    [apply blind_send_file | apply blind_send_error].
Qed.

Lemma same_output_after_recv n w1 w2 :
  same_output w1 w2 -> same_output (after_recv n w1) (after_recv n w2).
Proof. intros (Hs & Hr & Hc & Hl). unfold same_output. cbn. auto. Qed.

Lemma alike_after_recv {B} n (k : bytes -> M B) w1 w2 in1 in2 :
  rx (clientsocket w1) = Some in1 ->
  rx (clientsocket w2) = Some in2 ->
  firstn n in1 = firstn n in2 ->
  same_output w1 w2 ->
  (forall chunk, blind (k chunk)) ->
  alike (bind (recv n) k w1) (bind (recv n) k w2).
Proof.
  intros H1 H2 Hchunk Hw Hk. unfold bind.
  rewrite (recv_run _ _ _ H1), (recv_run _ _ _ H2), Hchunk.
  apply Hk. now apply same_output_after_recv.
Qed.

(** The handler on two connections whose one read gives the same chunk. *)
Lemma handle_client_same_chunk self os w1 w2 in1 in2 :
  rx (clientsocket w1) = Some in1 ->
  rx (clientsocket w2) = Some in2 ->
  firstn 1024 in1 = firstn 1024 in2 ->
  same_output w1 w2 ->
  alike (handle_client self os w1) (handle_client self os w2).
Proof.
  intros H1 H2 Hchunk Hw. unfold handle_client.
  apply alike_try_finally; [|apply blind_close].
  apply alike_try_except; [|intro e; apply blind_print].
  unfold handle_client_try.
  apply (alike_after_recv _ _ _ _ _ _ H1 H2 Hchunk Hw).
  intro chunk. apply blind_bind; [apply blind_lift|].
  intro request_data. apply blind_after_decode.
Qed.

Lemma blind_dispatch self os method path :
  blind (if negb (str_eqb method (lit "GET")) then
           send_error self os 404 (lit "File Not Found")
         else
           let requested_path := requested_path_of self os path in
           if negb (startswith requested_path self.(root)) then
             send_error self os 404 (lit "File Not Found")
           else if exists_ os requested_path && isfile os requested_path then
             send_file self os requested_path
           else
             send_error self os 404 (lit "File Not Found")).
Proof.
  destruct (negb (str_eqb method (lit "GET"))); [apply blind_send_error|].
  cbv zeta.
  destruct (negb (startswith (requested_path_of self os path) (root self)));
    [apply blind_send_error|].
  destruct (exists_ os (requested_path_of self os path)
            && isfile os (requested_path_of self os path));
    [apply blind_send_file | apply blind_send_error].
Qed.

(** The handler always returns, with the socket closed. *)
Lemma handle_client_returns self os w :
  exists w', handle_client self os w = (Ret tt, w')
             /\ closed (clientsocket w') = true.
Proof.
  destruct (handle_client_try_emits self os w) as (o & w1 & wire & Htry & _).
  destruct (handler_boundary self os w o w1 Htry) as (w' & Hh & _ & Hc & _).
  eauto.
Qed.

Lemma alike_returns self os w1 w2 :
  alike (handle_client self os w1) (handle_client self os w2) ->
  exists w1' w2',
    handle_client self os w1 = (Ret tt, w1')
    /\ handle_client self os w2 = (Ret tt, w2')
    /\ sent (clientsocket w1') = sent (clientsocket w2')
    /\ stdout w1' = stdout w2'
    /\ closed (clientsocket w1') = true
    /\ closed (clientsocket w2') = true.
Proof.
  intros [_ (Hs & _ & _ & Hl)].
  destruct (handle_client_returns self os w1) as (w1' & E1 & C1).
  destruct (handle_client_returns self os w2) as (w2' & E2 & C2).
  rewrite E1, E2 in *. cbn in Hs, Hl. exists w1', w2'. auto 7.
Qed.

(** ** One read, one line *)

(** X1. The handler reads the socket once, for at most 1024 octets.
    Two connections whose first 1024 octets are the same get the same
    octets back and leave the same log, whatever follows on either. *)
Theorem only_the_first_chunk_counts self os w1 w2 in1 in2 :
  rx (clientsocket w1) = Some in1 ->
  rx (clientsocket w2) = Some in2 ->
  firstn 1024 in1 = firstn 1024 in2 ->
  same_output w1 w2 ->
  exists w1' w2',
    handle_client self os w1 = (Ret tt, w1')
    /\ handle_client self os w2 = (Ret tt, w2')
    /\ sent (clientsocket w1') = sent (clientsocket w2')
    /\ stdout w1' = stdout w2'
    /\ closed (clientsocket w1') = true
    /\ closed (clientsocket w2') = true.
Proof.
  intros H1 H2 Hchunk Hw. apply alike_returns.
  now apply (handle_client_same_chunk self os w1 w2 in1 in2).
Qed.

(** X2. Only the method and the target of the first line decide the
    answer: the version token, the header lines and everything else in the
    request are ignored. *)
Theorem only_method_and_target_count
    self os w1 w2 in1 in2 data1 data2 line1 line2 rest1 rest2
    method target version1 version2 :
  rx (clientsocket w1) = Some in1 ->
  rx (clientsocket w2) = Some in2 ->
  utf8.decode (firstn 1024 in1) = Some data1 ->
  utf8.decode (firstn 1024 in2) = Some data2 ->
  splitlines data1 = line1 :: rest1 ->
  splitlines data2 = line2 :: rest2 ->
  split line1 = [method; target; version1] ->
  split line2 = [method; target; version2] ->
  same_output w1 w2 ->
  exists w1' w2',
    handle_client self os w1 = (Ret tt, w1')
    /\ handle_client self os w2 = (Ret tt, w2')
    /\ sent (clientsocket w1') = sent (clientsocket w2')
    /\ stdout w1' = stdout w2'
    /\ closed (clientsocket w1') = true
    /\ closed (clientsocket w2') = true.
Proof.
  intros R1 R2 D1 D2 L1 L2 S1 S2 Hw. apply alike_returns.
  unfold handle_client.
  apply alike_try_finally; [|apply blind_close].
  apply alike_try_except; [|intro e; apply blind_print].
  rewrite (handle_client_try_parsed self os w1 _ _ _ _ _ _ _ R1 D1 L1 S1).
  rewrite (handle_client_try_parsed self os w2 _ _ _ _ _ _ _ R2 D2 L2 S2).
  apply blind_dispatch. now apply same_output_after_recv.
Qed.

Lemma only_the_first_chunk_counts_witness :
  exists w1' w2',
    handle_client demo_server demo_os (demo_connection (demo_long_request 65))
    = (Ret tt, w1')
    /\ handle_client demo_server demo_os (demo_connection (demo_long_request 66))
       = (Ret tt, w2')
    /\ sent (clientsocket w1') = sent (clientsocket w2')
    /\ stdout w1' = stdout w2'
    /\ closed (clientsocket w1') = true
    /\ closed (clientsocket w2') = true.
Proof.
  apply (only_the_first_chunk_counts demo_server demo_os
           (demo_connection (demo_long_request 65))
           (demo_connection (demo_long_request 66))
           (demo_long_request 65) (demo_long_request 66)).
  - reflexivity.
  - reflexivity.
  - vm_compute. reflexivity.
  - repeat split.
Defined.

Lemma only_method_and_target_count_witness :
  exists w1' w2',
    handle_client demo_server demo_os
      (demo_connection (lit "GET /style.css HTTP/1.1" ++ crlf
                        ++ lit "Host: example" ++ crlf ++ crlf))
    = (Ret tt, w1')
    /\ handle_client demo_server demo_os
         (demo_connection (lit "GET /style.css gopher" ++ [10]))
       = (Ret tt, w2')
    /\ sent (clientsocket w1') = sent (clientsocket w2')
    /\ stdout w1' = stdout w2'
    /\ closed (clientsocket w1') = true
    /\ closed (clientsocket w2') = true.
Proof.
  apply (only_method_and_target_count demo_server demo_os
           (demo_connection (lit "GET /style.css HTTP/1.1" ++ crlf
                             ++ lit "Host: example" ++ crlf ++ crlf))
           (demo_connection (lit "GET /style.css gopher" ++ [10]))
           (lit "GET /style.css HTTP/1.1" ++ crlf
            ++ lit "Host: example" ++ crlf ++ crlf)
           (lit "GET /style.css gopher" ++ [10])
           (lit "GET /style.css HTTP/1.1" ++ crlf
            ++ lit "Host: example" ++ crlf ++ crlf)
           (lit "GET /style.css gopher" ++ [10])
           (lit "GET /style.css HTTP/1.1") (lit "GET /style.css gopher")
           [lit "Host: example"; []] []
           (lit "GET") (lit "/style.css") (lit "HTTP/1.1") (lit "gopher"));
    first [ reflexivity | repeat split ].
Defined.

(** ** The failure paths *)

Lemma requested_path_platform self os os' target :
  getcwd os' = getcwd os ->
  requested_path_of self os' target = requested_path_of self os target.
Proof. intro H. unfold requested_path_of. now rewrite H. Qed.

(** X3. A [GET] whose normalised path does not begin with the root is
    answered with the 404 page, and the file system is never looked at:
    a platform with other files gives the same run. *)
Theorem path_off_the_root_answers_404
    self os w incoming data line rest target version :
  rx (clientsocket w) = Some incoming ->
  utf8.decode (firstn 1024 incoming) = Some data ->
  splitlines data = line :: rest ->
  split line = [lit "GET"; target; version] ->
  startswith (requested_path_of self os target) (root self) = false ->
  exists wire w',
    is_error_response os 404 (lit "File Not Found") wire
    /\ handle_client self os w = (Ret tt, w')
    /\ sent (clientsocket w')
       = sent (clientsocket w) ++ firstn (tx_room (clientsocket w)) wire
    /\ closed (clientsocket w') = true
    /\ forall os', getcwd os' = getcwd os -> http_date os' = http_date os ->
                   handle_client self os' w = handle_client self os w.
Proof.
  intros Hrx Hdec Hlines Hsplit Hpre.
  destruct (get_prefix_check_fails self os w _ _ _ _ _ _
              Hrx Hdec Hlines Hsplit Hpre) as (wire & w' & Hw & Hh & Hs & Hc).
  exists wire, w'. repeat split; try assumption.
  intros os' Hcwd Hdate.
  assert (Htry : forall os0, getcwd os0 = getcwd os ->
    handle_client_try self os0 w
    = send_error self os0 404 (lit "File Not Found") (after_recv 1024 w)).
  { intros os0 H0.
    rewrite (get_try self os0 w _ _ _ _ _ _ Hrx Hdec Hlines Hsplit). cbv zeta.
    now rewrite (requested_path_platform self os os0 target H0), Hpre. }
  unfold handle_client, try_finally, try_except.
  now rewrite (Htry os' Hcwd), (Htry os eq_refl),
              (send_error_platform self os os' _ _ Hdate).
Qed.

Lemma path_off_the_root_answers_404_witness :
  exists wire w',
    is_error_response demo_os 404 (lit "File Not Found") wire
    /\ handle_client demo_server demo_os
         (demo_connection (lit "GET /../../etc/passwd HTTP/1.1" ++ crlf ++ crlf))
       = (Ret tt, w')
    /\ sent (clientsocket w') = [] ++ firstn 4096 wire
    /\ closed (clientsocket w') = true
    /\ forall os', getcwd os' = getcwd demo_os ->
                   http_date os' = http_date demo_os ->
         handle_client demo_server os'
           (demo_connection (lit "GET /../../etc/passwd HTTP/1.1" ++ crlf ++ crlf))
         = handle_client demo_server demo_os
             (demo_connection (lit "GET /../../etc/passwd HTTP/1.1" ++ crlf ++ crlf)).
Proof.
  apply (path_off_the_root_answers_404 demo_server demo_os
           (demo_connection (lit "GET /../../etc/passwd HTTP/1.1" ++ crlf ++ crlf))
           (lit "GET /../../etc/passwd HTTP/1.1" ++ crlf ++ crlf)
           (lit "GET /../../etc/passwd HTTP/1.1" ++ crlf ++ crlf)
           (lit "GET /../../etc/passwd HTTP/1.1") [[]]
           (lit "/../../etc/passwd") (lit "HTTP/1.1"));
    reflexivity.
Defined.

(** X4. A [GET] whose path names nothing, a directory or a special file
    is answered with the 404 page: a directory asked for without the final
    separator gets neither a redirect nor its [index.html]. *)
Theorem not_a_regular_file_answers_404
    self os w incoming data line rest target version :
  rx (clientsocket w) = Some incoming ->
  utf8.decode (firstn 1024 incoming) = Some data ->
  splitlines data = line :: rest ->
  split line = [lit "GET"; target; version] ->
  isfile os (requested_path_of self os target) = false ->
  exists wire w',
    is_error_response os 404 (lit "File Not Found") wire
    /\ handle_client self os w = (Ret tt, w')
    /\ sent (clientsocket w')
       = sent (clientsocket w) ++ firstn (tx_room (clientsocket w)) wire
    /\ closed (clientsocket w') = true.
Proof.
  intros Hrx Hdec Hlines Hsplit Hfile.
  apply (get_no_such_file self os w _ _ _ _ _ _ Hrx Hdec Hlines Hsplit).
  unfold isfile in Hfile. intro E. rewrite E in Hfile. discriminate.
Qed.

Lemma not_a_regular_file_answers_404_witness :
  stat demo_os (lit "/srv/www") = Some directory
  /\ exists wire w',
       is_error_response demo_os 404 (lit "File Not Found") wire
       /\ handle_client demo_server demo_os
            (demo_connection (lit "GET /../www HTTP/1.1" ++ crlf ++ crlf))
          = (Ret tt, w')
       /\ sent (clientsocket w') = [] ++ firstn 4096 wire
       /\ closed (clientsocket w') = true.
Proof.
  split; [reflexivity|].
  apply (not_a_regular_file_answers_404 demo_server demo_os
           (demo_connection (lit "GET /../www HTTP/1.1" ++ crlf ++ crlf))
           (lit "GET /../www HTTP/1.1" ++ crlf ++ crlf)
           (lit "GET /../www HTTP/1.1" ++ crlf ++ crlf)
           (lit "GET /../www HTTP/1.1") [[]]
           (lit "/../www") (lit "HTTP/1.1"));
    reflexivity.
Defined.

Lemma send_file_unreadable_run self os filepath :
  read os filepath = None ->
  exists wire,
    is_error_response os 404 (lit "File Not Found") wire
    /\ forall w,
         send_file self os filepath w
         = sendall wire {| clientsocket := clientsocket w;
                           stdout := stdout w ++ [send_file_error OSError] |}.
Proof.
  intro Hr.
  destruct (not_found_run self os) as (ewire & He & _ & Herun).
  exists ewire. split; [exact He|]. intro w.
  unfold send_file, try_except, bind at 1, open_read. rewrite Hr.
  cbn [lift raise]. unfold bind, print. now rewrite Herun.
Qed.

(** X5. A regular file that cannot be opened or read: the File Responder
    logs the failure and the Error Responder answers with the 404 page; no
    octet of a 200 response goes out. *)
Theorem unreadable_file_answers_404
    self os w incoming data line rest target version :
  rx (clientsocket w) = Some incoming ->
  utf8.decode (firstn 1024 incoming) = Some data ->
  splitlines data = line :: rest ->
  split line = [lit "GET"; target; version] ->
  startswith (requested_path_of self os target) (root self) = true ->
  stat os (requested_path_of self os target) = Some regular ->
  read os (requested_path_of self os target) = None ->
  exists wire w',
    is_error_response os 404 (lit "File Not Found") wire
    /\ handle_client self os w = (Ret tt, w')
    /\ sent (clientsocket w')
       = sent (clientsocket w) ++ firstn (tx_room (clientsocket w)) wire
    /\ closed (clientsocket w') = true
    /\ ((List.length wire <= tx_room (clientsocket w))%nat ->
        stdout w' = stdout w ++ [send_file_error OSError]).
Proof.
  intros Hrx Hdec Hlines Hsplit Hpre Hstat Hread.
  pose proof (get_try self os w _ _ _ _ _ _ Hrx Hdec Hlines Hsplit) as Htry.
  cbv zeta in Htry. rewrite Hpre in Htry. unfold exists_, isfile in Htry.
  rewrite Hstat in Htry. cbn [negb andb] in Htry.
  destruct (send_file_unreadable_run self os _ Hread) as (wire & Hw & Hrun).
  rewrite Hrun in Htry. unfold sendall in Htry. cbn in Htry.
  destruct (handler_boundary self os w _ _ Htry) as (w' & Hh & Hs & Hc & Hl).
  exists wire, w'. repeat split; try assumption.
  intro Hfit. apply Nat.leb_le in Hfit. rewrite Hfit in Hl.
  rewrite Hl. cbn. now rewrite app_nil_r.
Qed.

Lemma unreadable_file_answers_404_witness :
  exists wire w',
    is_error_response demo_os_unreadable 404 (lit "File Not Found") wire
    /\ handle_client demo_server demo_os_unreadable
         (demo_connection (lit "GET /style.css HTTP/1.1" ++ crlf ++ crlf))
       = (Ret tt, w')
    /\ sent (clientsocket w') = [] ++ firstn 4096 wire
    /\ closed (clientsocket w') = true
    /\ ((List.length wire <= 4096)%nat ->
        stdout w' = [] ++ [send_file_error OSError]).
Proof.
  apply (unreadable_file_answers_404 demo_server demo_os_unreadable
           (demo_connection (lit "GET /style.css HTTP/1.1" ++ crlf ++ crlf))
           (lit "GET /style.css HTTP/1.1" ++ crlf ++ crlf)
           (lit "GET /style.css HTTP/1.1" ++ crlf ++ crlf)
           (lit "GET /style.css HTTP/1.1") [[]]
           (lit "/style.css") (lit "HTTP/1.1"));
    reflexivity.
Defined.

Lemma send_file_overflow_run self os filepath content head w :
  read os filepath = Some content ->
  utf8.encode (header_block (header_lines os 200 (lit "OKEE DOKEE")
                               (lit (content_type_of os filepath)) (len content)))
  = Some head ->
  (tx_room (clientsocket w) < List.length (head ++ content))%nat ->
  send_file self os filepath w
  = (Raise ConnectionError,
     {| clientsocket := transmit (head ++ content) (clientsocket w);
        stdout := stdout w ++ [send_file_error ConnectionError] |}).
Proof.
  intros Hr Hh Hover.
  assert (Hbody : forall w0,
    (content <- open_read os filepath ;;
     let content_length := len content in
     let content_type := lit (content_type_of os filepath) in
     let response_headers :=
       build_headers self os 200 (lit "OKEE DOKEE") content_type content_length in
     encoded <- lift UnicodeEncodeError (utf8.encode response_headers) ;;
     sendall encoded ;;;
     sendall content) w0 = sendall (head ++ content) w0).
  { intro w0. unfold bind at 1, open_read. rewrite Hr. cbn [lift ret].
    cbv zeta. rewrite build_headers_flat.
    unfold bind at 1. rewrite Hh. cbn [lift ret]. apply sendall_twice. }
  unfold send_file, try_except. rewrite Hbody. unfold sendall at 1.
  replace (List.length (head ++ content) <=? tx_room (clientsocket w))%nat
    with false by (symmetry; apply Nat.leb_gt; lia).
  destruct (not_found_run self os) as (ewire & _ & Hene & Herun).
  unfold bind, print. rewrite Herun.
  rewrite sendall_broken; [reflexivity | cbn; lia | exact Hene].
Qed.

(** X6. When the peer stops taking octets in the middle of a 200
    response, what went out is the part of that response the peer took and
    nothing else: the fallback to the Error Responder finds the connection
    broken, both failures are logged, and the socket is closed. *)
Theorem peer_gone_during_file
    self os w incoming data line rest target version content head :
  rx (clientsocket w) = Some incoming ->
  utf8.decode (firstn 1024 incoming) = Some data ->
  splitlines data = line :: rest ->
  split line = [lit "GET"; target; version] ->
  startswith (requested_path_of self os target) (root self) = true ->
  stat os (requested_path_of self os target) = Some regular ->
  read os (requested_path_of self os target) = Some content ->
  utf8.encode
    (header_block
       (header_lines os 200 (lit "OKEE DOKEE")
          (lit (content_type_of os (requested_path_of self os target)))
          (len content)))
  = Some head ->
  (tx_room (clientsocket w) < List.length (head ++ content))%nat ->
  exists w',
    handle_client self os w = (Ret tt, w')
    /\ sent (clientsocket w')
       = sent (clientsocket w)
         ++ firstn (tx_room (clientsocket w)) (head ++ content)
    /\ closed (clientsocket w') = true
    /\ stdout w' = stdout w ++ [ send_file_error ConnectionError;
                                 client_error ConnectionError ].
Proof.
  intros Hrx Hdec Hlines Hsplit Hpre Hstat Hread Hh Hover.
  pose proof (get_try self os w _ _ _ _ _ _ Hrx Hdec Hlines Hsplit) as Htry.
  cbv zeta in Htry. rewrite Hpre in Htry. unfold exists_, isfile in Htry.
  rewrite Hstat in Htry. cbn [negb andb] in Htry.
  rewrite (send_file_overflow_run self os _ content head _ Hread Hh) in Htry
    by exact Hover.
  destruct (handler_boundary self os w _ _ Htry) as (w' & Hh' & Hs & Hc & Hl).
  exists w'. repeat split; try assumption.
  rewrite Hl. cbn. now rewrite <- app_assoc.
Qed.

Lemma peer_gone_during_file_witness :
  exists w',
    handle_client demo_server demo_os
      (accepted (Some (lit "GET /style.css HTTP/1.1" ++ crlf ++ crlf)) 20)
    = (Ret tt, w')
    /\ sent (clientsocket w')
       = [] ++ firstn 20
                 (lit "HTTP/1.1 200 OKEE DOKEE" ++ crlf
                  ++ lit "Date: Tue, 15 Nov 1994 08:12:31 GMT" ++ crlf
                  ++ lit "Server: NicksDiscountServer/1.0" ++ crlf
                  ++ lit "Content-Type: text/css" ++ crlf
                  ++ lit "Content-Length: 6" ++ crlf
                  ++ lit "Connection: close" ++ crlf ++ crlf
                  ++ lit "body{}")
    /\ closed (clientsocket w') = true
    /\ stdout w' = [] ++ [ send_file_error ConnectionError;
                           client_error ConnectionError ].
Proof.
  apply (peer_gone_during_file demo_server demo_os
           (accepted (Some (lit "GET /style.css HTTP/1.1" ++ crlf ++ crlf)) 20)
           (lit "GET /style.css HTTP/1.1" ++ crlf ++ crlf)
           (lit "GET /style.css HTTP/1.1" ++ crlf ++ crlf)
           (lit "GET /style.css HTTP/1.1") [[]]
           (lit "/style.css") (lit "HTTP/1.1") (lit "body{}")
           (lit "HTTP/1.1 200 OKEE DOKEE" ++ crlf
            ++ lit "Date: Tue, 15 Nov 1994 08:12:31 GMT" ++ crlf
            ++ lit "Server: NicksDiscountServer/1.0" ++ crlf
            ++ lit "Content-Type: text/css" ++ crlf
            ++ lit "Content-Length: 6" ++ crlf
            ++ lit "Connection: close" ++ crlf ++ crlf));
    first [ reflexivity | cbn; lia ].
Defined.

(** X7. Every failure gets the same page: a method other than [GET], a
    path off the root, a path that names no regular file and a file that
    cannot be read are all answered with one and the same sequence of
    octets, so the answer tells nothing of the cause. *)
Theorem one_page_for_every_failure self os :
  exists page,
    is_error_response os 404 (lit "File Not Found") page
    /\ forall w incoming data line rest method target version,
         rx (clientsocket w) = Some incoming ->
         utf8.decode (firstn 1024 incoming) = Some data ->
         splitlines data = line :: rest ->
         split line = [method; target; version] ->
         method <> lit "GET"
         \/ startswith (requested_path_of self os target) (root self) = false
         \/ isfile os (requested_path_of self os target) = false
         \/ read os (requested_path_of self os target) = None ->
         exists w',
           handle_client self os w = (Ret tt, w')
           /\ sent (clientsocket w')
              = sent (clientsocket w) ++ firstn (tx_room (clientsocket w)) page
           /\ closed (clientsocket w') = true.
Proof.
  destruct (not_found_run self os) as (page & Hpage & _ & Hrun).
  exists page. split; [exact Hpage|].
  intros w incoming data line rest method target version
         Hrx Hdec Hlines Hsplit Hcause.
  assert (Hdone : forall wire w',
    is_error_response os 404 (lit "File Not Found") wire ->
    handle_client self os w = (Ret tt, w') ->
    sent (clientsocket w')
    = sent (clientsocket w) ++ firstn (tx_room (clientsocket w)) wire ->
    closed (clientsocket w') = true ->
    exists w'',
      handle_client self os w = (Ret tt, w'')
      /\ sent (clientsocket w'')
         = sent (clientsocket w) ++ firstn (tx_room (clientsocket w)) page
      /\ closed (clientsocket w'') = true).
  { intros wire w' Hw Hh Hs Hc.
    rewrite (is_error_response_unique _ _ _ _ _ Hw Hpage) in Hs. eauto. }
  destruct (str_eqb method (lit "GET")) eqn:Em.
  2:{ assert (Htry : handle_client_try self os w
                     = send_error self os 404 (lit "File Not Found")
                         (after_recv 1024 w)).
      { rewrite (handle_client_try_parsed self os w _ _ _ _ _ _ _
                   Hrx Hdec Hlines Hsplit). now rewrite Em. }
      destruct (answered_not_found self os w Htry)
        as (wire & w' & Hw & Hh & Hs & Hc). eauto. }
  apply str_eqb_eq in Em. subst method.
  destruct Hcause as [Hm | Hcause]; [congruence|].
  destruct (startswith (requested_path_of self os target) (root self)) eqn:Epre.
  2:{ destruct (get_prefix_check_fails self os w _ _ _ _ _ _
                  Hrx Hdec Hlines Hsplit Epre)
        as (wire & w' & Hw & Hh & Hs & Hc). eauto. }
  destruct Hcause as [Hp | Hcause]; [discriminate|].
  destruct (stat os (requested_path_of self os target)) as [[]|] eqn:Estat.
  - destruct Hcause as [Hf | Hread];
      [unfold isfile in Hf; rewrite Estat in Hf; discriminate|].
    destruct (get_unreadable_file self os w _ _ _ _ _ _
                Hrx Hdec Hlines Hsplit Epre Estat Hread)
      as (wire & w' & Hw & Hh & Hs & Hc). eauto.
  - destruct (get_no_such_file self os w _ _ _ _ _ _
                Hrx Hdec Hlines Hsplit)
      as (wire & w' & Hw & Hh & Hs & Hc); [congruence | eauto].
  - destruct (get_no_such_file self os w _ _ _ _ _ _
                Hrx Hdec Hlines Hsplit)
      as (wire & w' & Hw & Hh & Hs & Hc); [congruence | eauto].
  - destruct (get_no_such_file self os w _ _ _ _ _ _
                Hrx Hdec Hlines Hsplit)
      as (wire & w' & Hw & Hh & Hs & Hc); [congruence | eauto].
Qed.

Lemma one_page_for_every_failure_witness :
  exists page w1 w2,
    handle_client demo_server demo_os
      (demo_connection (lit "POST / HTTP/1.1" ++ crlf ++ crlf)) = (Ret tt, w1)
    /\ handle_client demo_server demo_os
         (demo_connection (lit "GET /../../etc/passwd HTTP/1.1" ++ crlf ++ crlf))
       = (Ret tt, w2)
    /\ sent (clientsocket w1) = firstn 4096 page
    /\ sent (clientsocket w2) = firstn 4096 page.
Proof.
  destruct (one_page_for_every_failure demo_server demo_os) as (page & _ & H).
  destruct (H (demo_connection (lit "POST / HTTP/1.1" ++ crlf ++ crlf))
              (lit "POST / HTTP/1.1" ++ crlf ++ crlf)
              (lit "POST / HTTP/1.1" ++ crlf ++ crlf)
              (lit "POST / HTTP/1.1") [[]]
              (lit "POST") (lit "/") (lit "HTTP/1.1")
              eq_refl eq_refl eq_refl eq_refl)
    as (w1 & E1 & S1 & _); [left; discriminate|].
  destruct (H (demo_connection
                 (lit "GET /../../etc/passwd HTTP/1.1" ++ crlf ++ crlf))
              (lit "GET /../../etc/passwd HTTP/1.1" ++ crlf ++ crlf)
              (lit "GET /../../etc/passwd HTTP/1.1" ++ crlf ++ crlf)
              (lit "GET /../../etc/passwd HTTP/1.1") [[]]
              (lit "GET") (lit "/../../etc/passwd") (lit "HTTP/1.1")
              eq_refl eq_refl eq_refl eq_refl)
    as (w2 & E2 & S2 & _); [right; left; reflexivity|].
  exists page, w1, w2. repeat split; assumption.
Defined.

(** ** Targets *)

Lemma endswith_slash_cons c t :
  t <> [] -> endswith (c :: t) (lit "/") = endswith t (lit "/").
Proof.
  intro Hne. change (lit "/") with [47].
  destruct (endswith t [47]) eqn:E.
  - apply endswith_iff in E. destruct E as [u ->].
    apply endswith_iff. now exists (c :: u).
  - destruct (endswith (c :: t) [47]) eqn:E'; [|reflexivity].
    apply endswith_iff in E'. destruct E' as [u Hu].
    destruct u as [|x u]; cbn [app] in Hu.
    + injection Hu as _ Hu. contradiction.
    + injection Hu as _ ->.
      assert (endswith (u ++ [47]) [47] = true)
        by (apply endswith_iff; now exists u).
      congruence.
Qed.

Lemma requested_path_skips_slash self os t :
  t <> [] ->
  requested_path_of self os (47 :: t) = requested_path_of self os t.
Proof.
  intro Hne. unfold requested_path_of. rewrite (endswith_slash_cons 47 t Hne).
  destruct (endswith t (lit "/")); reflexivity.
Qed.

Lemma requested_path_skips_slashes self os k t :
  t <> [] ->
  requested_path_of self os (repeat 47 k ++ t) = requested_path_of self os t.
Proof.
  intro Hne. induction k as [|k IH]; [reflexivity|].
  cbn [repeat app]. rewrite requested_path_skips_slash; [exact IH|].
  destruct k; [exact Hne | discriminate].
Qed.

(** X9. Separators in front of the target are dropped before the path is
    joined to the root, so a target cannot replace the root by being
    absolute: [/x], [//x] and [////x] are one and the same request. *)
Theorem leading_slashes_are_ignored
    self os w1 w2 in1 in2 data1 data2 line1 line2 rest1 rest2
    target k version1 version2 :
  rx (clientsocket w1) = Some in1 ->
  rx (clientsocket w2) = Some in2 ->
  utf8.decode (firstn 1024 in1) = Some data1 ->
  utf8.decode (firstn 1024 in2) = Some data2 ->
  splitlines data1 = line1 :: rest1 ->
  splitlines data2 = line2 :: rest2 ->
  split line1 = [lit "GET"; target; version1] ->
  split line2 = [lit "GET"; repeat 47 k ++ target; version2] ->
  target <> [] ->
  same_output w1 w2 ->
  requested_path_of self os (repeat 47 k ++ target)
  = requested_path_of self os target
  /\ exists w1' w2',
       handle_client self os w1 = (Ret tt, w1')
       /\ handle_client self os w2 = (Ret tt, w2')
       /\ sent (clientsocket w1') = sent (clientsocket w2')
       /\ stdout w1' = stdout w2'
       /\ closed (clientsocket w1') = true
       /\ closed (clientsocket w2') = true.
Proof.
  intros R1 R2 D1 D2 L1 L2 S1 S2 Hne Hw.
  pose proof (requested_path_skips_slashes self os k target Hne) as Hpath.
  split; [exact Hpath|]. apply alike_returns.
  unfold handle_client.
  apply alike_try_finally; [|apply blind_close].
  apply alike_try_except; [|intro e; apply blind_print].
  rewrite (handle_client_try_parsed self os w1 _ _ _ _ _ _ _ R1 D1 L1 S1).
  rewrite (handle_client_try_parsed self os w2 _ _ _ _ _ _ _ R2 D2 L2 S2).
  cbv zeta. rewrite Hpath.
  apply (blind_dispatch self os (lit "GET") target).
  now apply same_output_after_recv.
Qed.

Lemma leading_slashes_are_ignored_witness :
  requested_path_of demo_server demo_os (repeat 47 3 ++ lit "/etc/passwd")
  = requested_path_of demo_server demo_os (lit "/etc/passwd")
  /\ exists w1' w2',
       handle_client demo_server demo_os
         (demo_connection (lit "GET /etc/passwd HTTP/1.1" ++ crlf ++ crlf))
       = (Ret tt, w1')
       /\ handle_client demo_server demo_os
            (demo_connection (lit "GET ////etc/passwd HTTP/1.1" ++ crlf ++ crlf))
          = (Ret tt, w2')
       /\ sent (clientsocket w1') = sent (clientsocket w2')
       /\ stdout w1' = stdout w2'
       /\ closed (clientsocket w1') = true
       /\ closed (clientsocket w2') = true.
Proof.
  apply (leading_slashes_are_ignored demo_server demo_os
           (demo_connection (lit "GET /etc/passwd HTTP/1.1" ++ crlf ++ crlf))
           (demo_connection (lit "GET ////etc/passwd HTTP/1.1" ++ crlf ++ crlf))
           (lit "GET /etc/passwd HTTP/1.1" ++ crlf ++ crlf)
           (lit "GET ////etc/passwd HTTP/1.1" ++ crlf ++ crlf)
           (lit "GET /etc/passwd HTTP/1.1" ++ crlf ++ crlf)
           (lit "GET ////etc/passwd HTTP/1.1" ++ crlf ++ crlf)
           (lit "GET /etc/passwd HTTP/1.1") (lit "GET ////etc/passwd HTTP/1.1")
           [[]] [[]]
           (lit "/etc/passwd") 3%nat (lit "HTTP/1.1") (lit "HTTP/1.1"));
    first [ reflexivity | discriminate | repeat split ].
Defined.

(** ** The Error Responder on a message that cannot be encoded *)

Lemma encode_cp_defined c b : utf8.encode_cp c = Some b -> is_scalar c = true.
Proof.
  unfold utf8.encode_cp, is_scalar.
  destruct (c <? 0) eqn:E0; [discriminate|]. apply Z.ltb_ge in E0.
  destruct (c <? 128) eqn:E1.
  { apply Z.ltb_lt in E1. intros _.
    replace (in_range 0 55295 c) with true
      by (symmetry; apply in_range_true; lia). reflexivity. }
  destruct (c <? 2048) eqn:E2.
  { apply Z.ltb_lt in E2. intros _.
    replace (in_range 0 55295 c) with true
      by (symmetry; apply in_range_true; lia). reflexivity. }
  destruct (c <? 65536) eqn:E3.
  { apply Z.ltb_lt in E3.
    destruct (in_range 55296 57343 c) eqn:Es; [discriminate|]. intros _.
    to_prop. destruct Es as [Es|Es].
    - replace (in_range 0 55295 c) with true
        by (symmetry; apply in_range_true; lia). reflexivity.
    - replace (in_range 57344 1114111 c) with true
        by (symmetry; apply in_range_true; lia). apply orb_true_r. }
  apply Z.ltb_ge in E3.
  destruct (c <? 1114112) eqn:E4; [|discriminate]. apply Z.ltb_lt in E4.
  intros _.
  replace (in_range 57344 1114111 c) with true
    by (symmetry; apply in_range_true; lia). apply orb_true_r.
Qed.

Lemma encode_defined s b : utf8.encode s = Some b -> is_text s = true.
Proof.
  revert b. induction s as [|c s IH]; intros b H; [reflexivity|].
  cbn in H. destruct (utf8.encode_cp c) as [x|] eqn:Ec; [|discriminate].
  destruct (utf8.encode s) as [y|] eqn:Es; [|discriminate].
  change (is_scalar c && is_text s = true).
  now rewrite (encode_cp_defined c x Ec), (IH y).
Qed.

(** X10. A message that is no text (it holds a lone surrogate, say) makes
    the Error Responder raise [UnicodeEncodeError] before anything is
    sent: the socket and the log are as before. *)
Theorem error_responder_rejects_non_text self os code message w :
  is_text message = false ->
  send_error self os code message w = (Raise UnicodeEncodeError, w).
Proof.
  intro Ht. unfold send_error.
  destruct (utf8.encode (lit "<html><body><h1>" ++ str_of_int code ++ lit " "
                         ++ message ++ lit "</h1></body></html>"))
    as [body|] eqn:E; [|reflexivity].
  exfalso.
  apply (error_page_message code message body) in E. destruct E as [m Hm].
  apply encode_defined in Hm. congruence.
Qed.

Lemma error_responder_rejects_non_text_witness :
  send_error demo_server demo_os 404 [0xD800] (demo_connection [])
  = (Raise UnicodeEncodeError, demo_connection []).
Proof.
  apply (error_responder_rejects_non_text demo_server demo_os 404 [0xD800]
           (demo_connection [])).
  reflexivity.
Defined.

(* ================================================================== *)
(** * Part VII: the listener and the entry point *)
(* ================================================================== *)

(** The loop over a run of connections whose threads start. *)
Lemma accept_loop_dispatches conns : forall tail l,
  accept_loop (map arrives conns ++ tail) l
  = accept_loop tail
      {| self_socket := self_socket l;
         console := console l ++ map (fun ca => connection_from (snd ca)) conns;
         threads := threads l ++ map fst conns |}.
Proof.
  induction conns as [|[c a] conns IH]; intros tail l.
  - cbn. rewrite !app_nil_r. now destruct l.
  - cbn [map app arrives fst snd accept_loop say]. rewrite IH.
    unfold say. cbn [self_socket console threads].
    now rewrite <- !app_assoc.
Qed.

Lemma accept_loop_keeps_socket todo : forall l,
  self_socket (snd (accept_loop todo l)) = self_socket l.
Proof.
  induction todo as [|[c a [e|]| e |] todo IH]; intro l; cbn;
    try reflexivity.
  now rewrite IH.
Qed.

Lemma accept_loop_waits todo : forall l,
  fst (accept_loop todo l) = waiting <-> forallb dispatched todo = true.
Proof.
  induction todo as [|[c a [e|]| e |] todo IH]; intro l; cbn;
    try (split; [discriminate | discriminate]).
  - split; reflexivity.
  - apply IH.
Qed.

Lemma start_try_socket self net :
  match self_socket (snd (start_try self net
                            {| self_socket := None; console := [];
                               threads := [] |})) with
  | None => socket_call net <> None
  | Some s => shut s = false
  end.
Proof.
  unfold start_try.
  destruct (socket_call net); [discriminate|].
  destruct (setsockopt_call net); [reflexivity|].
  destruct (bind_call net); [reflexivity|].
  destruct (listen_call net); [reflexivity|].
  rewrite accept_loop_keeps_socket. reflexivity.
Qed.

(** X11. [start] returns only when a socket call of the set-up fails,
    when [accept] or the start of a thread raises, or on Ctrl-C; as long
    as connections keep arriving it goes on.  When it returns, the
    listening socket, if it was ever created, is closed, and the last line
    on the console tells an interrupt from an error. *)
Theorem start_returns_only_on_failure self net :
  (fst (start self net) = None
   <-> set_up net /\ forallb dispatched (arrivals net) = true)
  /\ forall l, start self net = (Some tt, l) ->
       match self_socket l with
       | None => socket_call net <> None
       | Some s => shut s = true
       end
       /\ exists before,
            console l = before ++ [shutting_down]
            \/ exists e, console l = before ++ [server_error e].
Proof.
  split.
  - unfold start, set_up.
    destruct (start_try self net
                {| self_socket := None; console := []; threads := [] |})
      as [r l] eqn:E.
    assert (Hr : r = waiting
                 <-> (socket_call net = None /\ setsockopt_call net = None
                      /\ bind_call net = None /\ listen_call net = None)
                     /\ forallb dispatched (arrivals net) = true).
    { unfold start_try in E.
      destruct (socket_call net);
        [injection E as <- _; split; [discriminate | intros [[H _] _]; discriminate]|].
      destruct (setsockopt_call net);
        [injection E as <- _; split;
           [discriminate | intros [(_ & H & _) _]; discriminate]|].
      destruct (bind_call net);
        [injection E as <- _; split;
           [discriminate | intros [(_ & _ & H & _) _]; discriminate]|].
      destruct (listen_call net);
        [injection E as <- _; split;
           [discriminate | intros [(_ & _ & _ & H) _]; discriminate]|].
      match type of E with accept_loop ?t ?l0 = _ =>
        pose proof (accept_loop_waits t l0) as W; rewrite E in W end.
      cbn [fst] in W. rewrite W. tauto. }
    destruct r; cbn [fst]; rewrite <- Hr; split; congruence.
  - intros l H. unfold start in H.
    pose proof (start_try_socket self net) as Hs.
    destruct (start_try self net
                {| self_socket := None; console := []; threads := [] |})
      as [r l0]. cbn [snd] in Hs.
    destruct r as [| |e]; [discriminate | |]; injection H as <-;
      (split;
       [ unfold close_listening, say; cbn;
         destruct (self_socket l0); [reflexivity | exact Hs]
       | exists (console l0); unfold close_listening, say; cbn;
         destruct (self_socket l0); cbn; eauto ]).
Qed.

Lemma start_returns_only_on_failure_witness :
  fst (start demo_server demo_network) = Some tt
  /\ exists before,
       console (snd (start demo_server demo_network)) = before ++ [shutting_down]
       \/ exists e,
            console (snd (start demo_server demo_network))
            = before ++ [server_error e].
Proof.
  split; [reflexivity|].
  apply (proj2 (start_returns_only_on_failure demo_server demo_network)
               (snd (start demo_server demo_network)) eq_refl).
Defined.

(** X12. Once the set-up has succeeded, every connection [accept]
    returns is handed to a handler thread of its own, in the order of
    arrival, before the next [accept]: after any number of connections the
    listener still listens on its port, with one thread per connection;
    and a Ctrl-C or an error after them stops the listener without taking
    any of these threads back. *)
Theorem start_dispatches_in_order self net conns tail :
  set_up net ->
  arrivals net = map arrives conns ++ tail ->
  (tail = []
   -> start self net
      = (None,
         {| self_socket := Some (listening_on (port self));
            console := serving (port self) (root self)
                       :: map (fun ca => connection_from (snd ca)) conns;
            threads := map fst conns |}))
  /\ (forall rest, tail = keyboard_interrupt :: rest
      -> start self net
         = (Some tt,
            {| self_socket :=
                 Some {| reuse_address := true; bound_to := Some (port self);
                         backlog := Some 5; shut := true |};
               console := serving (port self) (root self)
                          :: map (fun ca => connection_from (snd ca)) conns
                          ++ [shutting_down];
               threads := map fst conns |}))
  /\ (forall e rest, tail = accept_error e :: rest
      -> start self net
         = (Some tt,
            {| self_socket :=
                 Some {| reuse_address := true; bound_to := Some (port self);
                         backlog := Some 5; shut := true |};
               console := serving (port self) (root self)
                          :: map (fun ca => connection_from (snd ca)) conns
                          ++ [server_error e];
               threads := map fst conns |})).
Proof.
  intros (H1 & H2 & H3 & H4) Harr.
  assert (Htry : start_try self net
                   {| self_socket := None; console := []; threads := [] |}
                 = accept_loop tail
                     {| self_socket := Some (listening_on (port self));
                        console := serving (port self) (root self)
                                   :: map (fun ca => connection_from (snd ca)) conns;
                        threads := map fst conns |}).
  { unfold start_try. rewrite H1, H2, H3, H4, Harr.
    now rewrite accept_loop_dispatches. }
  unfold start. rewrite Htry.
  repeat split.
  - intros ->. reflexivity.
  - intros rest ->. reflexivity.
  - intros e rest ->. reflexivity.
Qed.

Lemma start_dispatches_in_order_witness :
  start demo_server demo_network
  = (Some tt,
     {| self_socket :=
          Some {| reuse_address := true; bound_to := Some 8080;
                  backlog := Some 5; shut := true |};
        console := [ serving 8080 (lit "/srv/www");
                     connection_from (lit "10.0.0.1:40000");
                     connection_from (lit "10.0.0.2:40001");
                     shutting_down ];
        threads := [ demo_client (lit "GET / HTTP/1.1" ++ crlf ++ crlf);
                     demo_client (lit "POST / HTTP/1.1" ++ crlf ++ crlf) ] |}).
Proof.
  apply (proj1 (proj2
    (start_dispatches_in_order demo_server demo_network
       [ (demo_client (lit "GET / HTTP/1.1" ++ crlf ++ crlf), lit "10.0.0.1:40000");
         (demo_client (lit "POST / HTTP/1.1" ++ crlf ++ crlf), lit "10.0.0.2:40001") ]
       [keyboard_interrupt]
       (conj eq_refl (conj eq_refl (conj eq_refl eq_refl)))
       eq_refl)) []).
  reflexivity.
Defined.

(** X13. The program serves only from a directory: when the root it is
    given, made absolute, is not a directory, the entry point prints the
    error and exits with status 1 without creating a socket; otherwise the
    server it starts has that absolute path as its root and the port it
    was given. *)
Theorem main_checks_root_first os args_port args_root net :
  (isdir os (posixpath.abspath (getcwd os) args_root) = false ->
   main os args_port args_root net
   = exited 1 [root_not_a_directory (posixpath.abspath (getcwd os) args_root)])
  /\ (isdir os (posixpath.abspath (getcwd os) args_root) = true ->
      exists r l,
        start {| port := args_port;
                 root := posixpath.abspath (getcwd os) args_root |} net = (r, l)
        /\ main os args_port args_root net = served r l).
Proof.
  unfold main, __init__, registered, isdir. cbn. split; intro H.
  - destruct (stat os (posixpath.abspath (getcwd os) args_root)) as [[]|];
      try reflexivity; discriminate.
  - destruct (stat os (posixpath.abspath (getcwd os) args_root)) as [[]|];
      try discriminate. cbn.
    destruct (start {| port := args_port;
                       root := posixpath.abspath (getcwd os) args_root |} net)
      as [r l]. eauto.
Qed.

Lemma main_checks_root_first_witness :
  main demo_os 8080 (lit "/srv/nothing") demo_network
  = exited 1 [root_not_a_directory (lit "/srv/nothing")]
  /\ exists r l, main demo_os 8080 (lit "../../srv/www") demo_network = served r l.
Proof.
  split.
  - apply (proj1 (main_checks_root_first demo_os 8080 (lit "/srv/nothing")
                    demo_network)).
    reflexivity.
  - destruct (proj2 (main_checks_root_first demo_os 8080 (lit "../../srv/www")
                       demo_network) eq_refl) as (r & l & _ & H).
    now exists r, l.
Defined.

(* ================================================================== *)
(** * Part VIII: targets without [..] stay in the document tree *)
(* ================================================================== *)

(** ** Components *)

Lemma split_on_from_app_sep a : forall cur b,
  split_on_from 47 cur (a ++ 47 :: b)
  = split_on_from 47 cur a ++ split_on_from 47 [] b.
Proof.
  induction a as [|x a IH]; intros cur b; [reflexivity|].
  cbn [app split_on_from]. destruct (x =? 47); rewrite IH; reflexivity.
Qed.

Lemma split_on_app_sep a b :
  split_on 47 (a ++ 47 :: b) = split_on 47 a ++ split_on 47 b.
Proof. apply split_on_from_app_sep. Qed.

Lemma split_on_from_no_sep p : forall cur,
  no_sep cur = true -> forallb no_sep (split_on_from 47 cur p) = true.
Proof.
  induction p as [|x p IH]; intros cur H; cbn.
  - now rewrite H.
  - destruct (x =? 47) eqn:E.
    + cbn. now rewrite H, IH.
    + apply IH. unfold no_sep in *. now rewrite forallb_app, H; cbn; rewrite E.
Qed.

Lemma split_on_no_sep p : forallb no_sep (split_on 47 p) = true.
Proof. now apply split_on_from_no_sep. Qed.

Lemma lstrip_not_absolute x : startswith (lstrip x (lit "/")) (lit "/") = false.
Proof.
  change (lit "/") with [47]. induction x as [|c x IH]; [reflexivity|].
  cbn [lstrip existsb]. rewrite orb_false_r.
  destruct (c =? 47) eqn:E; [exact IH|].
  cbn [startswith]. rewrite Z.eqb_sym, E. reflexivity.
Qed.

(** The components of the stripped path are the last components of the
    path. *)
Lemma split_on_lstrip x :
  exists pre, split_on 47 x = pre ++ split_on 47 (lstrip x (lit "/")).
Proof.
  change (lit "/") with [47]. induction x as [|c x [pre IH]]; [now exists []|].
  cbn [lstrip existsb]. rewrite orb_false_r.
  destruct (c =? 47) eqn:E; [|now exists []].
  apply Z.eqb_eq in E. subst c. exists ([] :: pre).
  change (47 :: x) with ([] ++ 47 :: x). rewrite split_on_app_sep.
  now rewrite IH.
Qed.

Lemma no_dotdot_lstrip x :
  no_dotdot x = true -> no_dotdot (lstrip x (lit "/")) = true.
Proof.
  unfold no_dotdot. destruct (split_on_lstrip x) as [pre ->].
  rewrite forallb_app. intro H. apply andb_prop in H. tauto.
Qed.

Lemma no_dotdot_index target :
  endswith target (lit "/") = true -> no_dotdot target = true ->
  no_dotdot (target ++ lit "index.html") = true.
Proof.
  change (lit "/") with [47]. intros He H. apply endswith_iff in He.
  destruct He as [t ->]. unfold no_dotdot in *.
  rewrite <- app_assoc. cbn [app] in *. rewrite split_on_app_sep in *.
  rewrite forallb_app in *. apply andb_prop in H. destruct H as [H _].
  now rewrite H.
Qed.

(** ** The loop of [normpath] on components without [..] *)

Lemma norm_loop_no_dotdot k cs : forall acc,
  forallb (fun comp => negb (str_eqb comp posixpath.dotdot)) cs = true ->
  fold_left (posixpath.norm_step k) cs acc = acc ++ filter kept cs.
Proof.
  induction cs as [|c cs IH]; intros acc H; cbn [fold_left filter].
  - now rewrite app_nil_r.
  - cbn [forallb] in H. apply andb_prop in H. destruct H as [Hc Hcs].
    rewrite IH by exact Hcs. unfold posixpath.norm_step, kept.
    destruct (str_eqb c [] || str_eqb c posixpath.dot); cbn [negb];
      [reflexivity|].
    rewrite Hc. cbn [orb]. now rewrite <- app_assoc.
Qed.

Lemma forallb_removelast {A} (f : A -> bool) l :
  forallb f l = true -> forallb f (removelast l) = true.
Proof.
  induction l as [|x l IH]; [reflexivity|]. cbn [forallb]. intro H.
  apply andb_prop in H. destruct H as [Hx Hl].
  destruct l as [|y l]; [reflexivity|].
  cbn [removelast forallb]. rewrite Hx. now apply IH.
Qed.

Lemma norm_step_clean k acc comp :
  forallb clean acc = true -> no_sep comp = true ->
  forallb clean (posixpath.norm_step k acc comp) = true.
Proof.
  intros Hacc Hc. unfold posixpath.norm_step.
  destruct (str_eqb comp [] || str_eqb comp posixpath.dot) eqn:E; [exact Hacc|].
  apply orb_false_iff in E. destruct E as [E _].
  assert (Hclean : clean comp = true).
  { unfold clean. rewrite Hc. destruct comp; [discriminate | reflexivity]. }
  destruct (negb (str_eqb comp posixpath.dotdot)
            || (k =? 0) && is_empty acc
            || negb (is_empty acc) && str_eqb (last acc []) posixpath.dotdot).
  - rewrite forallb_app, Hacc. cbn. now rewrite Hclean.
  - destruct (negb (is_empty acc)); [now apply forallb_removelast | exact Hacc].
Qed.

Lemma norm_loop_clean k cs : forall acc,
  forallb clean acc = true -> forallb no_sep cs = true ->
  forallb clean (fold_left (posixpath.norm_step k) cs acc) = true.
Proof.
  induction cs as [|c cs IH]; intros acc Hacc Hcs; [exact Hacc|].
  cbn in Hcs. apply andb_prop in Hcs. destruct Hcs as [Hc Hcs].
  cbn [fold_left]. apply IH; [now apply norm_step_clean | exact Hcs].
Qed.

(** ** Joining components *)

Lemma str_join_cons sep0 c S :
  S <> [] -> str_join sep0 (c :: S) = c ++ sep0 ++ str_join sep0 S.
Proof. destruct S; [congruence | reflexivity]. Qed.

Lemma str_join_app sep0 S F :
  S <> [] -> F <> [] ->
  str_join sep0 (S ++ F) = str_join sep0 S ++ sep0 ++ str_join sep0 F.
Proof.
  intros HS HF. induction S as [|c S IH]; [congruence|].
  destruct S as [|d S].
  - cbn [app]. rewrite str_join_cons by exact HF. reflexivity.
  - change ((c :: d :: S) ++ F) with (c :: ((d :: S) ++ F)).
    rewrite str_join_cons by discriminate.
    rewrite IH by discriminate.
    rewrite (str_join_cons sep0 c (d :: S)) by discriminate.
    now rewrite <- !app_assoc.
Qed.

Lemma str_join_clean_head S :
  forallb clean S = true -> S <> [] ->
  exists c tail, str_join posixpath.sep S = c :: tail /\ c <> 47.
Proof.
  destruct S as [|x S]; [congruence|]. intros H _.
  cbn in H. apply andb_prop in H. destruct H as [Hx _].
  unfold clean in Hx. apply andb_prop in Hx. destruct Hx as [Hne Hns].
  destruct x as [|c x]; [discriminate|].
  cbn in Hns. apply andb_prop in Hns. destruct Hns as [Hc _].
  apply negb_true_iff, Z.eqb_neq in Hc.
  destruct S; cbn; eauto.
Qed.

(** ** Normalised absolute paths *)

Lemma count_initial_slashes_absolute path :
  posixpath.isabs path = true ->
  posixpath.count_initial_slashes path = 1
  \/ posixpath.count_initial_slashes path = 2.
Proof.
  unfold posixpath.isabs, posixpath.count_initial_slashes. intros ->.
  destruct (_ && _); auto.
Qed.

Lemma startswith_sep_cons c s :
  c <> 47 -> startswith (c :: s) posixpath.sep = false.
Proof.
  intro H. change posixpath.sep with [47]. cbn [startswith].
  destruct (Z.eqb_spec 47 c); [congruence | reflexivity].
Qed.

Lemma startswith_sep_false z :
  startswith z posixpath.sep = false ->
  z = [] \/ exists c s, z = c :: s /\ c <> 47.
Proof.
  intro H. destruct z as [|c s]; [now left|]. right. exists c, s.
  split; [reflexivity|]. intros ->. discriminate H.
Qed.

Lemma count_initial_slashes_slashes k z :
  k = 1 \/ k = 2 -> startswith z posixpath.sep = false ->
  posixpath.count_initial_slashes (slashes k ++ z) = k.
Proof.
  intros Hk Hz.
  destruct (startswith_sep_false z Hz) as [-> | (c & s & -> & Hc)];
    destruct Hk as [-> | ->]; try reflexivity;
    assert (E : (47 =? c) = false) by (apply Z.eqb_neq; congruence);
    [change (slashes 1) with [47] | change (slashes 2) with [47; 47]];
    unfold posixpath.count_initial_slashes;
    change posixpath.sep with [47]; cbn [startswith app andb negb];
    rewrite ?Z.eqb_refl, ?E; reflexivity.
Qed.

Lemma normpath_shape path :
  posixpath.isabs path = true ->
  posixpath.normpath path
  = slashes (posixpath.count_initial_slashes path)
    ++ str_join posixpath.sep
         (fold_left (posixpath.norm_step (posixpath.count_initial_slashes path))
                    (split_on 47 path) []).
Proof.
  intro H. destruct (isabs_cons path H) as [p ->].
  unfold posixpath.normpath. cbn [is_empty].
  destruct (count_initial_slashes_absolute _ H) as [E|E]; rewrite E;
    reflexivity.
Qed.

Lemma join_absolute a b :
  posixpath.isabs a = true -> posixpath.isabs (posixpath.join a b) = true.
Proof.
  intro H. unfold posixpath.join, posixpath.isabs in *.
  destruct (startswith b posixpath.sep) eqn:E; [exact E|].
  apply startswith_iff in H. destruct H as [t ->].
  destruct (_ || _); rewrite <- app_assoc; apply startswith_app.
Qed.

(** Joining a path that is not absolute and has no [..] to a normalised
    absolute directory, and normalising, gives a path of the directory. *)
Lemma under_normalised_root root t :
  posixpath.isabs root = true ->
  posixpath.normpath root = root ->
  startswith t posixpath.sep = false ->
  forallb (fun comp => negb (str_eqb comp posixpath.dotdot)) (split_on 47 t)
  = true ->
  inside root (posixpath.normpath (posixpath.join root t)) = true.
Proof.
  intros Habs Hnorm Ht Hdd.
  pose proof (normpath_shape root Habs) as Hshape. rewrite Hnorm in Hshape.
  pose proof (count_initial_slashes_absolute root Habs) as Hk.
  pose proof (join_absolute root t Habs) as Hjabs.
  remember (posixpath.count_initial_slashes root) as k eqn:Ek.
  remember (fold_left (posixpath.norm_step k) (split_on 47 root) []) as S
    eqn:ES.
  assert (Hclean : forallb clean S = true).
  { subst S. apply norm_loop_clean; [reflexivity | apply split_on_no_sep]. }
  assert (Hends : S = [] -> endswith root posixpath.sep = true).
  { intros ->. rewrite Hshape. destruct Hk as [-> | ->]; reflexivity. }
  assert (Hj : exists r T, posixpath.join root t = r ++ 47 :: t
            /\ fold_left (posixpath.norm_step k) (split_on 47 r) [] = S
            /\ posixpath.join root t = root ++ T
            /\ startswith (str_join posixpath.sep S ++ T) posixpath.sep = false).
  { unfold posixpath.join. rewrite Ht.
    destruct (isabs_cons root Habs) as [p Hp].
    replace (is_empty root) with false by (rewrite Hp; reflexivity).
    cbn [orb].
    assert (Hhead : forall T, S <> [] ->
              startswith (str_join posixpath.sep S ++ T) posixpath.sep = false).
    { intros T HS.
      destruct (str_join_clean_head S Hclean HS) as (c & tail & -> & Hc).
      now apply startswith_sep_cons. }
    destruct (endswith root posixpath.sep) eqn:He.
    - pose proof He as He'. apply endswith_iff in He'. destruct He' as [r Hr].
      exists r, t. split; [rewrite Hr, <- app_assoc; reflexivity|].
      split.
      { rewrite ES, Hr. change posixpath.sep with [47].
        rewrite split_on_app_sep, fold_left_app. reflexivity. }
      split; [reflexivity|].
      destruct S as [|x S']; [exact Ht | now apply Hhead].
    - exists root, (47 :: t). repeat split.
      + now rewrite ES.
      + destruct S as [|x S']; [|now apply Hhead].
        discriminate (Hends eq_refl). }
  destruct Hj as (r & T & Hjr & HS & HjT & Hhead).
  assert (Hcount : posixpath.count_initial_slashes (posixpath.join root t) = k).
  { rewrite HjT, Hshape, <- app_assoc.
    now apply count_initial_slashes_slashes. }
  assert (Hnp : posixpath.normpath (posixpath.join root t)
                = slashes k ++ str_join posixpath.sep
                                 (S ++ filter kept (split_on 47 t))).
  { rewrite normpath_shape by exact Hjabs. rewrite Hcount.
    rewrite Hjr, split_on_app_sep, fold_left_app, HS.
    now rewrite norm_loop_no_dotdot by exact Hdd. }
  rewrite Hnp. unfold inside.
  destruct (filter kept (split_on 47 t)) as [|f F].
  - rewrite app_nil_r, <- Hshape, str_eqb_refl. reflexivity.
  - apply orb_true_iff. right. destruct S as [|x S'].
    + rewrite Hends by reflexivity. cbn [app].
      replace (slashes k) with root
        by (rewrite Hshape at 1; apply app_nil_r).
      apply startswith_app.
    + rewrite str_join_app by discriminate.
      rewrite app_assoc, <- Hshape.
      destruct (endswith root posixpath.sep);
        [|rewrite app_assoc]; apply startswith_app.
Qed.

(** X8. A target none of whose components is [..] is resolved to a path
    inside the document root (the root itself, or a path below it),
    whenever the root is a normalised absolute path, as [__init__] makes
    it: the containment test of line 61 passes, and what is then looked
    up lies in the document tree. *)
Theorem target_without_dotdot_stays_inside self os target :
  posixpath.isabs (root self) = true ->
  posixpath.normpath (root self) = root self ->
  no_dotdot target = true ->
  inside (root self) (requested_path_of self os target) = true
  /\ startswith (requested_path_of self os target) (root self) = true.
Proof.
  intros Habs Hnorm Hdd.
  assert (Hin : inside (root self) (requested_path_of self os target) = true).
  { unfold requested_path_of, posixpath.abspath.
    rewrite (join_absolute _ _ Habs). cbn [negb].
    apply under_normalised_root; try assumption.
    - apply lstrip_not_absolute.
    - apply no_dotdot_lstrip.
      destruct (endswith target (lit "/")) eqn:E;
        [now apply no_dotdot_index | exact Hdd]. }
  split; [exact Hin|].
  unfold inside in Hin. apply orb_true_iff in Hin. destruct Hin as [H|H].
  - apply str_eqb_eq in H. rewrite H. apply startswith_iff. exists [].
    now rewrite app_nil_r.
  - apply startswith_iff in H. destruct H as [t H]. rewrite H.
    destruct (endswith (root self) posixpath.sep);
      [|rewrite <- app_assoc]; apply startswith_app.
Qed.

Lemma target_without_dotdot_stays_inside_witness :
  inside (root demo_server)
    (requested_path_of demo_server demo_os (lit "/docs/./a//b.html")) = true.
Proof.
  apply (target_without_dotdot_stays_inside demo_server demo_os
           (lit "/docs/./a//b.html")); reflexivity.
Defined.

(** ** [normpath] on a normalised absolute path *)

Lemma forallb_last {A} (f : A -> bool) l d :
  forallb f l = true -> l <> [] -> f (last l d) = true.
Proof.
  induction l as [|x l IH]; [congruence|]. cbn [forallb]. intros H _.
  apply andb_prop in H. destruct H as [Hx Hl].
  destruct l as [|y l]; [exact Hx|]. apply IH; [exact Hl | discriminate].
Qed.

Lemma norm_step_plain k acc comp :
  (k =? 0) = false ->
  forallb plain acc = true -> no_sep comp = true ->
  forallb plain (posixpath.norm_step k acc comp) = true.
Proof.
  intros Hk Hacc Hc. unfold posixpath.norm_step.
  destruct (str_eqb comp [] || str_eqb comp posixpath.dot) eqn:E; [exact Hacc|].
  rewrite Hk. cbn [andb orb].
  destruct (str_eqb comp posixpath.dotdot) eqn:Edd; cbn [negb orb].
  - destruct acc as [|a acc]; [reflexivity|]. cbn [is_empty negb andb].
    assert (Hl : plain (last (a :: acc) []) = true)
      by (apply forallb_last; [exact Hacc | discriminate]).
    unfold plain in Hl. apply andb_prop in Hl. destruct Hl as [_ Hl].
    apply negb_true_iff in Hl. rewrite Hl.
    now apply forallb_removelast.
  - rewrite forallb_app, Hacc. cbn [forallb]. unfold plain, clean, kept.
    rewrite E, Edd, Hc. apply orb_false_iff in E. destruct E as [E _].
    destruct comp; [discriminate E | reflexivity].
Qed.

Lemma norm_loop_plain k cs : forall acc,
  (k =? 0) = false ->
  forallb plain acc = true -> forallb no_sep cs = true ->
  forallb plain (fold_left (posixpath.norm_step k) cs acc) = true.
Proof.
  induction cs as [|c cs IH]; intros acc Hk Hacc Hcs; [exact Hacc|].
  cbn [forallb] in Hcs. apply andb_prop in Hcs. destruct Hcs as [Hc Hcs].
  cbn [fold_left]. apply IH; [exact Hk | now apply norm_step_plain | exact Hcs].
Qed.

Lemma forallb_impl {A} (f g : A -> bool) l :
  (forall x, f x = true -> g x = true) ->
  forallb f l = true -> forallb g l = true.
Proof.
  intro H. induction l as [|x l IH]; [reflexivity|]. cbn [forallb]. intro E.
  apply andb_prop in E. destruct E as [Ex El]. now rewrite (H x Ex), IH.
Qed.

Lemma filter_all {A} (f : A -> bool) l : forallb f l = true -> filter f l = l.
Proof.
  induction l as [|x l IH]; [reflexivity|]. cbn [forallb filter]. intro E.
  apply andb_prop in E. destruct E as [-> El]. now rewrite IH.
Qed.

Lemma split_on_from_one x : forall cur,
  no_sep x = true -> split_on_from 47 cur x = [cur ++ x].
Proof.
  induction x as [|c x IH]; intros cur H; cbn [split_on_from].
  - now rewrite app_nil_r.
  - cbn in H. apply andb_prop in H. destruct H as [Hc Hx].
    apply negb_true_iff in Hc. rewrite Hc, IH by exact Hx.
    now rewrite <- app_assoc.
Qed.

Lemma split_on_join S :
  S <> [] -> forallb no_sep S = true ->
  split_on 47 (str_join posixpath.sep S) = S.
Proof.
  induction S as [|x S IH]; [congruence|]. intros _ H.
  cbn [forallb] in H. apply andb_prop in H. destruct H as [Hx HS].
  destruct S as [|y S].
  - cbn [str_join]. unfold split_on. now rewrite split_on_from_one.
  - rewrite str_join_cons by discriminate.
    change (x ++ posixpath.sep ++ str_join posixpath.sep (y :: S))
      with (x ++ 47 :: str_join posixpath.sep (y :: S)).
    rewrite split_on_app_sep, IH by (discriminate || exact HS).
    unfold split_on. now rewrite split_on_from_one.
Qed.

Lemma normpath_idempotent path :
  posixpath.isabs path = true ->
  posixpath.normpath (posixpath.normpath path) = posixpath.normpath path.
Proof.
  intro Habs.
  pose proof (normpath_absolute path Habs) as Habs'.
  rewrite (normpath_shape (posixpath.normpath path) Habs').
  rewrite (normpath_shape path Habs).
  pose proof (count_initial_slashes_absolute path Habs) as Hk.
  remember (posixpath.count_initial_slashes path) as k eqn:Ek.
  remember (fold_left (posixpath.norm_step k) (split_on 47 path) []) as S
    eqn:ES.
  assert (Hk0 : (k =? 0) = false) by (destruct Hk as [-> | ->]; reflexivity).
  assert (Hplain : forallb plain S = true).
  { subst S. apply norm_loop_plain;
      [exact Hk0 | reflexivity | apply split_on_no_sep]. }
  assert (Hclean : forallb clean S = true).
  { revert Hplain. apply forallb_impl. intros x Hx. unfold plain in Hx.
    apply andb_prop in Hx. destruct Hx as [Hx _].
    apply andb_prop in Hx. tauto. }
  assert (Hhead : startswith (str_join posixpath.sep S) posixpath.sep = false).
  { destruct S as [|x S']; [reflexivity|].
    destruct (str_join_clean_head (x :: S') Hclean) as (c & tail & -> & Hc);
      [discriminate | now apply startswith_sep_cons]. }
  rewrite (count_initial_slashes_slashes k _ Hk Hhead).
  f_equal. f_equal.
  assert (Hcomps : fold_left (posixpath.norm_step k)
                     (split_on 47 (str_join posixpath.sep S)) [] = S).
  { destruct S as [|x S'] eqn:E; [reflexivity|]. rewrite <- E in *.
    rewrite split_on_join.
    - rewrite norm_loop_no_dotdot.
      + cbn [app]. apply filter_all. revert Hplain. apply forallb_impl.
        intros c Hc. unfold plain in Hc. apply andb_prop in Hc.
        destruct Hc as [Hc _]. apply andb_prop in Hc. tauto.
      + revert Hplain. apply forallb_impl. intros c Hc. unfold plain in Hc.
        apply andb_prop in Hc. tauto.
    - rewrite E. discriminate.
    - revert Hclean. apply forallb_impl. intros c Hc. unfold clean in Hc.
      apply andb_prop in Hc. tauto. }
  destruct Hk as [-> | ->].
  - change (slashes 1 ++ str_join posixpath.sep S)
      with ([] ++ 47 :: str_join posixpath.sep S).
    rewrite split_on_app_sep, fold_left_app. exact Hcomps.
  - change (slashes 2 ++ str_join posixpath.sep S)
      with ([] ++ 47 :: [] ++ 47 :: str_join posixpath.sep S).
    rewrite !split_on_app_sep, !fold_left_app. exact Hcomps.
Qed.

Lemma abspath_normalised cwd path :
  posixpath.isabs cwd = true ->
  posixpath.normpath (posixpath.abspath cwd path) = posixpath.abspath cwd path.
Proof.
  intro Hcwd. unfold posixpath.abspath.
  destruct (posixpath.isabs path) eqn:E; cbn [negb];
    apply normpath_idempotent; [exact E | now apply join_absolute].
Qed.

(** X14. Whatever [--root] is given, the document root of a constructed
    server is an absolute path in normal form (normalising it again
    changes nothing) that names a directory, so every target without a
    [..] component is resolved inside it. *)
Theorem constructed_root_is_normalised os port_arg root_arg self target :
  posixpath.isabs (getcwd os) = true ->
  __init__ os port_arg root_arg = Some self ->
  posixpath.isabs (root self) = true
  /\ posixpath.normpath (root self) = root self
  /\ isdir os (root self) = true
  /\ (no_dotdot target = true ->
      inside (root self) (requested_path_of self os target) = true).
Proof.
  intros Hcwd Hinit. unfold __init__ in Hinit. cbn [root] in Hinit.
  destruct (isdir os (posixpath.abspath (getcwd os) root_arg)) eqn:Edir;
    [|discriminate Hinit].
  cbn [negb] in Hinit. injection Hinit as <-. cbn [root].
  pose proof (abspath_absolute (getcwd os) root_arg Hcwd) as Habs.
  pose proof (abspath_normalised (getcwd os) root_arg Hcwd) as Hnorm.
  repeat match goal with |- _ /\ _ => split end; try assumption.
  intro Hdd. unfold requested_path_of. cbn [root].
  remember (posixpath.abspath (getcwd os) root_arg) as r eqn:Er.
  unfold posixpath.abspath. rewrite (join_absolute _ _ Habs). cbn [negb].
  apply under_normalised_root; try assumption.
  - apply lstrip_not_absolute.
  - apply no_dotdot_lstrip.
    destruct (endswith target (lit "/")) eqn:E;
      [now apply no_dotdot_index | exact Hdd].
Qed.

Lemma constructed_root_is_normalised_witness :
  posixpath.normpath (root demo_server) = root demo_server
  /\ inside (root demo_server)
       (requested_path_of demo_server demo_os (lit "/a/./b/")) = true.
Proof.
  destruct (constructed_root_is_normalised demo_os 8080
              (lit "../../srv/./www/") demo_server (lit "/a/./b/"))
    as (_ & Hnorm & _ & Hin); [reflexivity | reflexivity |].
  split; [exact Hnorm | apply Hin; reflexivity].
Defined.

(* ================================================================== *)
(** * Part IX: content types, letter case and compression suffixes *)
(* ================================================================== *)

(** The extension as written is no key of the table of encodings: its
    lower-case form is that of no key. *)
Ltac no_encoding Hlow :=
  unfold mimetypes.default_encodings_map; cbn [lookup];
  repeat match goal with
  | |- context [str_eqb ?k ?e] =>
    let E := fresh "E" in
    destruct (str_eqb k e) eqn:E;
    [ apply str_eqb_eq in E; rewrite <- E in Hlow; vm_compute in Hlow;
      discriminate Hlow
    | clear E ]
  end;
  reflexivity.

Lemma content_type_of_lowered os platform_types url base ext :
  mime os = main_mimetypes platform_types ->
  posixpath.splitext url = (base, ext) ->
  is_ascii ext = true ->
  lookup mimetypes.default_suffix_map (ascii_lower ext) = None ->
  lookup mimetypes.default_encodings_map ext = None ->
  content_type_of os url
  = or_else (lookup (mimetypes.types_map (main_mimetypes platform_types))
                    (ascii_lower ext))
            "application/octet-stream".
Proof.
  intros Hmime Hsplit Hascii Hs He.
  rewrite (content_type_of_plain os url base ext Hsplit);
    rewrite Hmime; unfold str_lower; rewrite ?Hascii; auto.
Qed.

(** X15. The extension is matched whatever its letter case: a file named
    [LOGO.PNG] or [Style.Css] gets the type the program registered for
    [.png] or [.css], whatever the platform's table holds. *)
Theorem extension_case_is_ignored os platform_types filepath base ext :
  mime os = main_mimetypes platform_types ->
  posixpath.splitext filepath = (base, ext) ->
  is_ascii ext = true ->
  (ascii_lower ext = lit ".css" ->
   content_type_of os filepath = "text/css"%string)
  /\ (ascii_lower ext = lit ".jpg" \/ ascii_lower ext = lit ".jpeg" ->
      content_type_of os filepath = "image/jpeg"%string)
  /\ (ascii_lower ext = lit ".png" ->
      content_type_of os filepath = "image/png"%string)
  /\ (ascii_lower ext = lit ".gif" ->
      content_type_of os filepath = "image/gif"%string).
Proof.
  intros Hmime Hsplit Hascii.
  pose proof (content_type_of_lowered os platform_types filepath base ext
                Hmime Hsplit Hascii) as H.
  repeat match goal with |- _ /\ _ => split end.
  - intro Hlow. rewrite H; [now rewrite Hlow | now rewrite Hlow |].
    no_encoding Hlow.
  - intros [Hlow|Hlow]; (rewrite H; [now rewrite Hlow | now rewrite Hlow |]);
      no_encoding Hlow.
  - intro Hlow. rewrite H; [now rewrite Hlow | now rewrite Hlow |].
    no_encoding Hlow.
  - intro Hlow. rewrite H; [now rewrite Hlow | now rewrite Hlow |].
    no_encoding Hlow.
Qed.

Lemma extension_case_is_ignored_witness :
  content_type_of demo_os (lit "/srv/www/LOGO.PNG") = "image/png"%string
  /\ content_type_of demo_os (lit "/srv/www/Style.Css") = "text/css"%string.
Proof.
  split.
  - destruct (extension_case_is_ignored demo_os demo_types
                (lit "/srv/www/LOGO.PNG") (lit "/srv/www/LOGO") (lit ".PNG")
                eq_refl eq_refl eq_refl) as (_ & _ & H & _).
    apply H. reflexivity.
  - destruct (extension_case_is_ignored demo_os demo_types
                (lit "/srv/www/Style.Css") (lit "/srv/www/Style") (lit ".Css")
                eq_refl eq_refl eq_refl) as (H & _).
    apply H. reflexivity.
Defined.

Lemma encoding_suffix ext enc :
  lookup mimetypes.default_encodings_map ext = Some enc ->
  ext = lit ".gz" \/ ext = lit ".Z" \/ ext = lit ".bz2" \/ ext = lit ".xz"
  \/ ext = lit ".br".
Proof.
  unfold mimetypes.default_encodings_map. cbn [lookup]. intro H.
  repeat match type of H with
  | context [str_eqb ?k ext] =>
    let E := fresh "E" in
    destruct (str_eqb k ext) eqn:E;
    [ apply str_eqb_eq in E; symmetry in E; tauto | ]
  end.
  discriminate H.
Qed.

(** X16. A compression suffix is looked through: for a file whose
    extension is [.gz], [.Z], [.bz2], [.xz] or [.br], the content type is
    that of the extension in front of it, so [site.css.gz] is announced as
    [text/css]. *)
Theorem compressed_file_gets_inner_type
    os platform_types filepath base ext enc inner_base inner_ext :
  mime os = main_mimetypes platform_types ->
  posixpath.splitext filepath = (base, ext) ->
  lookup mimetypes.default_encodings_map ext = Some enc ->
  posixpath.splitext base = (inner_base, inner_ext) ->
  content_type_of os filepath
  = or_else (lookup (mimetypes.types_map (mime os))
                    (str_lower (unicode_lower os) inner_ext))
            "application/octet-stream"
  /\ (inner_ext = lit ".css" ->
      content_type_of os filepath = "text/css"%string).
Proof.
  intros Hmime Hsplit Henc Hinner.
  assert (Hsuf : lookup mimetypes.default_suffix_map
                        (str_lower (unicode_lower os) ext) = None).
  { destruct (encoding_suffix ext enc Henc) as [-> | [-> | [-> | [-> | ->]]]];
      reflexivity. }
  assert (Hct : content_type_of os filepath
    = or_else (lookup (mimetypes.types_map (mime os))
                      (str_lower (unicode_lower os) inner_ext))
              "application/octet-stream").
  { unfold content_type_of, mimetypes.guess_type. rewrite Hsplit, Hmime.
    cbn [mimetypes.suffix_loop main_mimetypes mimetypes.init mimetypes.add_type
         mimetypes.suffix_map mimetypes.encodings_map].
    rewrite Hsuf, Henc, Hinner. cbn [snd].
    destruct (lookup _ (str_lower (unicode_lower os) inner_ext));
      reflexivity. }
  split; [exact Hct|]. intros ->. rewrite Hct, Hmime. reflexivity.
Qed.

Lemma compressed_file_gets_inner_type_witness :
  content_type_of demo_os (lit "/srv/www/site.css.gz") = "text/css"%string.
Proof.
  destruct (compressed_file_gets_inner_type demo_os demo_types
              (lit "/srv/www/site.css.gz") (lit "/srv/www/site.css")
              (lit ".gz") "gzip"%string (lit "/srv/www/site") (lit ".css")
              eq_refl eq_refl eq_refl eq_refl) as (_ & H).
  apply H. reflexivity.
Defined.
